(** * gemini-cli-obs: the analytics engine, embedded and verified

    A shallow embedding of the TypeScript sources of the observability
    server (metrics/latency.ts, metrics/cost.ts, metrics/aggregator.ts,
    db/queries/*.ts, tools/end_session.ts, tools/record_event.ts,
    tools/start_session.ts, tools/set_budget.ts, tools/get_latency_stats.ts,
    tools/export_metrics.ts) together with the properties the
    specification states about them and further properties read off the
    code.

    Conventions of the embedding.

    - A JavaScript [number] that the code only ever uses as an integer
      (durations in milliseconds, character counts, event counts, token
      estimates, array lengths) is a [Z].  A [number] that carries a
      fraction (US dollars, percentages, rates) is an exact rational [Q]:
      the development reasons about the real-number meaning of the
      arithmetic and compares such values with [==].  Module [Binary64]
      re-runs the cost formulas on IEEE-754 doubles for the scenario the
      specification quotes.
    - Where a test of the code or a value it reports depends on how a
      double rounds (the percentages and thresholds of the comparator,
      the alert level of the budget check), module [Doubles] is that
      code with every [number] a binary64 double and every operator the
      IEEE-754 one, and the properties of those tests are stated over
      it.
    - [T | null] is [option T]; a JavaScript truthiness test is written
      out ([truthy_string], [truthy_number]).
    - A [Map] is an association list in insertion order, since the code
      iterates over [entries()].
    - The SQLite store is a record of tables; a prepared statement is a
      function over the tables; a handler that writes takes the store
      and returns the new one. *)

From Stdlib Require Import ZArith QArith Qround List String Ascii Bool Lia Lqa.
From Stdlib Require Import Sorting.Permutation Sorting.Sorted.
From Stdlib Require Import Floats.
From Stdlib Require OrderedTypeEx.
Import ListNotations.

Set Implicit Arguments.
Local Open Scope Z_scope.

(* ================================================================= *)
(** ** The JavaScript runtime the sources rely on *)

Module Js.

(** [Math.ceil] and [Math.round] on a rational; [Math.round] rounds a
    half towards plus infinity. *)
Definition Math_ceil (x : Q) : Z := Qceiling x.
Definition Math_round (x : Q) : Z := Qfloor (x + (1 # 2))%Q.

Definition Math_max (a b : Z) : Z := Z.max a b.
Definition Math_min (a b : Z) : Z := Z.min a b.

(** [a > b] on fractional numbers. *)
Definition Qgtb (a b : Q) : bool := negb (Qle_bool a b).
(** [a >= b] on fractional numbers. *)
Definition Qgeb (a b : Q) : bool := Qle_bool b a.

(** Truthiness of [string | null] and of a [number]. *)
Definition truthy_string (s : option string) : bool :=
  match s with
  | None => false
  | Some s => negb (String.eqb s EmptyString)
  end.

Definition truthy_number (n : Z) : bool := negb (n =? 0).

(** [x ?? d] *)
Definition nullish {A : Type} (x : option A) (d : A) : A :=
  match x with Some v => v | None => d end.

(** [s.includes(sub)] *)
Fixpoint String_includes (sub s : string) : bool :=
  String.prefix sub s ||
  match s with
  | EmptyString => false
  | String _ rest => String_includes sub rest
  end.

(** [Array.prototype.sort(cmp)]: a stable sort driven by the sign of
    the comparator.  The elements are inserted from the right, each one
    before the first element it does not compare greater than, so equal
    elements keep their order. *)
Fixpoint sort_insert {A : Type} (cmp : A -> A -> Z) (x : A) (l : list A) : list A :=
  match l with
  | [] => [x]
  | y :: l' => if cmp x y <=? 0 then x :: y :: l' else y :: sort_insert cmp x l'
  end.

Definition Array_sort {A : Type} (cmp : A -> A -> Z) (l : list A) : list A :=
  fold_right (sort_insert cmp) [] l.

(** [arr.length] *)
Definition Array_length {A : Type} (arr : list A) : Z := Z.of_nat (List.length arr).

(** [arr[i] as number] for an index the caller has clamped. *)
Definition Array_at (arr : list Z) (i : Z) : Z := nth (Z.to_nat i) arr 0.

(** [arr.reduce((acc, v) => acc + v, 0)] *)
Definition Array_sum (arr : list Z) : Z := fold_left Z.add arr 0.

(** [Map<string, V>]: entries in the order their keys were first set. *)
Definition Map (V : Type) : Type := list (string * V).

Fixpoint Map_get {V : Type} (m : Map V) (k : string) : option V :=
  match m with
  | [] => None
  | (k', v) :: m' => if String.eqb k' k then Some v else Map_get m' k
  end.

Fixpoint Map_set {V : Type} (m : Map V) (k : string) (v : V) : Map V :=
  match m with
  | [] => [(k, v)]
  | (k', v') :: m' =>
      if String.eqb k' k then (k', v) :: m' else (k', v') :: Map_set m' k v
  end.

Definition Map_entries {V : Type} (m : Map V) : list (string * V) := m.

End Js.

(* ================================================================= *)
(** ** types/metrics.ts *)

Record PercentileStats : Type := {
  p50Ms : Z;
  p75Ms : Z;
  p95Ms : Z;
  p99Ms : Z;
  minMs : Z;
  maxMs : Z;
  meanMs : Z;
  sampleCount : Z
}.

Record ToolLatencyStats : Type := {
  toolName : string;
  stats : PercentileStats;
  errorRate : Q;
  callCount : Z
}.

Record CostBreakdown : Type := {
  estimatedInputTokens : Z;
  estimatedOutputTokens : Z;
  estimatedTotalTokens : Z;
  inputCostUsd : Q;
  outputCostUsd : Q;
  totalCostUsd : Q;
  modelUsed : option string
}.

(* ================================================================= *)
(** ** metrics/latency.ts *)

Module Latency.
Import Js.

(** The inner function [percentile(p)] of [computePercentiles], closed
    over [sorted] and [n]. *)
Definition percentile (sorted : list Z) (n : Z) (p : Q) : Z :=
  if n =? 1 then Array_at sorted 0
  else
    let rank := Math_ceil ((p / 100) * inject_Z n)%Q - 1 in
    let clamped := Math_max 0 (Math_min (n - 1) rank) in
    Array_at sorted clamped.

Definition computePercentiles (durationsMs : list Z) : option PercentileStats :=
  if Array_length durationsMs =? 0 then None
  else
    let sorted := Array_sort (fun a b => a - b) durationsMs in
    let n := Array_length sorted in
    let sum := Array_sum sorted in
    Some {| p50Ms := percentile sorted n 50;
            p75Ms := percentile sorted n 75;
            p95Ms := percentile sorted n 95;
            p99Ms := percentile sorted n 99;
            minMs := Array_at sorted 0;
            maxMs := Array_at sorted (n - 1);
            meanMs := Math_round (inject_Z sum / inject_Z n)%Q;
            sampleCount := n |}.

(** A row handed to [computeToolLatencyStats]. *)
Record ToolRow : Type := {
  tool_name : string;
  duration_ms : Z;
  error : Z
}.

Record Bucket : Type := {
  durations : list Z;
  errors : Z
}.

(** One iteration of the grouping loop. *)
Definition group_step (grouped : Map Bucket) (row : ToolRow) : Map Bucket :=
  let bucket := nullish (Map_get grouped (tool_name row))
                        {| durations := []; errors := 0 |} in
  let bucket := {| durations := durations bucket ++ [duration_ms row];
                   errors := if truthy_number (error row)
                             then errors bucket + 1 else errors bucket |} in
  Map_set grouped (tool_name row) bucket.

(** One iteration of the loop over [grouped.entries()]. *)
Definition result_step (results : list ToolLatencyStats)
           (entry : string * Bucket) : list ToolLatencyStats :=
  let '(name, b) := entry in
  match computePercentiles (durations b) with
  | None => results
  | Some st =>
      results ++
      [ {| toolName := name;
           stats := st;
           errorRate :=
             if Array_length (durations b) >? 0
             then (inject_Z (errors b) / inject_Z (Array_length (durations b)))%Q
             else 0%Q;
           callCount := Array_length (durations b) |} ]
  end.

Definition computeToolLatencyStats (rows : list ToolRow) : list ToolLatencyStats :=
  let grouped := fold_left group_step rows [] in
  let results := fold_left result_step (Map_entries grouped) [] in
  Array_sort (fun a b => callCount b - callCount a) results.

Definition p95DeltaPct (baseline compare : Z) : Q :=
  if baseline =? 0 then 0%Q
  else ((inject_Z (compare - baseline) / inject_Z baseline) * 100)%Q.

End Latency.

(* ================================================================= *)
(** ** metrics/cost.ts *)

Module Cost.
Import Js.

Record PricingTier : Type := {
  inputPer1M : Q;
  outputPer1M : Q
}.

(** [process.env], as far as [envFloat] reads it: the number a
    variable parses to, or [None] when the variable is unset, empty
    or does not parse. *)
Definition Env : Type := string -> option Q.

Definition envFloat (env : Env) (key : string) (fallback : Q) : Q :=
  nullish (env key) fallback.

(** The object [PRICING], with its two keys. *)
Record PricingTable : Type := {
  gemini_2_5_pro : PricingTier;
  gemini_2_5_flash : PricingTier
}.

Definition PRICING (env : Env) : PricingTable :=
  {| gemini_2_5_pro :=
       {| inputPer1M := envFloat env "PRICE_INPUT_PER_1M" 0.075%Q;
          outputPer1M := envFloat env "PRICE_OUTPUT_PER_1M" 0.30%Q |};
     gemini_2_5_flash :=
       {| inputPer1M := envFloat env "PRICE_FLASH_INPUT_PER_1M" 0.0375%Q;
          outputPer1M := envFloat env "PRICE_FLASH_OUTPUT_PER_1M" 0.15%Q |} |}.

Definition DEFAULT_PRICING (env : Env) : PricingTier :=
  gemini_2_5_pro (PRICING env).

Definition pricingFor (env : Env) (model : option string) : PricingTier :=
  if negb (truthy_string model) then DEFAULT_PRICING env
  else if String_includes "flash" (nullish model EmptyString)
       then gemini_2_5_flash (PRICING env)
       else gemini_2_5_pro (PRICING env).

Definition estimateTokens (chars : Z) : Z :=
  Math_ceil (inject_Z chars / 4)%Q.

Definition roundUsd (value : Q) : Q :=
  (inject_Z (Math_round (value * 1000000)) / 1000000)%Q.

(** A row of [llmChars]. *)
Record LlmRow : Type := {
  prompt_chars : option Z;
  response_chars : option Z;
  model : option string
}.

(** The state of the first loop of [computeCost]. *)
Record Totals : Type := {
  totalPromptChars : Z;
  totalResponseChars : Z;
  modelCounts : Map Z
}.

Definition count_step (acc : Totals) (row : LlmRow) : Totals :=
  {| totalPromptChars := totalPromptChars acc + nullish (prompt_chars row) 0;
     totalResponseChars := totalResponseChars acc + nullish (response_chars row) 0;
     modelCounts :=
       match model row with
       | Some m =>
           if truthy_string (Some m)
           then Map_set (modelCounts acc) m
                        (nullish (Map_get (modelCounts acc) m) 0 + 1)
           else modelCounts acc
       | None => modelCounts acc
       end |}.

Definition scanRows (llmRows : list LlmRow) : Totals :=
  fold_left count_step llmRows
            {| totalPromptChars := 0; totalResponseChars := 0; modelCounts := [] |}.

(** The second loop: [(maxCount, dominantModel)] over the entries. *)
Definition pick_step (acc : Z * option string) (entry : string * Z)
  : Z * option string :=
  let '(maxCount, dominantModel) := acc in
  let '(m, count) := entry in
  if count >? maxCount then (count, Some m) else (maxCount, dominantModel).

Definition pickDominant (counts : Map Z) : option string :=
  snd (fold_left pick_step (Map_entries counts) (0, None)).

Definition computeCost (env : Env) (llmRows : list LlmRow) : CostBreakdown :=
  let t := scanRows llmRows in
  let dominantModel := pickDominant (modelCounts t) in
  let pricing := pricingFor env dominantModel in
  let inputTokens := estimateTokens (totalPromptChars t) in
  let outputTokens := estimateTokens (totalResponseChars t) in
  let inputCost := ((inject_Z inputTokens / 1000000) * inputPer1M pricing)%Q in
  let outputCost := ((inject_Z outputTokens / 1000000) * outputPer1M pricing)%Q in
  {| estimatedInputTokens := inputTokens;
     estimatedOutputTokens := outputTokens;
     estimatedTotalTokens := inputTokens + outputTokens;
     inputCostUsd := roundUsd inputCost;
     outputCostUsd := roundUsd outputCost;
     totalCostUsd := roundUsd (inputCost + outputCost);
     modelUsed := dominantModel |}.

(** An environment that overrides no price. *)
Definition no_env : Env := fun _ => None.

End Cost.

(* ================================================================= *)
(** ** db/queries/sessions.ts *)

Module Sessions.
Import Js.

Record SessionRow : Type := {
  id : string;
  label : option string;
  model : option string;
  started_at : string;
  ended_at : option string;
  metadata_json : string
}.

(** The table [sessions]; [id] is its primary key. *)
Definition Table : Type := list SessionRow.

(** [SELECT * FROM sessions WHERE id = ?] *)
Definition getById (t : Table) (sid : string) : option SessionRow :=
  find (fun r => String.eqb (id r) sid) t.

(** [UPDATE sessions SET ended_at = ? WHERE id = ?] *)
Definition end_ (t : Table) (sid : string) (endedAt : string) : Table :=
  map (fun r =>
         if String.eqb (id r) sid
         then {| id := id r; label := label r; model := model r;
                 started_at := started_at r; ended_at := Some endedAt;
                 metadata_json := metadata_json r |}
         else r) t.

(** [UPDATE sessions SET model = ? WHERE id = ?] *)
Definition updateModel (t : Table) (sid : string) (m : string) : Table :=
  map (fun r =>
         if String.eqb (id r) sid
         then {| id := id r; label := label r; model := Some m;
                 started_at := started_at r; ended_at := ended_at r;
                 metadata_json := metadata_json r |}
         else r) t.

End Sessions.

(* ================================================================= *)
(** ** db/queries/events.ts *)

Module Events.
Import Js.

Inductive EventType : Type :=
| SESSION_START | SESSION_END | TOOL_START | TOOL_END
| LLM_REQUEST | LLM_RESPONSE | ERROR | BUDGET_WARNING.

Definition EventType_eqb (a b : EventType) : bool :=
  match a, b with
  | SESSION_START, SESSION_START | SESSION_END, SESSION_END
  | TOOL_START, TOOL_START | TOOL_END, TOOL_END
  | LLM_REQUEST, LLM_REQUEST | LLM_RESPONSE, LLM_RESPONSE
  | ERROR, ERROR | BUDGET_WARNING, BUDGET_WARNING => true
  | _, _ => false
  end.

Record EventRow : Type := {
  id : string;
  session_id : string;
  event_type : EventType;
  tool_name : option string;
  model : option string;
  prompt_chars : option Z;
  response_chars : option Z;
  duration_ms : option Z;
  error_message : option string;
  metadata_json : string;
  recorded_at : string
}.

(** The table [events] in insertion order; [id] is its primary key and
    [session_id] references [sessions(id)]. *)
Definition Table : Type := list EventRow.

(** The argument of [insert]; [metadata] is the JSON text of the
    caller's object. *)
Record InsertParams : Type := {
  p_id : string;
  p_sessionId : string;
  p_eventType : EventType;
  p_toolName : option string;
  p_model : option string;
  p_promptChars : option Z;
  p_responseChars : option Z;
  p_durationMs : option Z;
  p_errorMessage : option string;
  p_metadata : option string;
  p_recordedAt : string
}.

(** [INSERT INTO events ...].  [None] is the exception SQLite raises
    when the primary key is taken or the session does not exist. *)
Definition insert (sessions : Sessions.Table) (t : Table) (p : InsertParams)
  : option Table :=
  if existsb (fun e => String.eqb (id e) (p_id p)) t then None
  else if negb (existsb (fun s => String.eqb (Sessions.id s) (p_sessionId p)) sessions)
  then None
  else Some (t ++ [ {| id := p_id p;
                       session_id := p_sessionId p;
                       event_type := p_eventType p;
                       tool_name := p_toolName p;
                       model := p_model p;
                       prompt_chars := p_promptChars p;
                       response_chars := p_responseChars p;
                       duration_ms := p_durationMs p;
                       error_message := p_errorMessage p;
                       metadata_json := nullish (p_metadata p) "{}"%string;
                       recorded_at := p_recordedAt p |} ]).

(** [ORDER BY recorded_at ASC] on the text column. *)
Definition by_recorded_at (a b : EventRow) : Z :=
  match String.compare (recorded_at a) (recorded_at b) with
  | Lt => -1
  | Eq => 0
  | Gt => 1
  end.

Record DurationRow : Type := {
  d_tool_name : string;
  d_duration_ms : Z
}.

(** [toolDurationsStmt]: the TOOL_END events of a session that carry
    both a tool name and a duration. *)
Definition toolDurations (t : Table) (sid : string) : list DurationRow :=
  flat_map
    (fun e =>
       match tool_name e, duration_ms e with
       | Some name, Some d =>
           if String.eqb (session_id e) sid && EventType_eqb (event_type e) TOOL_END
           then [ {| d_tool_name := name; d_duration_ms := d |} ]
           else []
       | _, _ => []
       end)
    (Array_sort by_recorded_at t).

(** [allToolDurationsStmt]: the same over every session, with the
    error flag [CASE WHEN error_message IS NOT NULL THEN 1 ELSE 0 END]. *)
Definition allToolDurations (t : Table) : list Latency.ToolRow :=
  flat_map
    (fun e =>
       match tool_name e, duration_ms e with
       | Some name, Some d =>
           if EventType_eqb (event_type e) TOOL_END
           then [ {| Latency.tool_name := name;
                     Latency.duration_ms := d;
                     Latency.error :=
                       match error_message e with Some _ => 1 | None => 0 end |} ]
           else []
       | _, _ => []
       end)
    t.

Definition is_llm (e : EventRow) : bool :=
  EventType_eqb (event_type e) LLM_REQUEST || EventType_eqb (event_type e) LLM_RESPONSE.

(** [llmCharsStmt] *)
Definition llmChars (t : Table) (sid : string) : list Cost.LlmRow :=
  map (fun e => {| Cost.prompt_chars := prompt_chars e;
                   Cost.response_chars := response_chars e;
                   Cost.model := model e |})
      (filter (fun e => String.eqb (session_id e) sid && is_llm e) t).

(** [countByTypeStmt] *)
Definition countByType (t : Table) (sid : string) (ty : EventType) : Z :=
  Array_length
    (filter (fun e => String.eqb (session_id e) sid && EventType_eqb (event_type e) ty) t).

(** [errorCountStmt] *)
Definition errorCount (t : Table) (sid : string) : Z :=
  Array_length
    (filter (fun e => String.eqb (session_id e) sid && EventType_eqb (event_type e) ERROR) t).

(** [SELECT DISTINCT]: each name once, at its first occurrence. *)
Fixpoint distinct (names : list string) : list string :=
  match names with
  | [] => []
  | x :: rest => x :: filter (fun y => negb (String.eqb x y)) (distinct rest)
  end.

(** [uniqueToolsStmt] *)
Definition uniqueTools (t : Table) (sid : string) : list string :=
  distinct
    (flat_map (fun e =>
                 match tool_name e with
                 | Some name => if String.eqb (session_id e) sid then [name] else []
                 | None => []
                 end) t).

(** SQLite's [date(...)] on the ISO-8601 timestamps the server stores
    ([YYYY-MM-DDTHH:MM:SS.sssZ]) and on a [YYYY-MM-DD] argument: the
    first ten characters. *)
Definition sql_date (s : string) : string := String.substring 0 10 s.

Definition sum_option (l : list (option Z)) : Z :=
  fold_left (fun acc v => acc + nullish v 0) l 0.

(** [dailyLlmCharsStmt]: the LLM events joined with their session,
    kept when the session started on the given day. *)
Definition dailyLlmChars (sessions : Sessions.Table) (t : Table) (date : string)
  : Z * Z :=
  let joined :=
    filter (fun e =>
              is_llm e &&
              existsb (fun s => String.eqb (Sessions.id s) (session_id e) &&
                                String.eqb (sql_date (Sessions.started_at s)) (sql_date date))
                      sessions) t in
  (sum_option (map prompt_chars joined), sum_option (map response_chars joined)).

End Events.

(* ================================================================= *)
(** ** db/queries/budget.ts and db/client.ts *)

Module Budget.

Record BudgetRow : Type := {
  max_per_session_usd : Q;
  max_per_day_usd : Q;
  alert_threshold_pct : Q
}.

End Budget.

(** The store behind [DatabaseClient]: the three tables. *)
Record DatabaseClient : Type := {
  sessions : Sessions.Table;
  events : Events.Table;
  budget : Budget.BudgetRow
}.

(** [db.transaction(fn)]: the writes of [fn], or the untouched store
    when [fn] raised. *)
Definition transaction (db : DatabaseClient) (fn : DatabaseClient -> option DatabaseClient)
  : option DatabaseClient := fn db.

(* ================================================================= *)
(** ** types/metrics.ts, continued *)

Record SessionSummary : Type := {
  sessionId : string;
  label : option string;
  startedAt : string;
  endedAt : option string;
  durationMs : option Z;
  toolCallCount : Z;
  llmRequestCount : Z;
  errorCount : Z;
  uniqueToolsUsed : list string;
  cost : CostBreakdown;
  overallLatency : option PercentileStats;
  toolBreakdown : list ToolLatencyStats
}.

Inductive Severity : Type := warning | critical.

Record RegressionFlag : Type := {
  metric : string;
  baselineValue : Q;
  compareValue : Q;
  deltaPct : Q;
  severity : Severity
}.

Record SessionComparison : Type := {
  baselineSessionId : string;
  compareSessionId : string;
  baselineLabel : option string;
  compareLabel : option string;
  costDeltaUsd : Q;
  costDeltaPct : Q;
  durationDeltaMs : option Z;
  durationDeltaPct : option Q;
  toolCallDelta : Z;
  p95LatencyDeltaMs : option Z;
  p95LatencyDeltaPct : option Q;
  regressions : list RegressionFlag
}.

(* ================================================================= *)
(** ** metrics/aggregator.ts *)

(** The local constants of [compareSessionSummaries], under the names
    the function gives them. *)
Module Comparator.
Import Js.

Section Locals.
Variables baseline compare : SessionSummary.

Definition costDelta : Q :=
  (totalCostUsd (cost compare) - totalCostUsd (cost baseline))%Q.

Definition costDeltaPct : Q :=
  if Qgtb (totalCostUsd (cost baseline)) 0
  then ((costDelta / totalCostUsd (cost baseline)) * 100)%Q
  else 0%Q.

Definition durationDelta : option Z :=
  match durationMs baseline, durationMs compare with
  | Some b, Some c => Some (c - b)
  | _, _ => None
  end.

Definition durationDeltaPct : option Q :=
  match durationDelta, durationMs baseline with
  | Some d, Some b =>
      if b >? 0 then Some ((inject_Z d / inject_Z b) * 100)%Q else None
  | _, _ => None
  end.

Definition baseP95 : option Z := option_map p95Ms (overallLatency baseline).
Definition cmpP95 : option Z := option_map p95Ms (overallLatency compare).

Definition p95Delta : option Z :=
  match baseP95, cmpP95 with
  | Some b, Some c => Some (c - b)
  | _, _ => None
  end.

Definition p95DeltaPctVal : option Q :=
  match p95Delta, baseP95 with
  | Some _, Some b => Some (Latency.p95DeltaPct b (nullish cmpP95 0))
  | _, _ => None
  end.

(** [maybeFlag]: what the call pushes onto [regressions]. *)
Definition maybeFlag (metric : string) (baseVal cmpVal deltaPct : Q)
  : list RegressionFlag :=
  if Qgtb deltaPct 50 then
    [ {| metric := metric; baselineValue := baseVal; compareValue := cmpVal;
         deltaPct := deltaPct; severity := critical |} ]
  else if Qgtb deltaPct 20 then
    [ {| metric := metric; baselineValue := baseVal; compareValue := cmpVal;
         deltaPct := deltaPct; severity := warning |} ]
  else [].

Definition costFlags : list RegressionFlag :=
  if Qgtb costDeltaPct 0
  then maybeFlag "cost_usd" (totalCostUsd (cost baseline))
                 (totalCostUsd (cost compare)) costDeltaPct
  else [].

Definition durationFlags : list RegressionFlag :=
  match durationDeltaPct, durationMs baseline with
  | Some pct, Some b =>
      if Qgtb pct 0 && truthy_number b
      then maybeFlag "session_duration_ms" (inject_Z b)
                     (inject_Z (nullish (durationMs compare) 0)) pct
      else []
  | _, _ => []
  end.

Definition p95Flags : list RegressionFlag :=
  match p95DeltaPctVal, baseP95, cmpP95 with
  | Some pct, Some b, Some c =>
      if Qgtb pct 0
      then maybeFlag "p95_tool_latency_ms" (inject_Z b) (inject_Z c) pct
      else []
  | _, _, _ => []
  end.

Definition regressions : list RegressionFlag :=
  costFlags ++ durationFlags ++ p95Flags.

(** [Math.round(x * 10) / 10] *)
Definition round1 (x : Q) : Q := (inject_Z (Math_round (x * 10)) / 10)%Q.

End Locals.
End Comparator.

Module Aggregator.
Import Js.

Definition roundUsd (v : Q) : Q :=
  (inject_Z (Math_round (v * 1000000)) / 1000000)%Q.

Section Build.
(** The prices configured in the environment, and
    [new Date(s).getTime()] on a stored timestamp. *)
Variable env : Cost.Env.
Variable Date_getTime : string -> Z.

Definition buildSessionSummary (db : DatabaseClient) (sessionId : string)
  : option SessionSummary :=
  match Sessions.getById (sessions db) sessionId with
  | None => None
  | Some session =>
      let llmRows := Events.llmChars (events db) sessionId in
      let toolDurations := Events.toolDurations (events db) sessionId in
      let errorCount := Events.errorCount (events db) sessionId in
      let uniqueTools := Events.uniqueTools (events db) sessionId in
      let toolCallCount := Events.countByType (events db) sessionId Events.TOOL_END in
      let llmRequestCount := Events.countByType (events db) sessionId Events.LLM_REQUEST in
      let cost := Cost.computeCost env llmRows in
      let allDurations := map Events.d_duration_ms toolDurations in
      let overallLatency := Latency.computePercentiles allDurations in
      let allToolRows :=
        map (fun r => {| Latency.tool_name := Events.d_tool_name r;
                         Latency.duration_ms := Events.d_duration_ms r;
                         Latency.error := 0 |}) toolDurations in
      let toolBreakdown := Latency.computeToolLatencyStats allToolRows in
      let durationMs :=
        if truthy_string (Some (Sessions.started_at session))
           && truthy_string (Sessions.ended_at session)
        then Some (Date_getTime (nullish (Sessions.ended_at session) EmptyString)
                   - Date_getTime (Sessions.started_at session))
        else None in
      Some {| sessionId := Sessions.id session;
              label := Sessions.label session;
              startedAt := Sessions.started_at session;
              endedAt := Sessions.ended_at session;
              durationMs := durationMs;
              toolCallCount := toolCallCount;
              llmRequestCount := llmRequestCount;
              errorCount := errorCount;
              uniqueToolsUsed := uniqueTools;
              cost := cost;
              overallLatency := overallLatency;
              toolBreakdown := toolBreakdown |}
  end.
End Build.

Definition compareSessionSummaries (baseline compare : SessionSummary)
  : SessionComparison :=
  {| baselineSessionId := sessionId baseline;
     compareSessionId := sessionId compare;
     baselineLabel := label baseline;
     compareLabel := label compare;
     costDeltaUsd := roundUsd (Comparator.costDelta baseline compare);
     costDeltaPct := Comparator.round1 (Comparator.costDeltaPct baseline compare);
     durationDeltaMs := Comparator.durationDelta baseline compare;
     durationDeltaPct :=
       option_map Comparator.round1 (Comparator.durationDeltaPct baseline compare);
     toolCallDelta := toolCallCount compare - toolCallCount baseline;
     p95LatencyDeltaMs := Comparator.p95Delta baseline compare;
     p95LatencyDeltaPct :=
       option_map Comparator.round1 (Comparator.p95DeltaPctVal baseline compare);
     regressions := Comparator.regressions baseline compare |}.

End Aggregator.

(* ================================================================= *)
(** ** tools/end_session.ts *)

Module EndSession.
Import Js.

(** What the text returned by [handleEndSession] reports; [Raised] is
    the exception that escapes when the store rejects the write. *)
Inductive Reply : Type :=
| NotFound (session_id : string)
| AlreadyEnded (session_id : string) (ended_at : string)
| Ended (summary : option SessionSummary)
| Raised.

Section Handler.
Variable env : Cost.Env.
Variable Date_getTime : string -> Z.
(** [new Date().toISOString()] and [generateEventId()] of this call. *)
Variables now eventId : string.

(** The body of the transaction. *)
Definition end_and_log (session_id : string) (db : DatabaseClient)
  : option DatabaseClient :=
  let ended := Sessions.end_ (sessions db) session_id now in
  match Events.insert ended (events db)
          {| Events.p_id := eventId;
             Events.p_sessionId := session_id;
             Events.p_eventType := Events.SESSION_END;
             Events.p_toolName := None;
             Events.p_model := None;
             Events.p_promptChars := None;
             Events.p_responseChars := None;
             Events.p_durationMs := None;
             Events.p_errorMessage := None;
             Events.p_metadata := None;
             Events.p_recordedAt := now |} with
  | Some evs => Some {| sessions := ended; events := evs; budget := budget db |}
  | None => None
  end.

Definition handleEndSession (session_id : string) (db : DatabaseClient)
  : Reply * DatabaseClient :=
  match Sessions.getById (sessions db) session_id with
  | None => (NotFound session_id, db)
  | Some session =>
      if truthy_string (Sessions.ended_at session)
      then (AlreadyEnded session_id (nullish (Sessions.ended_at session) EmptyString), db)
      else
        match transaction db (end_and_log session_id) with
        | None => (Raised, db)
        | Some db' =>
            (Ended (Aggregator.buildSessionSummary env Date_getTime db' session_id), db')
        end
  end.
End Handler.
End EndSession.

(* ================================================================= *)
(** ** tools/record_event.ts: the budget check *)

Module RecordEvent.
Import Js.

(** The statements [checkBudget] runs against the store. *)
Inductive StoreQuery : Type :=
| budget_get
| events_llmChars (sessionId : string)
| events_dailyLlmChars (date : string).

(** A computation that records the statements it runs, in order. *)
Definition Logged (A : Type) : Type := (A * list StoreQuery)%type.

Definition ret {A : Type} (a : A) : Logged A := (a, []).

Definition bind {A B : Type} (m : Logged A) (k : A -> Logged B) : Logged B :=
  let '(a, l1) := m in
  let '(b, l2) := k a in
  (b, l1 ++ l2).

Definition run {A : Type} (q : StoreQuery) (answer : A) : Logged A := (answer, [q]).

Notation "x <- m ;; k" := (bind m (fun x => k))
  (at level 61, m at next level, right associativity).

(** What the warning text says: which budget, the spend, the rounded
    percentage of the cap, and the cap. *)
Inductive Scope : Type := SessionBudget | DailyBudget.

Record BudgetWarning : Type := {
  scope : Scope;
  spentUsd : Q;
  percentOfCap : Z;
  capUsd : Q
}.

Section Check.
Variable env : Cost.Env.
(** [new Date().toISOString().slice(0, 10)] *)
Variable today : string.

Definition sessionThreshold (config : Budget.BudgetRow) : Q :=
  (Budget.max_per_session_usd config * (Budget.alert_threshold_pct config / 100))%Q.

Definition dailyThreshold (config : Budget.BudgetRow) : Q :=
  (Budget.max_per_day_usd config * (Budget.alert_threshold_pct config / 100))%Q.

Definition dailyCost (dailyChars : Z * Z) : CostBreakdown :=
  Cost.computeCost env
    [ {| Cost.prompt_chars := Some (fst dailyChars);
         Cost.response_chars := None; Cost.model := None |};
      {| Cost.prompt_chars := None;
         Cost.response_chars := Some (snd dailyChars); Cost.model := None |} ].

Definition checkBudget (sessionId : string) (db : DatabaseClient)
  : Logged (option BudgetWarning) :=
  config <- run budget_get (budget db) ;;
  if Qle_bool (Budget.max_per_session_usd config) 0
     && Qle_bool (Budget.max_per_day_usd config) 0
  then ret None
  else
    llmRows <- run (events_llmChars sessionId) (Events.llmChars (events db) sessionId) ;;
    let sessionCost := Cost.computeCost env llmRows in
    if Qgtb (Budget.max_per_session_usd config) 0
       && Qgeb (totalCostUsd sessionCost) (sessionThreshold config)
    then
      ret (Some {| scope := SessionBudget;
                   spentUsd := totalCostUsd sessionCost;
                   percentOfCap :=
                     Math_round ((totalCostUsd sessionCost
                                  / Budget.max_per_session_usd config) * 100)%Q;
                   capUsd := Budget.max_per_session_usd config |})
    else if Qgtb (Budget.max_per_day_usd config) 0
    then
      dailyChars <- run (events_dailyLlmChars today)
                        (Events.dailyLlmChars (sessions db) (events db) today) ;;
      let cost := dailyCost dailyChars in
      if Qgeb (totalCostUsd cost) (dailyThreshold config)
      then
        ret (Some {| scope := DailyBudget;
                     spentUsd := totalCostUsd cost;
                     percentOfCap :=
                       Math_round ((totalCostUsd cost
                                    / Budget.max_per_day_usd config) * 100)%Q;
                     capUsd := Budget.max_per_day_usd config |})
      else ret None
    else ret None.
End Check.
End RecordEvent.

(* ================================================================= *)
(** ** The cost formulas on IEEE-754 doubles *)

Set Warnings "-inexact-float".

Module Binary64.

(** An integer below [2^53] in magnitude as a double. *)
Definition of_Z (z : Z) : float :=
  if z <? 0 then PrimFloat.opp (PrimFloat.of_uint63 (Uint63.of_Z (- z)))
  else PrimFloat.of_uint63 (Uint63.of_Z z).

(** The signed mantissa of a finite double [m * 2^e]. *)
Definition signed (s : bool) (m : positive) : Z := if s then Z.neg m else Z.pos m.

(** [Math.ceil] and [Math.round], up to the sign of a zero result.  A
    double with a non-negative exponent is an integer already. *)
Definition Math_ceil (x : float) : float :=
  match Prim2SF x with
  | S754_finite s m e =>
      if 0 <=? e then x else of_Z (- ((- signed s m) / 2 ^ (- e)))
  | _ => x
  end.

Definition Math_round (x : float) : float :=
  match Prim2SF x with
  | S754_finite s m e =>
      if 0 <=? e then x
      else of_Z ((2 * signed s m + 2 ^ (- e)) / (2 * 2 ^ (- e)))
  | _ => x
  end.

Definition estimateTokens (chars : float) : float :=
  Math_ceil (chars / 4)%float.

Definition roundUsd (value : float) : float :=
  (Math_round (value * 1000000) / 1000000)%float.

Record PricingTier : Type := {
  inputPer1M : float;
  outputPer1M : float
}.

(** The fallback prices of the pro tier. *)
Definition pro : PricingTier :=
  {| inputPer1M := 0.075%float; outputPer1M := 0.30%float |}.

Record LlmRow : Type := {
  prompt_chars : option float;
  response_chars : option float
}.

Record CostBreakdown : Type := {
  estimatedInputTokens : float;
  estimatedOutputTokens : float;
  estimatedTotalTokens : float;
  inputCostUsd : float;
  outputCostUsd : float;
  totalCostUsd : float
}.

(** [computeCost] once the pricing tier is chosen. *)
Definition computeCost (pricing : PricingTier) (llmRows : list LlmRow) : CostBreakdown :=
  let totalPromptChars :=
    fold_left (fun acc row => (acc + Js.nullish (prompt_chars row) 0)%float) llmRows 0%float in
  let totalResponseChars :=
    fold_left (fun acc row => (acc + Js.nullish (response_chars row) 0)%float) llmRows 0%float in
  let inputTokens := estimateTokens totalPromptChars in
  let outputTokens := estimateTokens totalResponseChars in
  let inputCost := ((inputTokens / 1000000) * inputPer1M pricing)%float in
  let outputCost := ((outputTokens / 1000000) * outputPer1M pricing)%float in
  {| estimatedInputTokens := inputTokens;
     estimatedOutputTokens := outputTokens;
     estimatedTotalTokens := (inputTokens + outputTokens)%float;
     inputCostUsd := roundUsd inputCost;
     outputCostUsd := roundUsd outputCost;
     totalCostUsd := roundUsd (inputCost + outputCost)%float |}.

(** [Math.ceil((p / 100) * n) - 1], the rank inside [percentile]. *)
Definition rank (p n : float) : float := (Math_ceil ((p / 100) * n) - 1)%float.

(** [(costDelta / baseline) * 100], the percentage of the comparator. *)
Definition deltaPct (baseline compare : float) : float :=
  (((compare - baseline) / baseline) * 100)%float.

End Binary64.

(* ================================================================= *)
(** ** The vocabulary of the specification

    The notions the specification uses to state its properties, written
    from its words and independent of the code above. *)

Module Spec.
Import Js.

(** Nearest rank: [clamp(ceil(p/100 * n) - 1, 0, n - 1)]. *)
Definition nearest_rank_index (p : Q) (n : Z) : Z :=
  Z.max 0 (Z.min (n - 1) (Qceiling (p / 100 * inject_Z n) - 1)).

(** The sum of a collection of samples. *)
Definition total (l : list Z) : Z := fold_right Z.add 0 l.

(** The models the rows specify, in row order.  A row specifies a model
    when the field holds a non-empty identifier. *)
Definition specified_models (rows : list Cost.LlmRow) : list string :=
  flat_map (fun r => match Cost.model r with
                     | Some m => if String.eqb m EmptyString then [] else [m]
                     | None => []
                     end) rows.

(** How often a model appears. *)
Fixpoint occurrences (m : string) (ms : list string) : Z :=
  match ms with
  | [] => 0
  | x :: rest => (if String.eqb x m then 1 else 0) + occurrences m rest
  end.

(** Where a model is first encountered (the length of the list when it
    never is). *)
Fixpoint first_position (m : string) (ms : list string) : nat :=
  match ms with
  | [] => O
  | x :: rest => if String.eqb x m then O else S (first_position m rest)
  end.

(** [m] appears most often, and among the models that appear as often
    it is the one encountered first. *)
Definition dominant (m : string) (ms : list string) : Prop :=
  In m ms /\
  forall m', m' <> m ->
    occurrences m' ms < occurrences m ms \/
    (occurrences m' ms = occurrences m ms /\
     (first_position m ms < first_position m' ms)%nat).

(** [s] contains [sub] as a substring. *)
Definition contains (sub s : string) : Prop :=
  exists pre post, s = (pre ++ sub ++ post)%string.

(** The character totals of a list of rows, a missing count being zero. *)
Definition promptTotal (rows : list Cost.LlmRow) : Z :=
  total (map (fun r => nullish (Cost.prompt_chars r) 0) rows).

Definition responseTotal (rows : list Cost.LlmRow) : Z :=
  total (map (fun r => nullish (Cost.response_chars r) 0) rows).

(** No tier charges a negative price. *)
Definition nonnegative_prices (t : Cost.PricingTable) : Prop :=
  (0 <= Cost.inputPer1M (Cost.gemini_2_5_pro t))%Q /\
  (0 <= Cost.outputPer1M (Cost.gemini_2_5_pro t))%Q /\
  (0 <= Cost.inputPer1M (Cost.gemini_2_5_flash t))%Q /\
  (0 <= Cost.outputPer1M (Cost.gemini_2_5_flash t))%Q.

(** A whole number of millionths of a dollar: six decimal places. *)
Definition microdollars (x : Q) : Prop :=
  exists k : Z, (x == inject_Z k / 1000000)%Q.

(** The breakdown quoted for 4000 prompt and 800 response characters
    under pro pricing. *)
Definition quoted_breakdown (c : CostBreakdown) : Prop :=
  estimatedInputTokens c = 1000 /\
  estimatedOutputTokens c = 200 /\
  (inputCostUsd c == 0.000075)%Q /\
  (outputCostUsd c == 0.00006)%Q /\
  (totalCostUsd c == 0.000135)%Q.

(** The regression flags a comparison raised for one metric. *)
Definition flagsFor (m : string) (cmp : SessionComparison) : list RegressionFlag :=
  filter (fun f => String.eqb (metric f) m) (regressions cmp).

End Spec.

(* ================================================================= *)
(** ** Concrete stores, rows and summaries *)

Module Sample.
Local Open Scope string_scope.

(** A summary with the given duration, total cost and latency and
    nothing else of note. *)
Definition summary (sid : string) (duration : option Z) (usd : Q)
           (latency : option PercentileStats) : SessionSummary :=
  {| sessionId := sid; label := None;
     startedAt := "2026-01-15T10:00:00.000Z"; endedAt := None;
     durationMs := duration;
     toolCallCount := 0; llmRequestCount := 0; errorCount := 0;
     uniqueToolsUsed := [];
     cost := {| estimatedInputTokens := 0; estimatedOutputTokens := 0;
                estimatedTotalTokens := 0;
                inputCostUsd := usd; outputCostUsd := 0; totalCostUsd := usd;
                modelUsed := None |};
     overallLatency := latency;
     toolBreakdown := [] |}.

Definition session (sid : string) (ended : option string) : Sessions.SessionRow :=
  {| Sessions.id := sid; Sessions.label := None; Sessions.model := None;
     Sessions.started_at := "2026-01-15T10:00:00.000Z";
     Sessions.ended_at := ended; Sessions.metadata_json := "{}" |}.

Definition event (eid sid : string) (ty : Events.EventType)
           (tool : option string) (prompt response duration : option Z)
           (err : option string) (at_ : string) : Events.EventRow :=
  {| Events.id := eid; Events.session_id := sid; Events.event_type := ty;
     Events.tool_name := tool; Events.model := None;
     Events.prompt_chars := prompt; Events.response_chars := response;
     Events.duration_ms := duration; Events.error_message := err;
     Events.metadata_json := "{}"; Events.recorded_at := at_ |}.

(** One open session with an LLM exchange, two tool calls (one of them
    failed) and an error event. *)
Definition busy_events : Events.Table :=
  [ event "e1" "s1" Events.SESSION_START None None None None None
          "2026-01-15T10:00:00.000Z";
    event "e2" "s1" Events.LLM_REQUEST None (Some 4000) None None None
          "2026-01-15T10:00:01.000Z";
    event "e3" "s1" Events.LLM_RESPONSE None None (Some 800) (Some 900) None
          "2026-01-15T10:00:02.000Z";
    event "e4" "s1" Events.TOOL_END (Some "read_file") None (Some 120) (Some 40) None
          "2026-01-15T10:00:03.000Z";
    event "e5" "s1" Events.TOOL_END (Some "read_file") None None (Some 75)
          (Some "ENOENT") "2026-01-15T10:00:04.000Z";
    event "e6" "s1" Events.ERROR None None None None (Some "ENOENT")
          "2026-01-15T10:00:05.000Z" ].

Definition store (b : Budget.BudgetRow) : DatabaseClient :=
  {| sessions := [session "s1" None]; events := busy_events; budget := b |}.

(** Both caps at a hundredth of a cent, alert at 80 percent. *)
Definition tight_budget : Budget.BudgetRow :=
  {| Budget.max_per_session_usd := 0.0001;
     Budget.max_per_day_usd := 0.0001;
     Budget.alert_threshold_pct := 80 |}.

Definition no_budget : Budget.BudgetRow :=
  {| Budget.max_per_session_usd := 0;
     Budget.max_per_day_usd := 0;
     Budget.alert_threshold_pct := 80 |}.

(** A reading of timestamps; no property below depends on which. *)
Definition epoch (timestamp : string) : Z := 0.

(** The quoted scenario, as one row and as a request/response pair. *)
Definition one_row : list Cost.LlmRow :=
  [ {| Cost.prompt_chars := Some 4000; Cost.response_chars := Some 800;
       Cost.model := None |} ].

Definition two_rows : list Cost.LlmRow :=
  [ {| Cost.prompt_chars := Some 4000; Cost.response_chars := None;
       Cost.model := Some "gemini-2.5-pro" |};
    {| Cost.prompt_chars := None; Cost.response_chars := Some 800;
       Cost.model := Some "gemini-2.5-pro" |} ].

Definition rows64 : list Binary64.LlmRow :=
  [ {| Binary64.prompt_chars := Some 4000%float; Binary64.response_chars := None |};
    {| Binary64.prompt_chars := None; Binary64.response_chars := Some 800%float |} ].

(** Two sessions of the same model, the second with a longer prompt. *)
Definition cheap_rows : list Cost.LlmRow :=
  [ {| Cost.prompt_chars := Some 100; Cost.response_chars := None;
       Cost.model := Some "gemini-2.5-flash" |};
    {| Cost.prompt_chars := None; Cost.response_chars := Some 50;
       Cost.model := Some "gemini-2.5-flash" |} ].

Definition dear_rows : list Cost.LlmRow :=
  [ {| Cost.prompt_chars := Some 900; Cost.response_chars := None;
       Cost.model := Some "gemini-2.5-flash" |};
    {| Cost.prompt_chars := None; Cost.response_chars := Some 50;
       Cost.model := Some "gemini-2.5-flash" |} ].

End Sample.

(* ================================================================= *)
(** ** Auxiliary views of the loops *)

(** The model-counting part of the first loop of [computeCost], run on
    the specified models alone. *)
Definition tally_step (mc : Js.Map Z) (m : string) : Js.Map Z :=
  Js.Map_set mc m (Js.nullish (Js.Map_get mc m) 0 + 1).

Definition tally (ms : list string) : Js.Map Z := fold_left tally_step ms [].

(** A bucket of the grouping loop that has counted no error. *)
Definition no_errors (b : Latency.Bucket) : Prop := Latency.errors b = 0.

(* ================================================================= *)
(** ** db/queries/sessions.ts: the remaining statements *)

Module SessionStmts.
Import Js.

(** The argument of [insert]; [p_metadata] is the JSON text of the
    caller's object. *)
Record InsertParams : Type := {
  p_id : string;
  p_label : option string;
  p_model : option string;
  p_startedAt : string;
  p_metadata : option string
}.

(** [INSERT INTO sessions ...]; the row starts without an end timestamp.
    [None] is the exception SQLite raises when the primary key is
    taken. *)
Definition insert (t : Sessions.Table) (p : InsertParams) : option Sessions.Table :=
  if existsb (fun s => String.eqb (Sessions.id s) (p_id p)) t then None
  else Some (t ++ [ {| Sessions.id := p_id p;
                       Sessions.label := p_label p;
                       Sessions.model := p_model p;
                       Sessions.started_at := p_startedAt p;
                       Sessions.ended_at := None;
                       Sessions.metadata_json := nullish (p_metadata p) "{}"%string |} ]).

(** [ORDER BY started_at DESC] on the text column. *)
Definition by_started_at_desc (a b : Sessions.SessionRow) : Z :=
  match String.compare (Sessions.started_at b) (Sessions.started_at a) with
  | Lt => -1
  | Eq => 0
  | Gt => 1
  end.

(** [LIMIT ?]: a negative bound is no bound. *)
Definition sql_limit {A : Type} (limit : Z) (rows : list A) : list A :=
  if limit <? 0 then rows else firstn (Z.to_nat limit) rows.

(** [listRecentStmt] *)
Definition listRecent (t : Sessions.Table) (limit : Z) : list Sessions.SessionRow :=
  sql_limit limit (Array_sort by_started_at_desc t).

(** The [status] argument of [listByStatus]. *)
Inductive Status : Type := active | ended | all.

(** The [WHERE] clause of [listByStatusStmt]. *)
Definition has_status (status : Status) (r : Sessions.SessionRow) : bool :=
  match status, Sessions.ended_at r with
  | active, None => true
  | active, Some _ => false
  | ended, None => false
  | ended, Some _ => true
  | all, _ => true
  end.

(** [listByStatusStmt] *)
Definition listByStatus (t : Sessions.Table) (status : Status) (limit : Z)
  : list Sessions.SessionRow :=
  sql_limit limit (Array_sort by_started_at_desc (filter (has_status status) t)).

End SessionStmts.

(* ================================================================= *)
(** ** tools/start_session.ts *)

Module StartSession.
Import Js.

Record Input : Type := {
  label : option string;
  model : option string;
  metadata : option string
}.

(** What the returned text reports; [Raised] is the exception that
    escapes when the store rejects a write. *)
Inductive Reply : Type :=
| Started (sessionId : string) (label model : option string)
| Raised.

Section Handler.
(** [generateSessionId()], [generateEventId()] and
    [new Date().toISOString()] of this call. *)
Variables sessionId eventId now : string.

(** The body of the transaction. *)
Definition insert_both (input : Input) (db : DatabaseClient) : option DatabaseClient :=
  match SessionStmts.insert (sessions db)
          {| SessionStmts.p_id := sessionId;
             SessionStmts.p_label := label input;
             SessionStmts.p_model := model input;
             SessionStmts.p_startedAt := now;
             SessionStmts.p_metadata := metadata input |} with
  | None => None
  | Some started =>
      match Events.insert started (events db)
              {| Events.p_id := eventId;
                 Events.p_sessionId := sessionId;
                 Events.p_eventType := Events.SESSION_START;
                 Events.p_toolName := None;
                 Events.p_model := model input;
                 Events.p_promptChars := None;
                 Events.p_responseChars := None;
                 Events.p_durationMs := None;
                 Events.p_errorMessage := None;
                 Events.p_metadata := metadata input;
                 Events.p_recordedAt := now |} with
      | None => None
      | Some evs => Some {| sessions := started; events := evs; budget := budget db |}
      end
  end.

Definition handleStartSession (input : Input) (db : DatabaseClient)
  : Reply * DatabaseClient :=
  match transaction db (insert_both input) with
  | None => (Raised, db)
  | Some db' => (Started sessionId (label input) (model input), db')
  end.
End Handler.
End StartSession.

(* ================================================================= *)
(** ** tools/record_event.ts: the handler *)

Module RecordEventTool.
Import Js.

Record Input : Type := {
  session_id : string;
  event_type : Events.EventType;
  tool_name : option string;
  model : option string;
  prompt_chars : option Z;
  response_chars : option Z;
  duration_ms : option Z;
  error_message : option string;
  metadata : option string
}.

(** What the returned text reports; [Raised] is the exception that
    escapes when the store rejects an insert. *)
Inductive Reply : Type :=
| NotFound (session_id : string)
| Recorded (event_type : Events.EventType) (tool_name : option string)
           (duration_ms : option Z)
| BudgetWarned (warning : RecordEvent.BudgetWarning)
| Raised.

(** [event_type === LLM_RESPONSE || event_type === TOOL_END] *)
Definition checks_budget (ty : Events.EventType) : bool :=
  Events.EventType_eqb ty Events.LLM_RESPONSE || Events.EventType_eqb ty Events.TOOL_END.

Section Handler.
Variable env : Cost.Env.
(** The day [checkBudget] reads from the clock. *)
Variable today : string.
(** The JSON text of [{ warning: budgetWarning }]. *)
Variable warning_json : RecordEvent.BudgetWarning -> string.
(** The timestamp and the event id of the recorded event, and those of
    the warning event. *)
Variables now eventId warnedAt warningId : string.

Definition handleRecordEvent (input : Input) (db : DatabaseClient)
  : Reply * DatabaseClient :=
  match Sessions.getById (sessions db) (session_id input) with
  | None => (NotFound (session_id input), db)
  | Some session =>
      match Events.insert (sessions db) (events db)
              {| Events.p_id := eventId;
                 Events.p_sessionId := session_id input;
                 Events.p_eventType := event_type input;
                 Events.p_toolName := tool_name input;
                 Events.p_model := model input;
                 Events.p_promptChars := prompt_chars input;
                 Events.p_responseChars := response_chars input;
                 Events.p_durationMs := duration_ms input;
                 Events.p_errorMessage := error_message input;
                 Events.p_metadata := metadata input;
                 Events.p_recordedAt := now |} with
      | None => (Raised, db)
      | Some evs =>
          let db1 := {| sessions := sessions db; events := evs; budget := budget db |} in
          let db2 :=
            if truthy_string (model input) && negb (truthy_string (Sessions.model session))
            then {| sessions := Sessions.updateModel (sessions db1) (session_id input)
                                  (nullish (model input) EmptyString);
                    events := events db1; budget := budget db1 |}
            else db1 in
          if checks_budget (event_type input) then
            match fst (RecordEvent.checkBudget env today (session_id input) db2) with
            | Some budgetWarning =>
                match Events.insert (sessions db2) (events db2)
                        {| Events.p_id := warningId;
                           Events.p_sessionId := session_id input;
                           Events.p_eventType := Events.BUDGET_WARNING;
                           Events.p_toolName := None;
                           Events.p_model := None;
                           Events.p_promptChars := None;
                           Events.p_responseChars := None;
                           Events.p_durationMs := None;
                           Events.p_errorMessage := None;
                           Events.p_metadata := Some (warning_json budgetWarning);
                           Events.p_recordedAt := warnedAt |} with
                | None => (Raised, db2)
                | Some evs2 =>
                    (BudgetWarned budgetWarning,
                     {| sessions := sessions db2; events := evs2; budget := budget db2 |})
                end
            | None =>
                (Recorded (event_type input) (tool_name input) (duration_ms input), db2)
            end
          else (Recorded (event_type input) (tool_name input) (duration_ms input), db2)
      end
  end.
End Handler.
End RecordEventTool.

(* ================================================================= *)
(** ** tools/set_budget.ts *)

Module SetBudget.
Import Js.

Record Input : Type := {
  max_per_session_usd : option Q;
  max_per_day_usd : option Q;
  alert_threshold_pct : option Q
}.

(** What the returned text shows: each limit, or [None] where it prints
    'disabled', and the alert threshold. *)
Record Reply : Type := {
  sessionLimit : option Q;
  dailyLimit : option Q;
  alertThreshold : Q
}.

(** [next], the merge of the input over the current row. *)
Definition merged (input : Input) (current : Budget.BudgetRow) : Budget.BudgetRow :=
  {| Budget.max_per_session_usd :=
       nullish (max_per_session_usd input) (Budget.max_per_session_usd current);
     Budget.max_per_day_usd :=
       nullish (max_per_day_usd input) (Budget.max_per_day_usd current);
     Budget.alert_threshold_pct :=
       nullish (alert_threshold_pct input) (Budget.alert_threshold_pct current) |}.

(** [db.budget.update(next)] writes the three fields of the policy;
    the row's [updated_at] stamp is not part of [Budget.BudgetRow]. *)
Definition handleSetBudget (input : Input) (db : DatabaseClient)
  : Reply * DatabaseClient :=
  let current := budget db in
  let next := merged input current in
  ({| sessionLimit := if Qgtb (Budget.max_per_session_usd next) 0
                      then Some (Budget.max_per_session_usd next) else None;
      dailyLimit := if Qgtb (Budget.max_per_day_usd next) 0
                    then Some (Budget.max_per_day_usd next) else None;
      alertThreshold := Budget.alert_threshold_pct next |},
   {| sessions := sessions db; events := events db; budget := next |}).

End SetBudget.

(* ================================================================= *)
(** ** tools/get_latency_stats.ts *)

Module GetLatencyStats.
Import Js.

Record Input : Type := {
  tool_name : option string;
  session_id : option string
}.

(** What the returned text reports. *)
Inductive Reply : Type :=
| SessionNotFound (session_id : string)
| NoToolEnd (tool_name session_id : option string)
| NoData
| Stats (session_id tool_name : option string) (stats : PercentileStats)
| Breakdown (toolStats : list ToolLatencyStats) (overallStats : option PercentileStats).

(** [input.tool_name ? rows.filter(r => r.tool_name === input.tool_name) : rows] *)
Definition for_tool {A : Type} (name : A -> string) (tool : option string)
           (rows : list A) : list A :=
  if truthy_string tool
  then filter (fun r => String.eqb (name r) (nullish tool EmptyString)) rows
  else rows.

(** The tool name as the texts show it: absent when the filter is off. *)
Definition shown (tool : option string) : option string :=
  if truthy_string tool then tool else None.

Definition handleGetLatencyStats (input : Input) (db : DatabaseClient) : Reply :=
  if truthy_string (session_id input) then
    let sid := nullish (session_id input) EmptyString in
    match Sessions.getById (sessions db) sid with
    | None => SessionNotFound sid
    | Some _ =>
        let durations := Events.toolDurations (events db) sid in
        let filtered := for_tool Events.d_tool_name (tool_name input) durations in
        if Array_length filtered =? 0
        then NoToolEnd (shown (tool_name input)) (Some sid)
        else
          match Latency.computePercentiles (map Events.d_duration_ms filtered) with
          | None => NoData
          | Some stats => Stats (Some sid) (shown (tool_name input)) stats
          end
    end
  else
    let allRows := Events.allToolDurations (events db) in
    let filtered := for_tool Latency.tool_name (tool_name input) allRows in
    if Array_length filtered =? 0
    then NoToolEnd (shown (tool_name input)) None
    else if truthy_string (tool_name input) then
      match Latency.computePercentiles (map Latency.duration_ms filtered) with
      | None => NoData
      | Some stats => Stats None (shown (tool_name input)) stats
      end
    else
      Breakdown (Latency.computeToolLatencyStats filtered)
                (Latency.computePercentiles (map Latency.duration_ms filtered)).

End GetLatencyStats.

(* ================================================================= *)
(** ** tools/export_metrics.ts *)

Module ExportMetrics.
Import Js.

Inductive Format : Type := json | csv.

Record Input : Type := {
  session_ids : option (list string);
  format : Format;
  limit : Z
}.

(** What the returned text holds: the summaries in the chosen format. *)
Inductive Reply : Type :=
| NoSessions
| Exported (format : Format) (summaries : list SessionSummary).

Section Handler.
Variable env : Cost.Env.
Variable Date_getTime : string -> Z.

(** [ids.map(id => buildSessionSummary(db, id)).filter(s => s !== null)] *)
Definition summaries_of (db : DatabaseClient) (sessionIds : list string)
  : list SessionSummary :=
  flat_map (fun id => match Aggregator.buildSessionSummary env Date_getTime db id with
                      | Some s => [s]
                      | None => []
                      end) sessionIds.

Definition handleExportMetrics (input : Input) (db : DatabaseClient) : Reply :=
  let sessionIds :=
    if match session_ids input with
       | Some ids => Array_length ids >? 0
       | None => false
       end
    then nullish (session_ids input) []
    else map Sessions.id (SessionStmts.listRecent (sessions db) (limit input)) in
  let summaries := summaries_of db sessionIds in
  if Array_length summaries =? 0 then NoSessions
  else Exported (format input) summaries.
End Handler.

(** The characters [csvEscape] looks for. *)
Definition comma : ascii := "044"%char.
Definition dquote : ascii := "034"%char.
Definition newline : ascii := "010"%char.

(** [val.includes(c)] for a single character. *)
Fixpoint has_char (c : ascii) (s : string) : bool :=
  match s with
  | EmptyString => false
  | String x rest => Ascii.eqb x c || has_char c rest
  end.

(** The global [val.replace] of [csvEscape]: every double quote is
    written twice. *)
Fixpoint double_quotes (s : string) : string :=
  match s with
  | EmptyString => EmptyString
  | String x rest =>
      if Ascii.eqb x dquote
      then String dquote (String dquote (double_quotes rest))
      else String x (double_quotes rest)
  end.

Definition csvEscape (val : string) : string :=
  if has_char comma val || has_char dquote val || has_char newline val
  then String dquote (double_quotes val ++ String dquote EmptyString)
  else val.

End ExportMetrics.

(* ================================================================= *)
(** ** Further vocabulary *)

Module Notions.
Import Js.

(** The durations a tool's rows carry, in row order, and the number of
    its rows flagged as errors. *)
Definition durations_of (tool : string) (rows : list Latency.ToolRow) : list Z :=
  map Latency.duration_ms
      (filter (fun r => String.eqb (Latency.tool_name r) tool) rows).

Definition failures_of (tool : string) (rows : list Latency.ToolRow) : Z :=
  Array_length
    (filter (fun r => String.eqb (Latency.tool_name r) tool
                      && truthy_number (Latency.error r)) rows).

(** The bucket the grouping loop holds for a tool. *)
Definition bucket_of (tool : string) (rows : list Latency.ToolRow) : Latency.Bucket :=
  {| Latency.durations := durations_of tool rows;
     Latency.errors := failures_of tool rows |}.

(** The entry the second loop makes of a tool's bucket. *)
Definition entry_of (tool : string) (b : Latency.Bucket) (st : PercentileStats)
  : ToolLatencyStats :=
  {| toolName := tool;
     stats := st;
     errorRate :=
       if Array_length (Latency.durations b) >? 0
       then (inject_Z (Latency.errors b) / inject_Z (Array_length (Latency.durations b)))%Q
       else 0%Q;
     callCount := Array_length (Latency.durations b) |}.

(** The sum of the call counts of a breakdown. *)
Definition total_calls (l : list ToolLatencyStats) : Z :=
  Spec.total (map callCount l).

(** The entries the second loop makes of the map's entries. *)
Definition entries_of (e : string * Latency.Bucket) : list ToolLatencyStats :=
  match Latency.computePercentiles (Latency.durations (snd e)) with
  | Some st => [entry_of (fst e) (snd e) st]
  | None => []
  end.

(** A flag that is consistent with the values it quotes: raised above
    20 percent, critical exactly above 50 percent, and its percentage the
    relative change from a non-zero baseline value to the compare value. *)
Definition consistent_flag (f : RegressionFlag) : Prop :=
  (20 < deltaPct f)%Q /\
  (severity f = critical <-> (50 < deltaPct f)%Q) /\
  ~ (baselineValue f == 0)%Q /\
  (deltaPct f == (compareValue f - baselineValue f) / baselineValue f * 100)%Q.

(** The events of one session, in table order. *)
Definition events_of (sid : string) (t : Events.Table) : Events.Table :=
  filter (fun e => String.eqb (Events.session_id e) sid) t.

(** The constraints of the schema: [id] is the primary key of
    [sessions] and of [events], and every event references a session. *)
Definition well_formed (db : DatabaseClient) : Prop :=
  NoDup (map Sessions.id (sessions db)) /\
  NoDup (map Events.id (events db)) /\
  Forall (fun e => In (Events.session_id e) (map Sessions.id (sessions db)))
         (events db).

End Notions.


(* ================================================================= *)
(** ** Concrete calls of the handlers *)

Module Scenario.
Local Open Scope string_scope.

(** Inputs of [record_event] for the sample session. *)
Definition llm_request (model : option string) (prompt : Z) : RecordEventTool.Input :=
  {| RecordEventTool.session_id := "s1";
     RecordEventTool.event_type := Events.LLM_REQUEST;
     RecordEventTool.tool_name := None;
     RecordEventTool.model := model;
     RecordEventTool.prompt_chars := Some prompt;
     RecordEventTool.response_chars := None;
     RecordEventTool.duration_ms := None;
     RecordEventTool.error_message := None;
     RecordEventTool.metadata := None |}.

Definition llm_response (response duration : Z) : RecordEventTool.Input :=
  {| RecordEventTool.session_id := "s1";
     RecordEventTool.event_type := Events.LLM_RESPONSE;
     RecordEventTool.tool_name := None;
     RecordEventTool.model := None;
     RecordEventTool.prompt_chars := None;
     RecordEventTool.response_chars := Some response;
     RecordEventTool.duration_ms := Some duration;
     RecordEventTool.error_message := None;
     RecordEventTool.metadata := None |}.

Definition tool_end (tool : string) (duration : Z) : RecordEventTool.Input :=
  {| RecordEventTool.session_id := "s1";
     RecordEventTool.event_type := Events.TOOL_END;
     RecordEventTool.tool_name := Some tool;
     RecordEventTool.model := None;
     RecordEventTool.prompt_chars := None;
     RecordEventTool.response_chars := None;
     RecordEventTool.duration_ms := Some duration;
     RecordEventTool.error_message := None;
     RecordEventTool.metadata := None |}.

(** A call of [handleRecordEvent] on 15 January with fresh event ids. *)
Definition record (input : RecordEventTool.Input) (db : DatabaseClient)
  : RecordEventTool.Reply * DatabaseClient :=
  RecordEventTool.handleRecordEvent Cost.no_env "2026-01-15" (fun _ => "{}")
    "2026-01-15T10:00:06.000Z" "e7" "2026-01-15T10:00:06.001Z" "e8" input db.

End Scenario.

(* ================================================================= *)
(** ** The comparator and the budget check on IEEE-754 doubles *)

(** The percentages of [compareSessionSummaries] and the dollar
    thresholds of [checkBudget] are fractions, and the tests on them
    depend on how each operation rounds: from 0.000002 to 0.000003
    dollars the code computes 50.000000000000014 percent, and 80 percent
    of a cap of 0.00001 dollars is 8.0000000000000013e-06 for it.  This
    module is the code of metrics/aggregator.ts (lines 180-249),
    metrics/latency.ts (lines 114-117), metrics/cost.ts and
    tools/record_event.ts (lines 116-143) again, with every [number] a
    binary64 double and every operator the IEEE-754 one, as the
    JavaScript engine runs it. *)
Module Doubles.
Import Js.
Import RecordEvent.

(** [a > b], [a >= b] and [a <= b] on numbers; each is false when an
    operand is NaN. *)
Definition gt (a b : float) : bool := PrimFloat.ltb b a.
Definition ge (a b : float) : bool := PrimFloat.leb b a.
Definition le (a b : float) : bool := PrimFloat.leb a b.

(** Truthiness of a number: every number but [0], [-0] and NaN. *)
Definition truthy_number (x : float) : bool :=
  negb (PrimFloat.eqb x 0) && PrimFloat.eqb x x.

(** [Math.round] and [Math.ceil].  A double that is not finite, a zero
    and a double with a non-negative exponent are returned as they are;
    any other double [m * 2^e] is rounded on its mantissa, and a zero
    that comes from a negative double is [-0]. *)
Definition Math_round (x : float) : float :=
  match Prim2SF x with
  | S754_finite s m e =>
      if (0 <=? e)%Z then x
      else
        let z := ((2 * Binary64.signed s m + 2 ^ (- e)) / (2 * 2 ^ (- e)))%Z in
        if (z =? 0)%Z && s then neg_zero else Binary64.of_Z z
  | _ => x
  end.

Definition Math_ceil (x : float) : float :=
  match Prim2SF x with
  | S754_finite s m e =>
      if (0 <=? e)%Z then x
      else
        let z := (- ((- Binary64.signed s m) / 2 ^ (- e)))%Z in
        if (z =? 0)%Z && s then neg_zero else Binary64.of_Z z
  | _ => x
  end.

(** *** types/metrics.ts *)

Record PercentileStats : Type := {
  p50Ms : float;
  p75Ms : float;
  p95Ms : float;
  p99Ms : float;
  minMs : float;
  maxMs : float;
  meanMs : float;
  sampleCount : float
}.

Record ToolLatencyStats : Type := {
  toolName : string;
  stats : PercentileStats;
  errorRate : float;
  callCount : float
}.

Record CostBreakdown : Type := {
  estimatedInputTokens : float;
  estimatedOutputTokens : float;
  estimatedTotalTokens : float;
  inputCostUsd : float;
  outputCostUsd : float;
  totalCostUsd : float;
  modelUsed : option string
}.

Record SessionSummary : Type := {
  sessionId : string;
  label : option string;
  startedAt : string;
  endedAt : option string;
  durationMs : option float;
  toolCallCount : float;
  llmRequestCount : float;
  errorCount : float;
  uniqueToolsUsed : list string;
  cost : CostBreakdown;
  overallLatency : option PercentileStats;
  toolBreakdown : list ToolLatencyStats
}.

Record RegressionFlag : Type := {
  metric : string;
  baselineValue : float;
  compareValue : float;
  deltaPct : float;
  severity : Severity
}.

Record SessionComparison : Type := {
  baselineSessionId : string;
  compareSessionId : string;
  baselineLabel : option string;
  compareLabel : option string;
  costDeltaUsd : float;
  costDeltaPct : float;
  durationDeltaMs : option float;
  durationDeltaPct : option float;
  toolCallDelta : float;
  p95LatencyDeltaMs : option float;
  p95LatencyDeltaPct : option float;
  regressions : list RegressionFlag
}.

(** *** metrics/latency.ts: [p95DeltaPct] *)

Definition p95DeltaPct (baseline compare : float) : float :=
  if PrimFloat.eqb baseline 0 then 0%float
  else (((compare - baseline) / baseline) * 100)%float.

(** *** metrics/aggregator.ts: [compareSessionSummaries] *)

(** [roundUsd], the same in aggregator.ts and in cost.ts. *)
Definition roundUsd (v : float) : float :=
  (Math_round (v * 1000000) / 1000000)%float.

(** [Math.round(x * 10) / 10] *)
Definition round1 (x : float) : float :=
  (Math_round (x * 10) / 10)%float.

(** [maybeFlag]: what the call pushes onto [regressions]. *)
Definition maybeFlag (metric : string) (baseVal cmpVal deltaPct : float)
  : list RegressionFlag :=
  if gt deltaPct 50 then
    [ {| metric := metric; baselineValue := baseVal; compareValue := cmpVal;
         deltaPct := deltaPct; severity := critical |} ]
  else if gt deltaPct 20 then
    [ {| metric := metric; baselineValue := baseVal; compareValue := cmpVal;
         deltaPct := deltaPct; severity := warning |} ]
  else [].

(** The local constants of [compareSessionSummaries], under the names
    the function gives them. *)
Section Locals.
Variables baseline compare : SessionSummary.

Definition costDelta : float :=
  (totalCostUsd (cost compare) - totalCostUsd (cost baseline))%float.

Definition costDeltaPctVal : float :=
  if gt (totalCostUsd (cost baseline)) 0
  then ((costDelta / totalCostUsd (cost baseline)) * 100)%float
  else 0%float.

Definition durationDelta : option float :=
  match durationMs baseline, durationMs compare with
  | Some b, Some c => Some (c - b)%float
  | _, _ => None
  end.

Definition durationDeltaPctVal : option float :=
  match durationDelta, durationMs baseline with
  | Some d, Some b => if gt b 0 then Some ((d / b) * 100)%float else None
  | _, _ => None
  end.

Definition baseP95 : option float := option_map p95Ms (overallLatency baseline).
Definition cmpP95 : option float := option_map p95Ms (overallLatency compare).

Definition p95Delta : option float :=
  match baseP95, cmpP95 with
  | Some b, Some c => Some (c - b)%float
  | _, _ => None
  end.

Definition p95DeltaPctVal : option float :=
  match p95Delta, baseP95 with
  | Some _, Some b => Some (p95DeltaPct b (nullish cmpP95 0%float))
  | _, _ => None
  end.

(** The three guarded calls of [maybeFlag], in the order the code makes
    them. *)
Definition costFlags : list RegressionFlag :=
  if gt costDeltaPctVal 0
  then maybeFlag "cost_usd" (totalCostUsd (cost baseline))
                 (totalCostUsd (cost compare)) costDeltaPctVal
  else [].

Definition durationFlags : list RegressionFlag :=
  match durationDeltaPctVal, durationMs baseline with
  | Some pct, Some b =>
      if gt pct 0 && truthy_number b
      then maybeFlag "session_duration_ms" b (nullish (durationMs compare) 0%float) pct
      else []
  | _, _ => []
  end.

Definition p95Flags : list RegressionFlag :=
  match p95DeltaPctVal, baseP95, cmpP95 with
  | Some pct, Some b, Some c =>
      if gt pct 0 then maybeFlag "p95_tool_latency_ms" b c pct else []
  | _, _, _ => []
  end.

Definition compareSessionSummaries : SessionComparison :=
  {| baselineSessionId := sessionId baseline;
     compareSessionId := sessionId compare;
     baselineLabel := label baseline;
     compareLabel := label compare;
     costDeltaUsd := roundUsd costDelta;
     costDeltaPct := round1 costDeltaPctVal;
     durationDeltaMs := durationDelta;
     durationDeltaPct := option_map round1 durationDeltaPctVal;
     toolCallDelta := (toolCallCount compare - toolCallCount baseline)%float;
     p95LatencyDeltaMs := p95Delta;
     p95LatencyDeltaPct := option_map round1 p95DeltaPctVal;
     regressions := costFlags ++ durationFlags ++ p95Flags |}.
End Locals.

(** *** metrics/cost.ts *)

(** [process.env], as far as [envFloat] reads it: the double a variable
    parses to, or [None] when the variable is unset, empty or parses to
    NaN. *)
Definition Env : Type := string -> option float.

Definition envFloat (env : Env) (key : string) (fallback : float) : float :=
  nullish (env key) fallback.

Record PricingTable : Type := {
  gemini_2_5_pro : Binary64.PricingTier;
  gemini_2_5_flash : Binary64.PricingTier
}.

Definition PRICING (env : Env) : PricingTable :=
  {| gemini_2_5_pro :=
       {| Binary64.inputPer1M := envFloat env "PRICE_INPUT_PER_1M" 0.075%float;
          Binary64.outputPer1M := envFloat env "PRICE_OUTPUT_PER_1M" 0.30%float |};
     gemini_2_5_flash :=
       {| Binary64.inputPer1M := envFloat env "PRICE_FLASH_INPUT_PER_1M" 0.0375%float;
          Binary64.outputPer1M := envFloat env "PRICE_FLASH_OUTPUT_PER_1M" 0.15%float |} |}.

Definition DEFAULT_PRICING (env : Env) : Binary64.PricingTier :=
  gemini_2_5_pro (PRICING env).

Definition pricingFor (env : Env) (model : option string) : Binary64.PricingTier :=
  if negb (truthy_string model) then DEFAULT_PRICING env
  else if String_includes "flash" (nullish model EmptyString)
       then gemini_2_5_flash (PRICING env)
       else gemini_2_5_pro (PRICING env).

(** A row of [llmChars] as the driver hands it over: the INTEGER
    columns as numbers. *)
Record LlmRow : Type := {
  prompt_chars : option float;
  response_chars : option float;
  model : option string
}.

Definition as_numbers (row : Cost.LlmRow) : LlmRow :=
  {| prompt_chars := option_map Binary64.of_Z (Cost.prompt_chars row);
     response_chars := option_map Binary64.of_Z (Cost.response_chars row);
     model := Cost.model row |}.

(** The state of the first loop of [computeCost]; the counts of the
    models are small whole numbers. *)
Record Totals : Type := {
  totalPromptChars : float;
  totalResponseChars : float;
  modelCounts : Map Z
}.

Definition count_step (acc : Totals) (row : LlmRow) : Totals :=
  {| totalPromptChars := (totalPromptChars acc + nullish (prompt_chars row) 0)%float;
     totalResponseChars := (totalResponseChars acc + nullish (response_chars row) 0)%float;
     modelCounts :=
       match model row with
       | Some m =>
           if truthy_string (Some m)
           then Map_set (modelCounts acc) m
                        (nullish (Map_get (modelCounts acc) m) 0%Z + 1)%Z
           else modelCounts acc
       | None => modelCounts acc
       end |}.

Definition scanRows (llmRows : list LlmRow) : Totals :=
  fold_left count_step llmRows
            {| totalPromptChars := 0%float; totalResponseChars := 0%float;
               modelCounts := [] |}.

Definition estimateTokens (chars : float) : float :=
  Math_ceil (chars / 4)%float.

Definition computeCost (env : Env) (llmRows : list LlmRow) : CostBreakdown :=
  let t := scanRows llmRows in
  let dominantModel := Cost.pickDominant (modelCounts t) in
  let pricing := pricingFor env dominantModel in
  let inputTokens := estimateTokens (totalPromptChars t) in
  let outputTokens := estimateTokens (totalResponseChars t) in
  let inputCost := ((inputTokens / 1000000) * Binary64.inputPer1M pricing)%float in
  let outputCost := ((outputTokens / 1000000) * Binary64.outputPer1M pricing)%float in
  {| estimatedInputTokens := inputTokens;
     estimatedOutputTokens := outputTokens;
     estimatedTotalTokens := (inputTokens + outputTokens)%float;
     inputCostUsd := roundUsd inputCost;
     outputCostUsd := roundUsd outputCost;
     totalCostUsd := roundUsd (inputCost + outputCost)%float;
     modelUsed := dominantModel |}.

(** An environment that overrides no price. *)
Definition no_env : Env := fun _ => None.

(** *** db/queries/budget.ts and db/client.ts *)

(** The row of [budget_config]; its three policy columns are REAL. *)
Record BudgetRow : Type := {
  max_per_session_usd : float;
  max_per_day_usd : float;
  alert_threshold_pct : float
}.

Record DatabaseClient : Type := {
  sessions : Sessions.Table;
  events : Events.Table;
  budget : BudgetRow
}.

(** [db.events.llmChars] and [db.events.dailyLlmChars], their INTEGER
    results as numbers. *)
Definition llmChars (t : Events.Table) (sid : string) : list LlmRow :=
  map as_numbers (Events.llmChars t sid).

Definition dailyLlmChars (ss : Sessions.Table) (t : Events.Table) (date : string)
  : float * float :=
  let sums := Events.dailyLlmChars ss t date in
  (Binary64.of_Z (fst sums), Binary64.of_Z (snd sums)).

(** *** tools/record_event.ts: [checkBudget] *)

(** What the warning text says: which budget, the spend, the rounded
    percentage of the cap, and the cap. *)
Record BudgetWarning : Type := {
  scope : Scope;
  spentUsd : float;
  percentOfCap : float;
  capUsd : float
}.

Section Check.
Variable env : Env.
(** [new Date().toISOString().slice(0, 10)] *)
Variable today : string.

Definition checkBudget (sessionId : string) (db : DatabaseClient)
  : Logged (option BudgetWarning) :=
  config <- run budget_get (budget db) ;;
  if le (max_per_session_usd config) 0 && le (max_per_day_usd config) 0
  then ret None
  else
    llmRows <- run (events_llmChars sessionId) (llmChars (events db) sessionId) ;;
    let sessionCost := computeCost env llmRows in
    if gt (max_per_session_usd config) 0
       && ge (totalCostUsd sessionCost)
             (max_per_session_usd config * (alert_threshold_pct config / 100))%float
    then
      ret (Some {| scope := SessionBudget;
                   spentUsd := totalCostUsd sessionCost;
                   percentOfCap :=
                     Math_round
                       ((totalCostUsd sessionCost / max_per_session_usd config) * 100)%float;
                   capUsd := max_per_session_usd config |})
    else if gt (max_per_day_usd config) 0
    then
      dailyChars <- run (events_dailyLlmChars today)
                        (dailyLlmChars (sessions db) (events db) today) ;;
      let dailyCost :=
        computeCost env
          [ {| prompt_chars := Some (fst dailyChars); response_chars := None;
               model := None |};
            {| prompt_chars := None; response_chars := Some (snd dailyChars);
               model := None |} ] in
      if ge (totalCostUsd dailyCost)
            (max_per_day_usd config * (alert_threshold_pct config / 100))%float
      then
        ret (Some {| scope := DailyBudget;
                     spentUsd := totalCostUsd dailyCost;
                     percentOfCap :=
                       Math_round
                         ((totalCostUsd dailyCost / max_per_day_usd config) * 100)%float;
                     capUsd := max_per_day_usd config |})
      else ret None
    else ret None.
End Check.

End Doubles.

(* ================================================================= *)
(** ** The vocabulary of the specification, on doubles *)

Module Spec64.

(** [delta / baseline * 100] with [delta = compare - baseline], each
    operation rounded as a double. *)
Definition percentage (baseline compare : float) : float :=
  ((compare - baseline) / baseline * 100)%float.

(** The regression flags a comparison raised for one metric. *)
Definition flagsFor (m : string) (cmp : Doubles.SessionComparison)
  : list Doubles.RegressionFlag :=
  filter (fun f => String.eqb (Doubles.metric f) m) (Doubles.regressions cmp).

(** The severity policy for a percentage delta: no flag unless the delta
    is positive, no flag unless it is above 20, one warning when it is
    above 20 and not above 50, one critical flag when it is above 50.
    The flag carries the delta.  A delta that is not a number is above
    nothing. *)
Definition classified (pct : float) (flags : list Doubles.RegressionFlag) : Prop :=
  (Doubles.gt pct 0 = false -> flags = []) /\
  (Doubles.gt pct 20 = false -> flags = []) /\
  (Doubles.gt pct 20 = true -> Doubles.gt pct 50 = false ->
   exists f, flags = [f] /\ Doubles.severity f = warning /\ Doubles.deltaPct f = pct) /\
  (Doubles.gt pct 50 = true ->
   exists f, flags = [f] /\ Doubles.severity f = critical /\ Doubles.deltaPct f = pct).

End Spec64.

(* ================================================================= *)
(** ** Concrete summaries and stores on doubles *)

Module Sample64.
Local Open Scope string_scope.

(** A summary with the given duration, total cost and 95th percentile
    and nothing else of note. *)
Definition latency (p95 : float) : Doubles.PercentileStats :=
  {| Doubles.p50Ms := p95; Doubles.p75Ms := p95; Doubles.p95Ms := p95;
     Doubles.p99Ms := p95; Doubles.minMs := p95; Doubles.maxMs := p95;
     Doubles.meanMs := p95; Doubles.sampleCount := 1 |}.

Definition summary (sid : string) (duration : option float) (usd : float)
           (p95 : option float) : Doubles.SessionSummary :=
  {| Doubles.sessionId := sid; Doubles.label := None;
     Doubles.startedAt := "2026-01-15T10:00:00.000Z"; Doubles.endedAt := None;
     Doubles.durationMs := duration;
     Doubles.toolCallCount := 0; Doubles.llmRequestCount := 0; Doubles.errorCount := 0;
     Doubles.uniqueToolsUsed := [];
     Doubles.cost := {| Doubles.estimatedInputTokens := 0;
                        Doubles.estimatedOutputTokens := 0;
                        Doubles.estimatedTotalTokens := 0;
                        Doubles.inputCostUsd := usd; Doubles.outputCostUsd := 0;
                        Doubles.totalCostUsd := usd;
                        Doubles.modelUsed := None |};
     Doubles.overallLatency := option_map latency p95;
     Doubles.toolBreakdown := [] |}.

(** The sample store under a budget of doubles. *)
Definition store (b : Doubles.BudgetRow) : Doubles.DatabaseClient :=
  {| Doubles.sessions := [Sample.session "s1" None];
     Doubles.events := Sample.busy_events;
     Doubles.budget := b |}.

(** Both caps at a hundredth of a cent, alert at 80 percent. *)
Definition tight_budget : Doubles.BudgetRow :=
  {| Doubles.max_per_session_usd := 0.0001;
     Doubles.max_per_day_usd := 0.0001;
     Doubles.alert_threshold_pct := 80 |}.

(** A session whose only LLM request carries 424 prompt characters: 106
    tokens, 0.000008 dollars at the default price. *)
Definition small_store (b : Doubles.BudgetRow) : Doubles.DatabaseClient :=
  {| Doubles.sessions := [Sample.session "s1" None];
     Doubles.events :=
       [ Sample.event "e1" "s1" Events.LLM_REQUEST None (Some 424%Z) None None None
                      "2026-01-15T10:00:01.000Z" ];
     Doubles.budget := b |}.

End Sample64.

(* ================================================================= *)
(** * Properties *)

Import Js.
Import RecordEvent.

(* ----------------------------------------------------------------- *)
(** ** [Array.prototype.sort] *)

Section SortFacts.
Variable A : Type.
Variable cmp : A -> A -> Z.

Lemma sort_insert_perm (x : A) (l : list A) :
  Permutation (x :: l) (sort_insert cmp x l).
Proof.
  induction l as [|y l IH]; simpl; [reflexivity|].
  destruct (cmp x y <=? 0); [reflexivity|].
  rewrite perm_swap. now apply perm_skip.
Qed.

Lemma Array_sort_perm (l : list A) : Permutation l (Array_sort cmp l).
Proof.
  induction l as [|x l IH]; simpl; [constructor|].
  unfold Array_sort in *; simpl.
  rewrite <- sort_insert_perm. now apply perm_skip.
Qed.

Lemma Array_sort_length (l : list A) :
  List.length (Array_sort cmp l) = List.length l.
Proof. symmetry. apply Permutation_length, Array_sort_perm. Qed.

Lemma Array_sort_Forall (P : A -> Prop) (l : list A) :
  Forall P l -> Forall P (Array_sort cmp l).
Proof.
  intros H. eapply Permutation_Forall; [apply Array_sort_perm|exact H].
Qed.
End SortFacts.

Lemma sort_insert_sorted (x : Z) (l : list Z) :
  StronglySorted Z.le l ->
  StronglySorted Z.le (sort_insert (fun a b => a - b) x l).
Proof.
  induction 1 as [|y l Hs IH Hy]; simpl.
  - repeat constructor.
  - destruct (x - y <=? 0) eqn:E.
    + apply Z.leb_le in E.
      constructor; [constructor; assumption|].
      constructor; [lia|].
      eapply Forall_impl; [|exact Hy]. simpl; intros; lia.
    + apply Z.leb_gt in E.
      constructor; [exact IH|].
      eapply Permutation_Forall; [apply sort_insert_perm|].
      constructor; [lia|exact Hy].
Qed.

Lemma Array_sort_sorted (l : list Z) :
  StronglySorted Z.le (Array_sort (fun a b => a - b) l).
Proof.
  induction l as [|x l IH]; simpl; [constructor|].
  now apply sort_insert_sorted.
Qed.

Lemma StronglySorted_nth (s : list Z) :
  StronglySorted Z.le s ->
  forall i j, (i <= j < List.length s)%nat -> nth i s 0 <= nth j s 0.
Proof.
  induction 1 as [|x s Hs IH Hx]; intros i j Hij; simpl in *; [lia|].
  destruct i as [|i], j as [|j]; try lia.
  - rewrite Forall_forall in Hx. apply Hx, nth_In. lia.
  - apply IH. lia.
Qed.

(* ----------------------------------------------------------------- *)
(** ** Nearest-rank indices, sums and rounding *)

Lemma nearest_rank_index_range (p : Q) (n : Z) :
  1 <= n -> 0 <= Spec.nearest_rank_index p n <= n - 1.
Proof. unfold Spec.nearest_rank_index; lia. Qed.

Lemma nearest_rank_index_mono (p q : Q) (n : Z) :
  (p <= q)%Q -> 0 <= n ->
  Spec.nearest_rank_index p n <= Spec.nearest_rank_index q n.
Proof.
  intros Hpq Hn. unfold Spec.nearest_rank_index.
  assert (Qceiling (p / 100 * inject_Z n) <= Qceiling (q / 100 * inject_Z n)).
  { apply Qceiling_resp_le.
    assert (0 <= inject_Z n)%Q by (change 0%Q with (inject_Z 0); rewrite <- Zle_Qle; exact Hn).
    apply Qmult_le_compat_r; [|assumption].
    unfold Qdiv. apply Qmult_le_compat_r; [assumption|]. discriminate. }
  lia.
Qed.

Lemma nearest_rank_index_one (p : Q) : Spec.nearest_rank_index p 1 = 0.
Proof. unfold Spec.nearest_rank_index; lia. Qed.

Lemma percentile_spec (sorted : list Z) (p : Q) :
  Latency.percentile sorted (Array_length sorted) p
  = nth (Z.to_nat (Spec.nearest_rank_index p (Array_length sorted))) sorted 0.
Proof.
  unfold Latency.percentile, Array_at, Math_max, Math_min, Math_ceil.
  destruct (Array_length sorted =? 1) eqn:E.
  - apply Z.eqb_eq in E. rewrite E, nearest_rank_index_one. reflexivity.
  - reflexivity.
Qed.

Lemma fold_left_add_total (l : list Z) (a : Z) :
  fold_left Z.add l a = a + Spec.total l.
Proof.
  revert a; induction l as [|x l IH]; intros a; simpl; [lia|].
  rewrite IH. unfold Spec.total; simpl. lia.
Qed.

Lemma total_perm (l l' : list Z) :
  Permutation l l' -> Spec.total l = Spec.total l'.
Proof.
  induction 1; unfold Spec.total in *; simpl in *; lia.
Qed.

Lemma Math_round_nearest (x : Q) :
  (inject_Z (Math_round x) - (1 # 2) <= x /\ x < inject_Z (Math_round x) + (1 # 2))%Q.
Proof.
  unfold Math_round.
  pose proof (Qfloor_le (x + (1 # 2))) as H1.
  pose proof (Qlt_floor (x + (1 # 2))) as H2.
  rewrite inject_Z_plus in H2. change (inject_Z 1) with 1%Q in H2.
  split; lra.
Qed.

Lemma Math_round_Z (z : Z) : Math_round (inject_Z z) = z.
Proof.
  pose proof (Math_round_nearest (inject_Z z)) as [H1 H2].
  set (f := Math_round (inject_Z z)) in *.
  assert (f <= z).
  { destruct (Z_le_gt_dec f z) as [|G]; [assumption|].
    assert (G' : z + 1 <= f) by lia.
    rewrite Zle_Qle, inject_Z_plus in G'. change (inject_Z 1) with 1%Q in G'. lra. }
  assert (z <= f).
  { destruct (Z_le_gt_dec z f) as [|G]; [assumption|].
    assert (G' : f + 1 <= z) by lia.
    rewrite Zle_Qle, inject_Z_plus in G'. change (inject_Z 1) with 1%Q in G'. lra. }
  lia.
Qed.

Lemma nth_error_nth_Z (l : list Z) (i : nat) :
  (i < List.length l)%nat -> nth_error l i = Some (nth i l 0).
Proof. intros H. apply nth_error_nth'. exact H. Qed.

(* ----------------------------------------------------------------- *)
(** ** The percentiles of a non-empty collection *)

Section Percentiles.
Variable durationsMs : list Z.
Hypothesis nonempty : durationsMs <> [].

Local Abbreviation sorted := (Array_sort (fun a b => a - b) durationsMs).
Local Abbreviation n := (Z.of_nat (List.length durationsMs)).

Lemma sorted_length : Array_length sorted = n.
Proof. unfold Array_length. now rewrite Array_sort_length. Qed.

Lemma n_pos : 1 <= n.
Proof. destruct durationsMs; [congruence|simpl List.length; lia]. Qed.

Lemma rank_lookup (p : Q) :
  nth_error sorted (Z.to_nat (Spec.nearest_rank_index p n))
  = Some (Latency.percentile sorted (Array_length sorted) p).
Proof.
  rewrite percentile_spec, sorted_length.
  apply nth_error_nth_Z.
  pose proof (nearest_rank_index_range p n_pos).
  pose proof sorted_length as L. unfold Array_length in L. lia.
Qed.

Lemma rank_le (p q : Q) :
  (p <= q)%Q ->
  Latency.percentile sorted (Array_length sorted) p
  <= Latency.percentile sorted (Array_length sorted) q.
Proof.
  intros Hpq. rewrite !percentile_spec, sorted_length.
  apply StronglySorted_nth; [apply Array_sort_sorted|].
  pose proof (nearest_rank_index_range p n_pos).
  pose proof (nearest_rank_index_range q n_pos).
  pose proof (nearest_rank_index_mono Hpq (n:=n)).
  pose proof n_pos.
  pose proof sorted_length as L. unfold Array_length in L. lia.
Qed.

Lemma rank_in (p : Q) :
  In (Latency.percentile sorted (Array_length sorted) p) durationsMs.
Proof.
  eapply Permutation_in; [symmetry; apply (Array_sort_perm (fun a b => a - b))|].
  eapply nth_error_In, rank_lookup.
Qed.

Lemma min_le_rank (p : Q) :
  Array_at sorted 0 <= Latency.percentile sorted (Array_length sorted) p.
Proof.
  rewrite percentile_spec, sorted_length. unfold Array_at.
  apply StronglySorted_nth; [apply Array_sort_sorted|].
  pose proof (nearest_rank_index_range p n_pos).
  pose proof sorted_length as L. unfold Array_length in L. lia.
Qed.

Lemma rank_le_max (p : Q) :
  Latency.percentile sorted (Array_length sorted) p <= Array_at sorted (n - 1).
Proof.
  rewrite percentile_spec, sorted_length. unfold Array_at.
  apply StronglySorted_nth; [apply Array_sort_sorted|].
  pose proof (nearest_rank_index_range p n_pos).
  pose proof n_pos.
  pose proof sorted_length as L. unfold Array_length in L. lia.
Qed.
End Percentiles.

(* ----------------------------------------------------------------- *)
(** ** [computePercentiles] *)

Lemma computePercentiles_unfold (l : list Z) :
  l <> [] ->
  let sorted := Array_sort (fun a b => a - b) l in
  let n := Array_length sorted in
  Latency.computePercentiles l =
  Some {| p50Ms := Latency.percentile sorted n 50;
          p75Ms := Latency.percentile sorted n 75;
          p95Ms := Latency.percentile sorted n 95;
          p99Ms := Latency.percentile sorted n 99;
          minMs := Array_at sorted 0;
          maxMs := Array_at sorted (n - 1);
          meanMs := Math_round (inject_Z (Array_sum sorted) / inject_Z n)%Q;
          sampleCount := n |}.
Proof.
  intros H. unfold Latency.computePercentiles.
  destruct (Array_length l =? 0) eqn:E; [|reflexivity].
  apply Z.eqb_eq in E. unfold Array_length in E.
  destruct l; [congruence|simpl in E; lia].
Qed.

Lemma Array_sum_sort (l : list Z) :
  Array_sum (Array_sort (fun a b => a - b) l) = Spec.total l.
Proof.
  unfold Array_sum. rewrite fold_left_add_total.
  rewrite <- (total_perm (Array_sort_perm (fun a b => a - b) l)). lia.
Qed.

Lemma Math_round_comp (x y : Q) : (x == y)%Q -> Math_round x = Math_round y.
Proof. intros E. unfold Math_round. apply Qfloor_comp. now rewrite E. Qed.

(** C1.  For every non-empty collection of durations [computePercentiles]
    returns statistics [st] such that, with [sorted] the ascending
    rearrangement of the input and [n] its length: each of p50, p75, p95
    and p99 is the element of [sorted] at index
    [clamp(ceil(p/100 * n) - 1, 0, n - 1)]; min and max are the first and
    the last element of [sorted]; the mean is the arithmetic mean of the
    input rounded to the nearest integer (it differs from the exact mean
    by at most one half, a half rounding up); the sample count is [n].
    Consequently min <= p50 <= p75 <= p95 <= p99 <= max, every percentile
    is a member of the input, and on a single sample all of them (and
    min, max and mean) are that sample. *)
Theorem computePercentiles_nearest_rank (durationsMs : list Z) :
  durationsMs <> [] ->
  exists (st : PercentileStats) (sorted : list Z),
    Latency.computePercentiles durationsMs = Some st /\
    Permutation durationsMs sorted /\ StronglySorted Z.le sorted /\
    let n := Z.of_nat (List.length durationsMs) in
    (nth_error sorted (Z.to_nat (Spec.nearest_rank_index 50 n)) = Some (p50Ms st) /\
     nth_error sorted (Z.to_nat (Spec.nearest_rank_index 75 n)) = Some (p75Ms st) /\
     nth_error sorted (Z.to_nat (Spec.nearest_rank_index 95 n)) = Some (p95Ms st) /\
     nth_error sorted (Z.to_nat (Spec.nearest_rank_index 99 n)) = Some (p99Ms st)) /\
    (nth_error sorted 0 = Some (minMs st) /\
     nth_error sorted (Z.to_nat (n - 1)) = Some (maxMs st)) /\
    (inject_Z (meanMs st) - (1 # 2) <= inject_Z (Spec.total durationsMs) / inject_Z n
     /\ inject_Z (Spec.total durationsMs) / inject_Z n < inject_Z (meanMs st) + (1 # 2))%Q /\
    sampleCount st = n /\
    (minMs st <= p50Ms st /\ p50Ms st <= p75Ms st /\ p75Ms st <= p95Ms st /\
     p95Ms st <= p99Ms st /\ p99Ms st <= maxMs st) /\
    (In (p50Ms st) durationsMs /\ In (p75Ms st) durationsMs /\
     In (p95Ms st) durationsMs /\ In (p99Ms st) durationsMs) /\
    (forall d, durationsMs = [d] ->
       p50Ms st = d /\ p75Ms st = d /\ p95Ms st = d /\ p99Ms st = d /\
       minMs st = d /\ maxMs st = d /\ meanMs st = d).
Proof.
  intros Hne.
  pose proof (computePercentiles_unfold Hne) as U. cbv zeta in U.
  set (sorted := Array_sort (fun a b => a - b) durationsMs) in *.
  pose proof (sorted_length durationsMs) as L. fold sorted in L.
  pose proof (n_pos Hne) as Hn.
  eexists; exists sorted. split; [exact U|]. cbn [p50Ms p75Ms p95Ms p99Ms minMs maxMs meanMs sampleCount].
  split; [apply Array_sort_perm|].
  split; [apply Array_sort_sorted|].
  cbv zeta. set (n := Z.of_nat (List.length durationsMs)) in *.
  assert (Len : (List.length sorted = List.length durationsMs)%nat)
    by apply Array_sort_length.
  repeat split.
  1-4: apply (rank_lookup Hne).
  - unfold Array_at. apply (nth_error_nth_Z sorted (i:=0)). fold n in Hn. lia.
  - rewrite L. unfold Array_at. apply nth_error_nth_Z. fold n in Hn. lia.
  - rewrite L, <- (Array_sum_sort durationsMs). apply Math_round_nearest.
  - rewrite L, <- (Array_sum_sort durationsMs). apply Math_round_nearest.
  - exact L.
  - apply (min_le_rank Hne).
  - apply (rank_le Hne). lra.
  - apply (rank_le Hne). lra.
  - apply (rank_le Hne). lra.
  - rewrite L at 2. apply (rank_le_max Hne).
  - apply (rank_in Hne).
  - apply (rank_in Hne).
  - apply (rank_in Hne).
  - apply (rank_in Hne).
  - subst durationsMs. reflexivity.
  - subst durationsMs. reflexivity.
  - subst durationsMs. reflexivity.
  - subst durationsMs. reflexivity.
  - subst durationsMs. reflexivity.
  - subst durationsMs. reflexivity.
  - subst durationsMs.
    change (Array_sum sorted) with d. change (Array_length sorted) with 1.
    transitivity (Math_round (inject_Z d)); [|apply Math_round_Z].
    apply Math_round_comp. unfold Qdiv. change (/ inject_Z 1)%Q with 1%Q. ring.
Qed.

(* ----------------------------------------------------------------- *)
(** ** Insertion-ordered maps, occurrence counts and first positions *)

Section MapFacts.
Variable V : Type.

Lemma Map_get_set (m : Map V) (k k' : string) (v : V) :
  Map_get (Map_set m k v) k' = if String.eqb k k' then Some v else Map_get m k'.
Proof.
  induction m as [|[k0 v0] m IH]; simpl.
  - reflexivity.
  - destruct (String.eqb k0 k) eqn:E; simpl.
    + apply String.eqb_eq in E; subst k0.
      destruct (String.eqb k k'); reflexivity.
    + rewrite IH. destruct (String.eqb k0 k') eqn:E'; [|reflexivity].
      apply String.eqb_eq in E'; subst k0. now rewrite String.eqb_sym, E.
Qed.

Lemma Map_get_In (m : Map V) (k : string) :
  In k (map fst m) <-> Map_get m k <> None.
Proof.
  induction m as [|[k0 v0] m IH]; simpl.
  - tauto.
  - destruct (String.eqb k0 k) eqn:E.
    + apply String.eqb_eq in E. split; [discriminate|auto].
    + apply String.eqb_neq in E. rewrite <- IH. tauto.
Qed.

Lemma Map_set_keys_old (m : Map V) (k : string) (v : V) :
  In k (map fst m) -> map fst (Map_set m k v) = map fst m.
Proof.
  induction m as [|[k0 v0] m IH]; simpl; [tauto|].
  intros H. destruct (String.eqb k0 k) eqn:E; simpl; [reflexivity|].
  apply String.eqb_neq in E. f_equal. apply IH. tauto.
Qed.

Lemma Map_set_keys_new (m : Map V) (k : string) (v : V) :
  ~ In k (map fst m) -> map fst (Map_set m k v) = map fst m ++ [k].
Proof.
  induction m as [|[k0 v0] m IH]; simpl; [reflexivity|].
  intros H. destruct (String.eqb k0 k) eqn:E; simpl.
  - apply String.eqb_eq in E. tauto.
  - f_equal. apply IH. tauto.
Qed.

Lemma Map_get_entry (m : Map V) (k : string) (v : V) :
  NoDup (map fst m) -> In (k, v) m -> Map_get m k = Some v.
Proof.
  induction m as [|[k0 v0] m IH]; simpl; [tauto|].
  intros ND [E|H].
  - inversion E; subst. now rewrite String.eqb_refl.
  - inversion ND as [|? ? Hn ND']; subst.
    destruct (String.eqb k0 k) eqn:E.
    + apply String.eqb_eq in E; subst k0.
      exfalso. apply Hn. change k with (fst (k, v)). now apply in_map.
    + now apply IH.
Qed.
End MapFacts.

(** *** Occurrence counts and first positions *)

Lemma occurrences_app (m : string) (a b : list string) :
  Spec.occurrences m (a ++ b) = Spec.occurrences m a + Spec.occurrences m b.
Proof. induction a as [|x a IH]; simpl; [reflexivity|]. rewrite IH. lia. Qed.

Lemma occurrences_nonneg (m : string) (ms : list string) : 0 <= Spec.occurrences m ms.
Proof. induction ms as [|x ms IH]; simpl; [lia|]. destruct (String.eqb x m); lia. Qed.

Lemma occurrences_pos (m : string) (ms : list string) :
  In m ms <-> 0 < Spec.occurrences m ms.
Proof.
  induction ms as [|x ms IH]; simpl; [split; [tauto|lia]|].
  pose proof (occurrences_nonneg m ms).
  destruct (String.eqb x m) eqn:E.
  - apply String.eqb_eq in E. split; [lia|auto].
  - apply String.eqb_neq in E. rewrite IH. split; [intros [?|?]; [tauto|lia]|intros; right; lia].
Qed.

Lemma first_position_lt (m : string) (ms : list string) :
  In m ms -> (Spec.first_position m ms < List.length ms)%nat.
Proof.
  induction ms as [|x ms IH]; simpl; [tauto|].
  intros H. destruct (String.eqb x m) eqn:E; [lia|].
  apply String.eqb_neq in E. destruct H; [tauto|]. apply IH in H. lia.
Qed.

Lemma first_position_app_in (m : string) (a b : list string) :
  In m a -> Spec.first_position m (a ++ b) = Spec.first_position m a.
Proof.
  induction a as [|x a IH]; simpl; [tauto|].
  intros H. destruct (String.eqb x m) eqn:E; [reflexivity|].
  apply String.eqb_neq in E. f_equal. apply IH. tauto.
Qed.

Lemma first_position_app_out (m : string) (a b : list string) :
  ~ In m a -> Spec.first_position m (a ++ b) = (List.length a + Spec.first_position m b)%nat.
Proof.
  induction a as [|x a IH]; simpl; [reflexivity|].
  intros H. destruct (String.eqb x m) eqn:E.
  - apply String.eqb_eq in E. tauto.
  - f_equal. apply IH. tauto.
Qed.

(* ----------------------------------------------------------------- *)
(** ** The two loops of [computeCost] *)

(** *** The first loop of [computeCost] tallies the specified models *)

Lemma modelCounts_fold (rows : list Cost.LlmRow) (acc : Cost.Totals) :
  Cost.modelCounts (fold_left Cost.count_step rows acc)
  = fold_left tally_step (Spec.specified_models rows) (Cost.modelCounts acc).
Proof.
  revert acc; induction rows as [|r rows IH]; intros acc; simpl; [reflexivity|].
  rewrite IH. unfold Spec.specified_models at 2. simpl.
  fold (Spec.specified_models rows). rewrite fold_left_app.
  f_equal. unfold Cost.count_step; simpl.
  destruct (Cost.model r) as [m|]; simpl; [|reflexivity].
  destruct (String.eqb m EmptyString); reflexivity.
Qed.

Lemma modelCounts_tally (rows : list Cost.LlmRow) :
  Cost.modelCounts (Cost.scanRows rows) = tally (Spec.specified_models rows).
Proof. unfold Cost.scanRows. now rewrite modelCounts_fold. Qed.

Lemma tally_snoc (ms : list string) (x : string) :
  tally (ms ++ [x]) = tally_step (tally ms) x.
Proof. unfold tally. now rewrite fold_left_app. Qed.

Lemma tally_get (ms : list string) (k : string) :
  Map_get (tally ms) k
  = if Spec.occurrences k ms =? 0 then None else Some (Spec.occurrences k ms).
Proof.
  induction ms as [|x ms IH] using rev_ind; [reflexivity|].
  rewrite tally_snoc. unfold tally_step. rewrite Map_get_set, occurrences_app.
  pose proof (occurrences_nonneg k ms) as Hk.
  cbn [Spec.occurrences]. rewrite Z.add_0_r.
  destruct (String.eqb x k) eqn:E.
  - apply String.eqb_eq in E; subst x. rewrite IH.
    destruct (Z.eqb_spec (Spec.occurrences k ms) 0) as [Z0|Z0];
      destruct (Z.eqb_spec (Spec.occurrences k ms + 1) 0) as [Z1|Z1]; try lia.
    + rewrite Z0. reflexivity.
    + reflexivity.
  - rewrite IH, Z.add_0_r. reflexivity.
Qed.

Lemma tally_keys_In (ms : list string) (k : string) :
  In k (map fst (tally ms)) <-> In k ms.
Proof.
  rewrite Map_get_In, tally_get, occurrences_pos.
  pose proof (occurrences_nonneg k ms).
  destruct (Spec.occurrences k ms =? 0) eqn:E.
  - apply Z.eqb_eq in E. split; [congruence|lia].
  - apply Z.eqb_neq in E. split; [lia|discriminate].
Qed.

Lemma StronglySorted_snoc (A : Type) (R : A -> A -> Prop) (l : list A) (x : A) :
  StronglySorted R l -> Forall (fun y => R y x) l -> StronglySorted R (l ++ [x]).
Proof.
  induction 1 as [|y l Hs IH Hy]; intros Hx; simpl.
  - repeat constructor.
  - inversion Hx; subst. constructor; [auto|].
    apply Forall_app; split; [assumption|]. repeat constructor; assumption.
Qed.

Lemma StronglySorted_ext (A : Type) (R R' : A -> A -> Prop) (l : list A) :
  (forall a b, In a l -> In b l -> R a b -> R' a b) ->
  StronglySorted R l -> StronglySorted R' l.
Proof.
  intros H S; induction S as [|y l Hs IH Hy]; constructor.
  - apply IH. intros; apply H; simpl; auto.
  - rewrite Forall_forall in *. intros b Hb. apply H; simpl; auto.
Qed.

(** The keys of the tally stand in the order in which the models first
    occur. *)
Lemma tally_keys_order (ms : list string) :
  StronglySorted (fun a b => (Spec.first_position a ms < Spec.first_position b ms)%nat)
                 (map fst (tally ms)).
Proof.
  induction ms as [|x ms IH] using rev_ind; [constructor|].
  rewrite tally_snoc. unfold tally_step.
  set (v := nullish (Map_get (tally ms) x) 0 + 1).
  assert (Old : StronglySorted
                  (fun a b => (Spec.first_position a (ms ++ [x]) < Spec.first_position b (ms ++ [x]))%nat)
                  (map fst (tally ms))).
  { eapply StronglySorted_ext; [|exact IH].
    intros a b Ha Hb Hab.
    apply (proj1 (tally_keys_In ms a)) in Ha.
    apply (proj1 (tally_keys_In ms b)) in Hb.
    rewrite !first_position_app_in by assumption. exact Hab. }
  destruct (in_dec string_dec x (map fst (tally ms))) as [Hin|Hout].
  - rewrite Map_set_keys_old by assumption. exact Old.
  - rewrite Map_set_keys_new by assumption.
    apply StronglySorted_snoc; [exact Old|].
    rewrite Forall_forall. intros y Hy. apply (proj1 (tally_keys_In ms y)) in Hy.
    rewrite first_position_app_in by assumption.
    rewrite first_position_app_out by (now rewrite <- tally_keys_In).
    pose proof (first_position_lt _ _ Hy). lia.
Qed.

Lemma tally_keys_NoDup (ms : list string) : NoDup (map fst (tally ms)).
Proof.
  pose proof (tally_keys_order ms) as S.
  induction S as [|y l Hs IH Hy]; constructor; [|assumption].
  intros Hin. rewrite Forall_forall in Hy. specialize (Hy _ Hin). lia.
Qed.

Lemma tally_entry (ms : list string) (k : string) (c : Z) :
  In (k, c) (tally ms) -> c = Spec.occurrences k ms /\ In k ms.
Proof.
  intros H. pose proof (Map_get_entry _ _ _ (tally_keys_NoDup ms) H) as G.
  rewrite tally_get in G.
  destruct (Spec.occurrences k ms =? 0) eqn:E; [discriminate|].
  apply Z.eqb_neq in E. pose proof (occurrences_nonneg k ms).
  split; [congruence|]. apply occurrences_pos. lia.
Qed.

(** *** The second loop keeps the first entry with the largest count *)

Lemma pick_loop (E : list (string * Z)) (mx : Z) (dom : option string) :
  (fold_left Cost.pick_step E (mx, dom) = (mx, dom) /\
   forall k c, In (k, c) E -> c <= mx)
  \/
  exists E1 k c E2,
    E = E1 ++ (k, c) :: E2 /\
    fold_left Cost.pick_step E (mx, dom) = (c, Some k) /\
    mx < c /\
    (forall k' c', In (k', c') E1 -> c' < c) /\
    (forall k' c', In (k', c') E2 -> c' <= c).
Proof.
  revert mx dom; induction E as [|[k c] E IH]; intros mx dom; simpl.
  - left. split; [reflexivity|tauto].
  - destruct (c >? mx) eqn:G.
    + apply Z.gtb_lt in G. right.
      destruct (IH c (Some k)) as [[F B]|(E1 & k1 & c1 & E2 & -> & F & Hlt & B1 & B2)].
      * exists [], k, c, E. simpl. repeat split; auto. tauto.
      * exists ((k, c) :: E1), k1, c1, E2. simpl. repeat split; auto; try lia.
        intros k' c' [Eq|H]; [inversion Eq; subst; lia|eauto].
    + assert (c <= mx) by (destruct (Z.gtb_spec c mx); [discriminate|lia]).
      destruct (IH mx dom) as [[F B]|(E1 & k1 & c1 & E2 & -> & F & Hlt & B1 & B2)].
      * left. split; [exact F|]. intros k' c' [Eq|H']; [inversion Eq; subst; lia|eauto].
      * right. exists ((k, c) :: E1), k1, c1, E2. simpl. repeat split; auto.
        intros k' c' [Eq|H']; [inversion Eq; subst; lia|eauto].
Qed.

(* ----------------------------------------------------------------- *)
(** ** The dominant model *)

Lemma StronglySorted_after (A : Type) (R : A -> A -> Prop) (l1 l2 : list A) (x : A) :
  StronglySorted R (l1 ++ x :: l2) -> Forall (R x) l2.
Proof.
  induction l1 as [|y l1 IH]; simpl; intros S; inversion S; subst; auto.
Qed.

Lemma dominant_unique (ms : list string) (m m' : string) :
  Spec.dominant m ms -> Spec.dominant m' ms -> m = m'.
Proof.
  intros [_ H] [_ H'].
  destruct (string_dec m m') as [|N]; [assumption|exfalso].
  assert (N' : m' <> m) by congruence.
  specialize (H m' N'). specialize (H' m N). lia.
Qed.

Lemma pickDominant_tally (ms : list string) :
  (Cost.pickDominant (tally ms) = None <-> ms = []) /\
  (forall m, Cost.pickDominant (tally ms) = Some m <-> Spec.dominant m ms).
Proof.
  assert (Key : (Cost.pickDominant (tally ms) = None /\ ms = []) \/
                (exists k, Cost.pickDominant (tally ms) = Some k /\ Spec.dominant k ms)).
  { unfold Cost.pickDominant, Map_entries.
    destruct (pick_loop (tally ms) 0 None)
      as [[F B]|(E1 & k & c & E2 & HE & F & Hlt & B1 & B2)].
    - left. rewrite F. split; [reflexivity|].
      destruct ms as [|x ms]; [reflexivity|exfalso].
      assert (Hx : In x (map fst (tally (x :: ms))))
        by (apply tally_keys_In; simpl; auto).
      apply in_map_iff in Hx. destruct Hx as [[k c] [Ek Hin]]. simpl in Ek; subst k.
      pose proof (B _ _ Hin). apply tally_entry in Hin. destruct Hin as [-> Hin].
      apply occurrences_pos in Hin. lia.
    - right. exists k. rewrite F. split; [reflexivity|].
      assert (Hk : In (k, c) (tally ms)) by (rewrite HE; apply in_elt).
      destruct (tally_entry _ _ _ Hk) as [Hc Hkin].
      split; [exact Hkin|]. intros m' Hm'.
      destruct (in_dec string_dec m' ms) as [Hin|Hout].
      + apply tally_keys_In in Hin. apply in_map_iff in Hin.
        destruct Hin as [[k' c'] [Ek Hin]]. simpl in Ek; subst k'.
        destruct (tally_entry _ _ _ Hin) as [Hc' _].
        rewrite HE in Hin. apply in_app_or in Hin. destruct Hin as [Hin|[Eq|Hin]].
        * left. specialize (B1 _ _ Hin). lia.
        * inversion Eq; subst. congruence.
        * specialize (B2 _ _ Hin).
          destruct (Z.eq_dec c' c) as [->|]; [right|left; lia].
          split; [lia|].
          pose proof (tally_keys_order ms) as S. rewrite HE, map_app in S.
          simpl in S. apply StronglySorted_after in S.
          rewrite Forall_forall in S. apply S.
          change m' with (fst (m', c)). now apply in_map.
      + left. apply occurrences_pos in Hkin.
        assert (Spec.occurrences m' ms = 0).
        { pose proof (occurrences_nonneg m' ms).
          destruct (Z.eq_dec (Spec.occurrences m' ms) 0); [assumption|].
          exfalso. apply Hout. apply occurrences_pos. lia. }
        lia. }
  split.
  - destruct Key as [[F E]|[k [F D]]].
    + tauto.
    + rewrite F. split; [discriminate|]. intros ->. destruct D as [[] _].
  - intros m. destruct Key as [[F E]|[k [F D]]].
    + rewrite F, E. split; [discriminate|]. intros [[] _].
    + rewrite F. split.
      * intros Eq. inversion Eq; subst. exact D.
      * intros D'. f_equal. eapply dominant_unique; eassumption.
Qed.

(** *** [includes] *)

Lemma prefix_spec (sub s : string) :
  String.prefix sub s = true <-> exists post, s = (sub ++ post)%string.
Proof.
  revert s; induction sub as [|a sub IH]; intros s; simpl.
  - split; [intros _; exists s; reflexivity|intros _; destruct s; reflexivity].
  - destruct s as [|b s]; simpl.
    + split; [discriminate|intros [post H]; discriminate].
    + destruct (Ascii.ascii_dec a b) as [->|N].
      * rewrite IH. split; intros [post H]; exists post; [now rewrite H|now inversion H].
      * split; [discriminate|]. intros [post H]. inversion H. congruence.
Qed.

Lemma String_includes_spec (sub s : string) :
  String_includes sub s = true <-> Spec.contains sub s.
Proof.
  unfold Spec.contains. split.
  - induction s as [|a s IH]; cbn [String_includes]; rewrite orb_true_iff.
    + intros [H|H]; [|discriminate]. apply prefix_spec in H.
      destruct H as [post H]. exists EmptyString, post. exact H.
    + intros [H|H].
      * apply prefix_spec in H. destruct H as [post H].
        exists EmptyString, post. exact H.
      * destruct (IH H) as (pre & post & E).
        exists (String a pre), post. simpl. now rewrite E.
  - intros (pre & post & E). revert s E.
    induction pre as [|a pre IH]; intros s E; simpl in E.
    + assert (P : String.prefix sub s = true) by (apply prefix_spec; eauto).
      destruct s; cbn [String_includes]; rewrite orb_true_iff; left; exact P.
    + subst s. cbn [String_includes]. rewrite orb_true_iff. right. now apply IH.
Qed.

(* ----------------------------------------------------------------- *)
(** ** [computeCost]: totals, pricing tier and monotonicity *)

Lemma scanRows_totals_fold (rows : list Cost.LlmRow) (acc : Cost.Totals) :
  Cost.totalPromptChars (fold_left Cost.count_step rows acc)
  = Cost.totalPromptChars acc + Spec.promptTotal rows /\
  Cost.totalResponseChars (fold_left Cost.count_step rows acc)
  = Cost.totalResponseChars acc + Spec.responseTotal rows.
Proof.
  revert acc; induction rows as [|r rows IH]; intros acc.
  - unfold Spec.promptTotal, Spec.responseTotal, Spec.total; simpl. lia.
  - simpl fold_left. destruct (IH (Cost.count_step acc r)) as [-> ->].
    unfold Spec.promptTotal, Spec.responseTotal, Spec.total; simpl. lia.
Qed.

Lemma scanRows_prompt (rows : list Cost.LlmRow) :
  Cost.totalPromptChars (Cost.scanRows rows) = Spec.promptTotal rows.
Proof. unfold Cost.scanRows. now rewrite (proj1 (scanRows_totals_fold rows _)). Qed.

Lemma scanRows_response (rows : list Cost.LlmRow) :
  Cost.totalResponseChars (Cost.scanRows rows) = Spec.responseTotal rows.
Proof. unfold Cost.scanRows. now rewrite (proj2 (scanRows_totals_fold rows _)). Qed.

Lemma modelUsed_pick (env : Cost.Env) (rows : list Cost.LlmRow) :
  modelUsed (Cost.computeCost env rows)
  = Cost.pickDominant (tally (Spec.specified_models rows)).
Proof. unfold Cost.computeCost; simpl. now rewrite modelCounts_tally. Qed.

Lemma pricingFor_flash (env : Cost.Env) (m : string) :
  Spec.contains "flash" m ->
  Cost.pricingFor env (Some m) = Cost.gemini_2_5_flash (Cost.PRICING env).
Proof.
  intros C. unfold Cost.pricingFor, truthy_string.
  destruct (String.eqb_spec m EmptyString) as [->|N]; simpl.
  - destruct C as (pre & post & E). destruct pre; discriminate.
  - apply String_includes_spec in C. now rewrite C.
Qed.

Lemma pricingFor_other (env : Cost.Env) (m : string) :
  ~ Spec.contains "flash" m ->
  Cost.pricingFor env (Some m) = Cost.gemini_2_5_pro (Cost.PRICING env).
Proof.
  intros C. unfold Cost.pricingFor, truthy_string.
  destruct (String.eqb_spec m EmptyString) as [->|N]; simpl; [reflexivity|].
  destruct (String_includes "flash" m) eqn:E; [|reflexivity].
  apply String_includes_spec in E. tauto.
Qed.

(** C5.  The model [computeCost] prices with is null exactly when no row
    specifies a model; otherwise it is the model that appears most often
    among the rows that specify one, and among the models that appear as
    often, the one first encountered in row order.  The three dollar
    figures are computed with the tier [pricingFor] resolves from that
    model: the flash tier for an identifier that contains "flash", the
    pro tier for any other identifier and for null. *)
Theorem computeCost_dominant_model (env : Cost.Env) (llmRows : list Cost.LlmRow) :
  let ms := Spec.specified_models llmRows in
  let c := Cost.computeCost env llmRows in
  (modelUsed c = None <-> ms = []) /\
  (forall m, modelUsed c = Some m <-> Spec.dominant m ms) /\
  (let tier := Cost.pricingFor env (modelUsed c) in
   inputCostUsd c
   = Cost.roundUsd (inject_Z (estimatedInputTokens c) / 1000000 * Cost.inputPer1M tier) /\
   outputCostUsd c
   = Cost.roundUsd (inject_Z (estimatedOutputTokens c) / 1000000 * Cost.outputPer1M tier) /\
   totalCostUsd c
   = Cost.roundUsd (inject_Z (estimatedInputTokens c) / 1000000 * Cost.inputPer1M tier
                    + inject_Z (estimatedOutputTokens c) / 1000000 * Cost.outputPer1M tier)) /\
  (forall m, Spec.contains "flash" m ->
             Cost.pricingFor env (Some m) = Cost.gemini_2_5_flash (Cost.PRICING env)) /\
  (forall m, ~ Spec.contains "flash" m ->
             Cost.pricingFor env (Some m) = Cost.gemini_2_5_pro (Cost.PRICING env)) /\
  Cost.pricingFor env None = Cost.gemini_2_5_pro (Cost.PRICING env).
Proof.
  cbv zeta.
  destruct (pickDominant_tally (Spec.specified_models llmRows)) as [HN HS].
  rewrite <- (modelUsed_pick env llmRows) in HN, HS.
  split; [exact HN|]. split; [exact HS|].
  split; [repeat split|].
  split; [apply pricingFor_flash|]. split; [apply pricingFor_other|reflexivity].
Qed.

(** *** Monotonicity of the cost formulas *)

Lemma estimateTokens_mono (a b : Z) :
  a <= b -> Cost.estimateTokens a <= Cost.estimateTokens b.
Proof.
  intros H. unfold Cost.estimateTokens, Math_ceil. apply Qceiling_resp_le.
  rewrite Zle_Qle in H. unfold Qdiv. apply Qmult_le_compat_r; [exact H|discriminate].
Qed.

Lemma Math_round_mono (x y : Q) : (x <= y)%Q -> Math_round x <= Math_round y.
Proof. intros H. unfold Math_round. apply Qfloor_resp_le. lra. Qed.

Lemma roundUsd_mono (x y : Q) : (x <= y)%Q -> (Cost.roundUsd x <= Cost.roundUsd y)%Q.
Proof.
  intros H. unfold Cost.roundUsd, Qdiv.
  apply Qmult_le_compat_r; [|discriminate].
  rewrite <- Zle_Qle. apply Math_round_mono. lra.
Qed.

Lemma tier_cost_mono (a b : Z) (price : Q) :
  a <= b -> (0 <= price)%Q ->
  (inject_Z a / 1000000 * price <= inject_Z b / 1000000 * price)%Q.
Proof.
  intros H P. apply Qmult_le_compat_r; [|exact P].
  unfold Qdiv. apply Qmult_le_compat_r; [|discriminate]. now rewrite <- Zle_Qle.
Qed.

Lemma pricingFor_nonneg (env : Cost.Env) (m : option string) :
  Spec.nonnegative_prices (Cost.PRICING env) ->
  (0 <= Cost.inputPer1M (Cost.pricingFor env m))%Q /\
  (0 <= Cost.outputPer1M (Cost.pricingFor env m))%Q.
Proof.
  intros (A & B & C & D). unfold Cost.pricingFor, Cost.DEFAULT_PRICING.
  destruct (negb (truthy_string m)); [tauto|].
  destruct (String_includes "flash" (nullish m EmptyString)); tauto.
Qed.

(** C6.  Cost is monotonic.  Under prices that are not negative, if two
    lists of rows are priced with the same model, and the second has at
    least the prompt characters and at least the response characters of
    the first, then its total cost is at least the total cost of the
    first. *)
Theorem computeCost_monotone (env : Cost.Env) (rows1 rows2 : list Cost.LlmRow) :
  Spec.nonnegative_prices (Cost.PRICING env) ->
  modelUsed (Cost.computeCost env rows1) = modelUsed (Cost.computeCost env rows2) ->
  Spec.promptTotal rows1 <= Spec.promptTotal rows2 ->
  Spec.responseTotal rows1 <= Spec.responseTotal rows2 ->
  (totalCostUsd (Cost.computeCost env rows1)
   <= totalCostUsd (Cost.computeCost env rows2))%Q.
Proof.
  intros NN M P R. unfold Cost.computeCost in *. cbn [modelUsed totalCostUsd] in *.
  rewrite <- M. rewrite !scanRows_prompt, !scanRows_response.
  destruct (pricingFor_nonneg (Cost.pickDominant (Cost.modelCounts (Cost.scanRows rows1))) NN)
    as [NI NO].
  apply roundUsd_mono. apply Qplus_le_compat.
  - apply tier_cost_mono; [now apply estimateTokens_mono|exact NI].
  - apply tier_cost_mono; [now apply estimateTokens_mono|exact NO].
Qed.

Lemma same_models_same_dominant (env : Cost.Env) (rows1 rows2 : list Cost.LlmRow) :
  map Cost.model rows1 = map Cost.model rows2 ->
  modelUsed (Cost.computeCost env rows1) = modelUsed (Cost.computeCost env rows2).
Proof.
  intros H. rewrite !modelUsed_pick. f_equal. f_equal.
  revert rows2 H; induction rows1 as [|r rows1 IH]; intros [|r2 rows2] H;
    try discriminate; [reflexivity|].
  simpl in H. inversion H as [[Hm Ht]].
  unfold Spec.specified_models; simpl. rewrite Hm. f_equal. now apply IH.
Qed.

(* ----------------------------------------------------------------- *)
(** ** [computeCost]: the quoted scenario *)

Lemma roundUsd_microdollars (x : Q) : Spec.microdollars (Cost.roundUsd x).
Proof. exists (Math_round (x * 1000000)). reflexivity. Qed.

(** C2.  Rows carrying 4000 prompt characters and 800 response characters
    under pro pricing (0.075 and 0.30 dollars per million tokens) give
    1000 input tokens, 200 output tokens, an input cost of 0.000075, an
    output cost of 0.00006 and a total of 0.000135 dollars: for one row
    holding both counts, for a request row and a response row, and, bit
    for bit, when the same formulas run on IEEE-754 doubles.  In general
    the token estimates are [ceil(chars / 4)] of the prompt total and of
    the response total separately, and each of the three dollar figures
    is a whole number of millionths. *)
Theorem computeCost_scenario :
  Spec.quoted_breakdown (Cost.computeCost Cost.no_env Sample.one_row) /\
  Spec.quoted_breakdown (Cost.computeCost Cost.no_env Sample.two_rows) /\
  (let c := Binary64.computeCost Binary64.pro Sample.rows64 in
   Binary64.estimatedInputTokens c = 1000%float /\
   Binary64.estimatedOutputTokens c = 200%float /\
   Binary64.inputCostUsd c = 0.000075%float /\
   Binary64.outputCostUsd c = 0.00006%float /\
   Binary64.totalCostUsd c = 0.000135%float) /\
  (forall env rows,
     let c := Cost.computeCost env rows in
     estimatedInputTokens c = Qceiling (inject_Z (Spec.promptTotal rows) / 4) /\
     estimatedOutputTokens c = Qceiling (inject_Z (Spec.responseTotal rows) / 4) /\
     Spec.microdollars (inputCostUsd c) /\
     Spec.microdollars (outputCostUsd c) /\
     Spec.microdollars (totalCostUsd c)).
Proof.
  split; [|split; [|split]].
  - vm_compute. repeat split; congruence.
  - vm_compute. repeat split; congruence.
  - vm_compute. repeat split.
  - intros env rows. cbv zeta. unfold Cost.computeCost.
    cbn [estimatedInputTokens estimatedOutputTokens inputCostUsd outputCostUsd totalCostUsd].
    rewrite scanRows_prompt, scanRows_response.
    repeat split; apply roundUsd_microdollars.
Qed.

(* ----------------------------------------------------------------- *)
(** ** [compareSessionSummaries]: regression flags *)

Lemma Qgtb_true (a b : Q) : Qgtb a b = true <-> (b < a)%Q.
Proof.
  unfold Qgtb. rewrite negb_true_iff.
  destruct (Qle_bool a b) eqn:E.
  - apply Qle_bool_iff in E. split; [discriminate|]. intros H. exfalso. lra.
  - split; [intros _|reflexivity]. apply Qnot_le_lt. intros H.
    apply Qle_bool_iff in H. congruence.
Qed.

Lemma Qgtb_false (a b : Q) : Qgtb a b = false <-> (a <= b)%Q.
Proof.
  unfold Qgtb. rewrite negb_false_iff. apply Qle_bool_iff.
Qed.

Lemma maybeFlag_metric (m : string) (bv cv d : Q) :
  Forall (fun f => metric f = m) (Comparator.maybeFlag m bv cv d).
Proof.
  unfold Comparator.maybeFlag.
  destruct (Qgtb d 50); [repeat constructor|].
  destruct (Qgtb d 20); repeat constructor.
Qed.

Lemma filter_by_metric (m m' : string) (l : list RegressionFlag) :
  Forall (fun f => metric f = m') l ->
  filter (fun f => String.eqb (metric f) m) l = if String.eqb m' m then l else [].
Proof.
  induction 1 as [|f l Hf Hl IH]; simpl; [now destruct (String.eqb m' m)|].
  rewrite Hf, IH. now destruct (String.eqb m' m).
Qed.

Lemma costFlags_metric (b c : SessionSummary) :
  Forall (fun f => metric f = "cost_usd"%string) (Comparator.costFlags b c).
Proof.
  unfold Comparator.costFlags.
  destruct (Qgtb _ 0); [apply maybeFlag_metric|constructor].
Qed.

Lemma durationFlags_metric (b c : SessionSummary) :
  Forall (fun f => metric f = "session_duration_ms"%string) (Comparator.durationFlags b c).
Proof.
  unfold Comparator.durationFlags.
  destruct (Comparator.durationDeltaPct b c); [|constructor].
  destruct (durationMs b); [|constructor].
  destruct (_ && _); [apply maybeFlag_metric|constructor].
Qed.

Lemma p95Flags_metric (b c : SessionSummary) :
  Forall (fun f => metric f = "p95_tool_latency_ms"%string) (Comparator.p95Flags b c).
Proof.
  unfold Comparator.p95Flags.
  destruct (Comparator.p95DeltaPctVal b c); [|constructor].
  destruct (Comparator.baseP95 b); [|constructor].
  destruct (Comparator.cmpP95 c); [|constructor].
  destruct (Qgtb _ 0); [apply maybeFlag_metric|constructor].
Qed.

(** The flags of one metric are those its own test pushed: filter each
    of the three groups by its metric and compare the names. *)
Ltac flags_of_metric :=
  unfold Spec.flagsFor, Aggregator.compareSessionSummaries, Comparator.regressions;
  cbn [regressions]; rewrite !filter_app;
  rewrite (filter_by_metric _ (costFlags_metric _ _)),
          (filter_by_metric _ (durationFlags_metric _ _)),
          (filter_by_metric _ (p95Flags_metric _ _));
  cbn [String.eqb Ascii.eqb Bool.eqb andb app];
  rewrite ?app_nil_r; reflexivity.

Lemma flagsFor_cost (b c : SessionSummary) :
  Spec.flagsFor "cost_usd" (Aggregator.compareSessionSummaries b c) = Comparator.costFlags b c.
Proof. flags_of_metric. Qed.

Lemma flagsFor_duration (b c : SessionSummary) :
  Spec.flagsFor "session_duration_ms" (Aggregator.compareSessionSummaries b c)
  = Comparator.durationFlags b c.
Proof. flags_of_metric. Qed.

Lemma flagsFor_p95 (b c : SessionSummary) :
  Spec.flagsFor "p95_tool_latency_ms" (Aggregator.compareSessionSummaries b c)
  = Comparator.p95Flags b c.
Proof. flags_of_metric. Qed.

Lemma durationDeltaPct_known (b c : SessionSummary) (pct : Q) :
  Comparator.durationDeltaPct b c = Some pct ->
  exists bd cd, durationMs b = Some bd /\ durationMs c = Some cd /\ 0 < bd /\
                pct = (inject_Z (cd - bd) / inject_Z bd * 100)%Q.
Proof.
  unfold Comparator.durationDeltaPct, Comparator.durationDelta.
  destruct (durationMs b) as [bd|], (durationMs c) as [cd|]; try discriminate.
  destruct (bd >? 0) eqn:G; [|discriminate].
  intros E; inversion E. exists bd, cd. repeat split. lia.
Qed.

(* ----------------------------------------------------------------- *)
(** ** The order of doubles against the constants of the code *)

(** The doubles 0, 20 and 50 as sign, mantissa and exponent. *)
Lemma Prim2SF_0 : Prim2SF 0 = S754_zero false.
Proof. reflexivity. Qed.

Lemma Prim2SF_20 : Prim2SF 20 = S754_finite false 5629499534213120 (-48).
Proof. reflexivity. Qed.

Lemma Prim2SF_50 : Prim2SF 50 = S754_finite false 7036874417766400 (-47).
Proof. reflexivity. Qed.

(** A double above 50 is above 20, and a double above 20 is above 0. *)
Lemma gt_50_20 (d : float) : Doubles.gt d 50 = true -> Doubles.gt d 20 = true.
Proof.
  unfold Doubles.gt. rewrite !ltb_spec, Prim2SF_50, Prim2SF_20.
  unfold SFltb, SFcompare.
  destruct (Prim2SF d) as [s|s| |s m e]; try discriminate; try (intros; assumption).
  destruct s; [discriminate|].
  destruct (Z.compare_spec (-47) e) as [E|L|G]; try discriminate.
  - subst e. intros _. reflexivity.
  - intros _. destruct (Z.compare_spec (-48) e) as [E|L'|G]; try reflexivity; lia.
Qed.

Lemma gt_20_0 (d : float) : Doubles.gt d 20 = true -> Doubles.gt d 0 = true.
Proof.
  unfold Doubles.gt. rewrite !ltb_spec, Prim2SF_20, Prim2SF_0.
  unfold SFltb, SFcompare.
  destruct (Prim2SF d) as [s|s| |s m e]; try discriminate; try (intros; assumption).
  destruct s; [discriminate|]. reflexivity.
Qed.

(** A double above 0 is a truthy number and is not at most 0. *)
Lemma gt_0_truthy (b : float) : Doubles.gt b 0 = true -> Doubles.truthy_number b = true.
Proof.
  unfold Doubles.gt, Doubles.truthy_number.
  rewrite ltb_spec, !eqb_spec, Prim2SF_0.
  unfold SFltb, SFeqb, SFcompare.
  destruct (Prim2SF b) as [s|s| |s m e]; try discriminate.
  - destruct s; [discriminate|reflexivity].
  - destruct s; [discriminate|]. intros _.
    rewrite Z.compare_refl, Pos.compare_cont_refl. reflexivity.
Qed.

Lemma gt_0_not_le (x : float) : Doubles.gt x 0 = true -> Doubles.le x 0 = false.
Proof.
  unfold Doubles.gt, Doubles.le. rewrite ltb_spec, leb_spec, Prim2SF_0.
  unfold SFltb, SFleb, SFcompare.
  destruct (Prim2SF x) as [s|s| |s m e]; try discriminate.
  - destruct s; [discriminate|reflexivity].
  - destruct s; [discriminate|reflexivity].
Qed.

(* ----------------------------------------------------------------- *)
(** ** [compareSessionSummaries] on doubles: regression flags *)

Lemma Doubles_maybeFlag_classified (m : string) (bv cv d : float) (guard : bool) :
  (guard = true -> Doubles.gt d 0 = true) ->
  (Doubles.gt d 20 = true -> guard = true) ->
  Spec64.classified d (if guard then Doubles.maybeFlag m bv cv d else []).
Proof.
  intros G0 G20. unfold Spec64.classified, Doubles.maybeFlag.
  pose proof (@gt_50_20 d) as H50. pose proof (@gt_20_0 d) as H20.
  destruct guard.
  - specialize (G0 eq_refl).
    destruct (Doubles.gt d 50) eqn:E50.
    + specialize (H50 eq_refl). repeat split; intros; try congruence.
      eexists; repeat split.
    + destruct (Doubles.gt d 20) eqn:E20.
      * repeat split; intros; try congruence. eexists; repeat split.
      * repeat split; intros; try reflexivity; congruence.
  - repeat split; intros; try reflexivity.
    + assert (false = true) by (apply G20; assumption). discriminate.
    + assert (false = true) by (apply G20, H50; assumption). discriminate.
Qed.

Lemma Doubles_maybeFlag_metric (m : string) (bv cv d : float) :
  Forall (fun f => Doubles.metric f = m) (Doubles.maybeFlag m bv cv d).
Proof.
  unfold Doubles.maybeFlag.
  destruct (Doubles.gt d 50); [repeat constructor|].
  destruct (Doubles.gt d 20); repeat constructor.
Qed.

Lemma Doubles_filter_by_metric (m m' : string) (l : list Doubles.RegressionFlag) :
  Forall (fun f => Doubles.metric f = m') l ->
  filter (fun f => String.eqb (Doubles.metric f) m) l = if String.eqb m' m then l else [].
Proof.
  induction 1 as [|f l Hf Hl IH]; simpl; [now destruct (String.eqb m' m)|].
  rewrite Hf, IH. now destruct (String.eqb m' m).
Qed.

Lemma Doubles_costFlags_metric (b c : Doubles.SessionSummary) :
  Forall (fun f => Doubles.metric f = "cost_usd"%string) (Doubles.costFlags b c).
Proof.
  unfold Doubles.costFlags.
  destruct (Doubles.gt _ 0); [apply Doubles_maybeFlag_metric|constructor].
Qed.

Lemma Doubles_durationFlags_metric (b c : Doubles.SessionSummary) :
  Forall (fun f => Doubles.metric f = "session_duration_ms"%string)
         (Doubles.durationFlags b c).
Proof.
  unfold Doubles.durationFlags.
  destruct (Doubles.durationDeltaPctVal b c); [|constructor].
  destruct (Doubles.durationMs b); [|constructor].
  destruct (_ && _); [apply Doubles_maybeFlag_metric|constructor].
Qed.

Lemma Doubles_p95Flags_metric (b c : Doubles.SessionSummary) :
  Forall (fun f => Doubles.metric f = "p95_tool_latency_ms"%string) (Doubles.p95Flags b c).
Proof.
  unfold Doubles.p95Flags.
  destruct (Doubles.p95DeltaPctVal b c); [|constructor].
  destruct (Doubles.baseP95 b); [|constructor].
  destruct (Doubles.cmpP95 c); [|constructor].
  destruct (Doubles.gt _ 0); [apply Doubles_maybeFlag_metric|constructor].
Qed.

(** The flags of one metric are those its own test pushed. *)
Ltac doubles_flags_of_metric :=
  unfold Spec64.flagsFor, Doubles.compareSessionSummaries;
  cbn [Doubles.regressions]; rewrite !filter_app;
  rewrite (Doubles_filter_by_metric _ (Doubles_costFlags_metric _ _)),
          (Doubles_filter_by_metric _ (Doubles_durationFlags_metric _ _)),
          (Doubles_filter_by_metric _ (Doubles_p95Flags_metric _ _));
  cbn [String.eqb Ascii.eqb Bool.eqb andb app];
  rewrite ?app_nil_r; reflexivity.

Lemma Doubles_flagsFor_cost (b c : Doubles.SessionSummary) :
  Spec64.flagsFor "cost_usd" (Doubles.compareSessionSummaries b c) = Doubles.costFlags b c.
Proof. doubles_flags_of_metric. Qed.

Lemma Doubles_flagsFor_duration (b c : Doubles.SessionSummary) :
  Spec64.flagsFor "session_duration_ms" (Doubles.compareSessionSummaries b c)
  = Doubles.durationFlags b c.
Proof. doubles_flags_of_metric. Qed.

Lemma Doubles_flagsFor_p95 (b c : Doubles.SessionSummary) :
  Spec64.flagsFor "p95_tool_latency_ms" (Doubles.compareSessionSummaries b c)
  = Doubles.p95Flags b c.
Proof. doubles_flags_of_metric. Qed.

(** C3.  The code computes on doubles, and so do the percentages here:
    for each of the three metrics the percentage delta is
    [(compare - baseline) / baseline * 100] of the two values of the
    summaries, each operation rounded as the engine rounds it.  For the
    cost, when the baseline cost is above 0; for the duration, when both
    durations are known and the baseline is above 0; for the 95th
    percentile, when both summaries have latency figures and the baseline
    is not 0: the flags of the metric follow the severity policy applied
    to that percentage: no flag when it is not positive, no flag when it
    is not above 20, one flag of severity [warning] when it is above 20
    and not above 50 (so at exactly 50 as well), one flag of severity
    [critical] when it is above 50; the flag carries the percentage.  In
    every other case the metric raises no flag. *)
Theorem regression_thresholds (baseline compare : Doubles.SessionSummary) :
  let cmp := Doubles.compareSessionSummaries baseline compare in
  let baseCost := Doubles.totalCostUsd (Doubles.cost baseline) in
  let cmpCost := Doubles.totalCostUsd (Doubles.cost compare) in
  (if Doubles.gt baseCost 0
   then Spec64.classified (Spec64.percentage baseCost cmpCost)
                          (Spec64.flagsFor "cost_usd" cmp)
   else Spec64.flagsFor "cost_usd" cmp = []) /\
  match Doubles.durationMs baseline, Doubles.durationMs compare with
  | Some b, Some c =>
      if Doubles.gt b 0
      then Spec64.classified (Spec64.percentage b c)
                             (Spec64.flagsFor "session_duration_ms" cmp)
      else Spec64.flagsFor "session_duration_ms" cmp = []
  | _, _ => Spec64.flagsFor "session_duration_ms" cmp = []
  end /\
  match Doubles.overallLatency baseline, Doubles.overallLatency compare with
  | Some sb, Some sc =>
      if PrimFloat.eqb (Doubles.p95Ms sb) 0
      then Spec64.flagsFor "p95_tool_latency_ms" cmp = []
      else Spec64.classified (Spec64.percentage (Doubles.p95Ms sb) (Doubles.p95Ms sc))
                             (Spec64.flagsFor "p95_tool_latency_ms" cmp)
  | _, _ => Spec64.flagsFor "p95_tool_latency_ms" cmp = []
  end.
Proof.
  cbv zeta. rewrite Doubles_flagsFor_cost, Doubles_flagsFor_duration, Doubles_flagsFor_p95.
  split; [|split].
  - unfold Doubles.costFlags, Doubles.costDeltaPctVal, Doubles.costDelta.
    destruct (Doubles.gt (Doubles.totalCostUsd (Doubles.cost baseline)) 0); [|reflexivity].
    apply Doubles_maybeFlag_classified; [auto|apply gt_20_0].
  - unfold Doubles.durationFlags, Doubles.durationDeltaPctVal, Doubles.durationDelta.
    destruct (Doubles.durationMs baseline) as [b|]; [|reflexivity].
    destruct (Doubles.durationMs compare) as [c|]; [|reflexivity].
    destruct (Doubles.gt b 0) eqn:B; [|reflexivity].
    rewrite (gt_0_truthy B), andb_true_r.
    apply Doubles_maybeFlag_classified; [auto|apply gt_20_0].
  - unfold Doubles.p95Flags, Doubles.p95DeltaPctVal, Doubles.p95Delta,
      Doubles.baseP95, Doubles.cmpP95, Doubles.p95DeltaPct.
    destruct (Doubles.overallLatency baseline) as [sb|]; [|reflexivity].
    destruct (Doubles.overallLatency compare) as [sc|]; [|reflexivity].
    cbn [option_map nullish].
    destruct (PrimFloat.eqb (Doubles.p95Ms sb) 0); [reflexivity|].
    apply Doubles_maybeFlag_classified; [auto|apply gt_20_0].
Qed.

(* ----------------------------------------------------------------- *)
(** ** [compareSessionSummaries]: a summary against itself *)

Lemma Math_round_zero (x : Q) : (x == 0)%Q -> Math_round x = 0.
Proof. intros E. rewrite (Math_round_comp E). apply (Math_round_Z 0). Qed.

Lemma roundUsd_zero (x : Q) : (x == 0)%Q -> (Aggregator.roundUsd x == 0)%Q.
Proof.
  intros E. unfold Aggregator.roundUsd.
  rewrite Math_round_zero; [reflexivity|]. rewrite E. reflexivity.
Qed.

Lemma round1_zero (x : Q) : (x == 0)%Q -> (Comparator.round1 x == 0)%Q.
Proof.
  intros E. unfold Comparator.round1.
  rewrite Math_round_zero; [reflexivity|]. rewrite E. reflexivity.
Qed.

Lemma Qgtb_zero (x : Q) : (x == 0)%Q -> Qgtb x 0 = false.
Proof. intros E. apply Qgtb_false. rewrite E. apply Qle_refl. Qed.

Lemma costDeltaPct_self (s : SessionSummary) : (Comparator.costDeltaPct s s == 0)%Q.
Proof.
  unfold Comparator.costDeltaPct, Comparator.costDelta.
  destruct (Qgtb _ 0); [|reflexivity].
  unfold Qdiv. ring.
Qed.

Lemma p95DeltaPct_self (b : Z) : (Latency.p95DeltaPct b b == 0)%Q.
Proof.
  unfold Latency.p95DeltaPct. destruct (b =? 0); [reflexivity|].
  rewrite Z.sub_diag. unfold Qdiv. change (inject_Z 0) with 0%Q. ring.
Qed.

Lemma durationDeltaPct_self (s : SessionSummary) (q : Q) :
  Comparator.durationDeltaPct s s = Some q -> (q == 0)%Q.
Proof.
  intros H. destruct (durationDeltaPct_known _ _ H) as (bd & cd & Hb & Hc & _ & ->).
  assert (cd = bd) by congruence. subst cd.
  rewrite Z.sub_diag. unfold Qdiv. change (inject_Z 0) with 0%Q. ring.
Qed.

Lemma p95DeltaPctVal_self (s : SessionSummary) (q : Q) :
  Comparator.p95DeltaPctVal s s = Some q -> (q == 0)%Q.
Proof.
  unfold Comparator.p95DeltaPctVal, Comparator.p95Delta, Comparator.cmpP95,
    Comparator.baseP95.
  destruct (overallLatency s) as [st|]; simpl; [|discriminate].
  intros E; inversion E. apply p95DeltaPct_self.
Qed.

(** C4.  Comparing a summary with itself gives a cost delta of zero in
    dollars and in percent, a tool-call delta of zero, a duration delta
    and a P95 latency delta (absolute and in percent) that are zero
    whenever they are not null, and no regression flag. *)
Theorem compare_with_itself (s : SessionSummary) :
  let cmp := Aggregator.compareSessionSummaries s s in
  (costDeltaUsd cmp == 0)%Q /\
  (costDeltaPct cmp == 0)%Q /\
  toolCallDelta cmp = 0 /\
  (forall d, durationDeltaMs cmp = Some d -> d = 0) /\
  (forall q, durationDeltaPct cmp = Some q -> (q == 0)%Q) /\
  (forall d, p95LatencyDeltaMs cmp = Some d -> d = 0) /\
  (forall q, p95LatencyDeltaPct cmp = Some q -> (q == 0)%Q) /\
  regressions cmp = [].
Proof.
  cbv zeta. unfold Aggregator.compareSessionSummaries.
  cbn [costDeltaUsd costDeltaPct toolCallDelta durationDeltaMs durationDeltaPct
       p95LatencyDeltaMs p95LatencyDeltaPct regressions].
  repeat split.
  - apply roundUsd_zero. unfold Comparator.costDelta. ring.
  - apply round1_zero, costDeltaPct_self.
  - lia.
  - unfold Comparator.durationDelta. destruct (durationMs s); [|discriminate].
    intros d E; inversion E. lia.
  - intros q. destruct (Comparator.durationDeltaPct s s) as [p|] eqn:E; [|discriminate].
    simpl. intros Eq; inversion Eq. apply round1_zero. eapply durationDeltaPct_self, E.
  - unfold Comparator.p95Delta, Comparator.baseP95, Comparator.cmpP95.
    destruct (overallLatency s); simpl; [|discriminate].
    intros d E; inversion E. lia.
  - intros q. destruct (Comparator.p95DeltaPctVal s s) as [p|] eqn:E; [|discriminate].
    simpl. intros Eq; inversion Eq. apply round1_zero. eapply p95DeltaPctVal_self, E.
  - unfold Comparator.regressions.
    assert (C : Comparator.costFlags s s = []).
    { unfold Comparator.costFlags. now rewrite (Qgtb_zero (costDeltaPct_self s)). }
    assert (D : Comparator.durationFlags s s = []).
    { unfold Comparator.durationFlags.
      destruct (Comparator.durationDeltaPct s s) as [p|] eqn:E; [|reflexivity].
      destruct (durationMs s); [|reflexivity].
      now rewrite (Qgtb_zero (durationDeltaPct_self _ E)). }
    assert (P : Comparator.p95Flags s s = []).
    { unfold Comparator.p95Flags.
      destruct (Comparator.p95DeltaPctVal s s) as [p|] eqn:E; [|reflexivity].
      destruct (Comparator.baseP95 s); [|reflexivity].
      destruct (Comparator.cmpP95 s); [|reflexivity].
      now rewrite (Qgtb_zero (p95DeltaPctVal_self _ E)). }
    now rewrite C, D, P.
Qed.

(* ----------------------------------------------------------------- *)
(** ** [compareSessionSummaries] on doubles: the duration percentage *)

(** C8, as stated, fails.  With a baseline duration of exactly 0 and a
    compare duration of 100, both known, the duration delta is 100 and
    the duration percentage is null, not 0. *)
Lemma durationDeltaPct_zero_baseline_is_null :
  let baseline := Sample64.summary "base" (Some 0%float) 0 None in
  let compare := Sample64.summary "next" (Some 100%float) 0 None in
  let cmp := Doubles.compareSessionSummaries baseline compare in
  Doubles.durationMs baseline = Some 0%float /\
  Doubles.durationMs compare = Some 100%float /\
  Doubles.durationDeltaMs cmp = Some 100%float /\
  Doubles.durationDeltaPct cmp = None /\
  Doubles.durationDeltaPct cmp <> Some 0%float.
Proof. cbv zeta. repeat split. discriminate. Qed.

(** C8, amended.  The duration delta is null exactly when at least one
    duration is unknown, and is compare minus baseline otherwise.  When
    both durations are known and the baseline is above 0, the duration
    percentage is delta / baseline * 100, and the comparison reports it
    rounded to one decimal place, [Math.round(x * 10) / 10], every
    operation on doubles; when both are known and the baseline is not
    above 0 it is null.  So the duration percentage is null exactly when
    a duration is unknown or the baseline is not above 0; the cost
    percentage, in contrast, is 0 when the baseline cost is not above
    0. *)
Theorem durationDeltaPct_guard (baseline compare : Doubles.SessionSummary) :
  let cmp := Doubles.compareSessionSummaries baseline compare in
  (Doubles.durationDeltaMs cmp = None <->
   Doubles.durationMs baseline = None \/ Doubles.durationMs compare = None) /\
  (forall b c,
     Doubles.durationMs baseline = Some b -> Doubles.durationMs compare = Some c ->
     Doubles.durationDeltaMs cmp = Some (c - b)%float /\
     (Doubles.gt b 0 = true ->
      Doubles.durationDeltaPctVal baseline compare = Some ((c - b) / b * 100)%float /\
      Doubles.durationDeltaPct cmp
      = Some (Doubles.Math_round ((c - b) / b * 100 * 10) / 10)%float) /\
     (Doubles.gt b 0 = false ->
      Doubles.durationDeltaPctVal baseline compare = None /\
      Doubles.durationDeltaPct cmp = None)) /\
  (Doubles.durationDeltaPct cmp = None <->
   Doubles.durationMs baseline = None \/ Doubles.durationMs compare = None \/
   exists b, Doubles.durationMs baseline = Some b /\ Doubles.gt b 0 = false) /\
  (Doubles.gt (Doubles.totalCostUsd (Doubles.cost baseline)) 0 = false ->
   Doubles.costDeltaPct cmp = 0%float).
Proof.
  cbv zeta. unfold Doubles.compareSessionSummaries.
  cbn [Doubles.durationDeltaMs Doubles.durationDeltaPct Doubles.costDeltaPct].
  unfold Doubles.durationDeltaPctVal, Doubles.durationDelta.
  split; [|split; [|split]].
  - destruct (Doubles.durationMs baseline), (Doubles.durationMs compare);
      split; try discriminate; auto; intros [H|H]; discriminate.
  - intros b c Hb Hc. rewrite Hb, Hc.
    destruct (Doubles.gt b 0); repeat split; intros; try reflexivity; discriminate.
  - destruct (Doubles.durationMs baseline) as [b|]; [|split; auto].
    destruct (Doubles.durationMs compare) as [c|]; [|split; auto].
    destruct (Doubles.gt b 0) eqn:G; split; try discriminate; try reflexivity.
    + intros [H|[H|[b' [H Hb]]]]; try discriminate. inversion H; congruence.
    + intros _. right; right. exists b. auto.
  - intros H. unfold Doubles.costDeltaPctVal. rewrite H. reflexivity.
Qed.

(** From 80 to 103 milliseconds the percentage is 28.749999999999996 on
    doubles, and the comparison reports 28.7. *)
Example duration_80_to_103_reports_28_7 :
  let cmp := Doubles.compareSessionSummaries
               (Sample64.summary "a" (Some 80%float) 0 None)
               (Sample64.summary "b" (Some 103%float) 0 None) in
  Doubles.durationDeltaPctVal (Sample64.summary "a" (Some 80%float) 0 None)
                              (Sample64.summary "b" (Some 103%float) 0 None)
  = Some 28.749999999999996%float /\
  Doubles.durationDeltaPct cmp = Some 28.7%float.
Proof. split; reflexivity. Qed.

(* ----------------------------------------------------------------- *)
(** ** [handleEndSession] *)

Lemma getById_end (t : Sessions.Table) (sid endedAt : string) (r : Sessions.SessionRow) :
  Sessions.getById t sid = Some r ->
  exists r', Sessions.getById (Sessions.end_ t sid endedAt) sid = Some r' /\
             Sessions.ended_at r' = Some endedAt /\
             Sessions.id r' = Sessions.id r /\
             Sessions.started_at r' = Sessions.started_at r.
Proof.
  unfold Sessions.getById, Sessions.end_.
  induction t as [|x t IH]; simpl; [discriminate|].
  destruct (String.eqb (Sessions.id x) sid) eqn:E; simpl.
  - rewrite E. intros H; inversion H; subst. eexists; repeat split.
  - rewrite E. exact IH.
Qed.

Section EndSessionFacts.
Variable env : Cost.Env.
Variable Date_getTime : string -> Z.

(** Ending is terminal: on a session that has its end timestamp the
    handler only reports it. *)
Lemma handleEndSession_ended (now eventId sid : string) (db : DatabaseClient)
      (r : Sessions.SessionRow) (t : string) :
  Sessions.getById (sessions db) sid = Some r ->
  Sessions.ended_at r = Some t -> t <> EmptyString ->
  EndSession.handleEndSession env Date_getTime now eventId sid db
  = (EndSession.AlreadyEnded sid t, db).
Proof.
  intros G E N. unfold EndSession.handleEndSession. rewrite G, E. simpl.
  apply String.eqb_neq in N. now rewrite N.
Qed.

Lemma handleEndSession_Ended (now eventId sid : string) (db db1 : DatabaseClient)
      (summary : option SessionSummary) :
  EndSession.handleEndSession env Date_getTime now eventId sid db
  = (EndSession.Ended summary, db1) ->
  sessions db1 = Sessions.end_ (sessions db) sid now /\
  (exists e, events db1 = events db ++ [e] /\
             Events.event_type e = Events.SESSION_END /\
             Events.session_id e = sid /\ Events.id e = eventId) /\
  budget db1 = budget db /\
  exists r, Sessions.getById (sessions db) sid = Some r.
Proof.
  unfold EndSession.handleEndSession.
  destruct (Sessions.getById (sessions db) sid) as [r|] eqn:G; [|discriminate].
  destruct (truthy_string (Sessions.ended_at r)); [discriminate|].
  unfold transaction, EndSession.end_and_log, Events.insert.
  destruct (existsb _ (events db)); [discriminate|].
  destruct (negb _); [discriminate|].
  intros H; inversion H; subst; clear H. simpl.
  repeat split; eauto.
Qed.

(** C9.  After a call of [handleEndSession] that ended the session (at a
    timestamp, which is never the empty string), a second call on the same
    id, whatever its own timestamp and event id, reports that the session
    was already ended at the first timestamp and returns the store
    unchanged: no session field moves, the end timestamp stays the one
    the first call wrote, and no event is inserted. *)
Theorem end_session_twice (now1 id1 now2 id2 sid : string) (db db1 : DatabaseClient)
        (summary : option SessionSummary) :
  now1 <> EmptyString ->
  EndSession.handleEndSession env Date_getTime now1 id1 sid db
  = (EndSession.Ended summary, db1) ->
  EndSession.handleEndSession env Date_getTime now2 id2 sid db1
  = (EndSession.AlreadyEnded sid now1, db1) /\
  option_map Sessions.ended_at (Sessions.getById (sessions db1) sid)
  = Some (Some now1).
Proof.
  intros N H.
  destruct (handleEndSession_Ended _ _ _ _ H) as (S & _ & _ & r & G).
  destruct (@getById_end (sessions db) sid now1 r G) as (r' & G' & E' & _).
  rewrite <- S in G'.
  split.
  - eapply handleEndSession_ended; eassumption.
  - now rewrite G', <- E'.
Qed.
End EndSessionFacts.

(* ----------------------------------------------------------------- *)
(** ** [buildSessionSummary]: the per-tool breakdown *)

Section MapValues.
Variable V : Type.
Variable P : V -> Prop.

Lemma Map_get_Forall (m : Map V) (k : string) (v : V) :
  Forall (fun e => P (snd e)) m -> Map_get m k = Some v -> P v.
Proof.
  induction 1 as [|[k0 v0] m H0 Hm IH]; simpl; [discriminate|].
  destruct (String.eqb k0 k); [|exact IH].
  intros E; inversion E; subst. exact H0.
Qed.

Lemma Map_set_Forall (m : Map V) (k : string) (v : V) :
  Forall (fun e => P (snd e)) m -> P v -> Forall (fun e => P (snd e)) (Map_set m k v).
Proof.
  intros Hm Hv. induction Hm as [|[k0 v0] m H0 Hm IH]; simpl.
  - repeat constructor. exact Hv.
  - destruct (String.eqb k0 k); constructor; auto.
Qed.
End MapValues.

Lemma group_step_no_errors (grouped : Map Latency.Bucket) (row : Latency.ToolRow) :
  Latency.error row = 0 ->
  Forall (fun e => no_errors (snd e)) grouped ->
  Forall (fun e => no_errors (snd e)) (Latency.group_step grouped row).
Proof.
  intros E G. unfold Latency.group_step. apply Map_set_Forall; [exact G|].
  unfold no_errors. cbn [Latency.errors]. rewrite E. simpl.
  destruct (Map_get grouped (Latency.tool_name row)) as [b|] eqn:Gt; simpl.
  - exact (Map_get_Forall no_errors _ G Gt).
  - reflexivity.
Qed.

Lemma grouped_no_errors (rows : list Latency.ToolRow) (grouped : Map Latency.Bucket) :
  Forall (fun r => Latency.error r = 0) rows ->
  Forall (fun e => no_errors (snd e)) grouped ->
  Forall (fun e => no_errors (snd e)) (fold_left Latency.group_step rows grouped).
Proof.
  intros R. revert grouped. induction R as [|r rows Hr Hrows IH]; intros grouped G; simpl.
  - exact G.
  - apply IH. now apply group_step_no_errors.
Qed.

Lemma results_zero_rate (entries : list (string * Latency.Bucket))
      (results : list ToolLatencyStats) :
  Forall (fun e => no_errors (snd e)) entries ->
  Forall (fun t => (errorRate t == 0)%Q) results ->
  Forall (fun t => (errorRate t == 0)%Q) (fold_left Latency.result_step entries results).
Proof.
  intros E. revert results. induction E as [|[name b] entries Hb He IH]; intros results R; simpl.
  - exact R.
  - apply IH. destruct (Latency.computePercentiles (Latency.durations b)); [|exact R].
    apply Forall_app. split; [exact R|]. repeat constructor.
    cbn [errorRate]. unfold no_errors in Hb. simpl in Hb. rewrite Hb.
    destruct (_ >? 0); [|reflexivity].
    unfold Qdiv. change (inject_Z 0) with 0%Q. ring.
Qed.

Lemma computeToolLatencyStats_zero_rate (rows : list Latency.ToolRow) :
  Forall (fun r => Latency.error r = 0) rows ->
  Forall (fun t => (errorRate t == 0)%Q) (Latency.computeToolLatencyStats rows).
Proof.
  intros R. unfold Latency.computeToolLatencyStats, Map_entries.
  apply Array_sort_Forall. apply results_zero_rate; [|constructor].
  apply grouped_no_errors; [exact R|constructor].
Qed.

(** C10.  In every summary [buildSessionSummary] produces, each entry of
    the per-tool breakdown has an error rate of zero, whatever events
    the session holds: the rows of the session-scoped duration statement
    carry no error flag and are annotated with 0. *)
Theorem session_breakdown_error_rate_zero
        (env : Cost.Env) (Date_getTime : string -> Z)
        (db : DatabaseClient) (sessionId : string) (s : SessionSummary) :
  Aggregator.buildSessionSummary env Date_getTime db sessionId = Some s ->
  Forall (fun t => (errorRate t == 0)%Q) (toolBreakdown s).
Proof.
  unfold Aggregator.buildSessionSummary.
  destruct (Sessions.getById (sessions db) sessionId); [|discriminate].
  intros E; inversion E; subst; clear E. cbn [toolBreakdown].
  apply computeToolLatencyStats_zero_rate.
  apply Forall_map. apply Forall_forall. reflexivity.
Qed.

(* ----------------------------------------------------------------- *)
(** ** [checkBudget] on doubles *)

(** C7, as stated, fails.  On a store whose session cost and whose daily
    cost both reach the alert level of their caps, [checkBudget] returns
    the session warning after the budget and the session statements
    alone: the daily statement is never run, so the daily check is not
    evaluated. *)
Lemma checkBudget_stops_at_session_warning :
  let db := Sample64.store Sample64.tight_budget in
  let config := Doubles.budget db in
  let alert := Doubles.alert_threshold_pct config in
  let sessionCost :=
    Doubles.totalCostUsd
      (Doubles.computeCost Doubles.no_env (Doubles.llmChars (Doubles.events db) "s1")) in
  let dayChars :=
    Doubles.dailyLlmChars (Doubles.sessions db) (Doubles.events db) "2026-01-15" in
  let dayCost :=
    Doubles.totalCostUsd
      (Doubles.computeCost Doubles.no_env
         [ {| Doubles.prompt_chars := Some (fst dayChars);
              Doubles.response_chars := None; Doubles.model := None |};
           {| Doubles.prompt_chars := None;
              Doubles.response_chars := Some (snd dayChars); Doubles.model := None |} ]) in
  let out := Doubles.checkBudget Doubles.no_env "2026-01-15" "s1" db in
  Doubles.gt (Doubles.max_per_session_usd config) 0 = true /\
  Doubles.ge sessionCost (Doubles.max_per_session_usd config * (alert / 100))%float = true /\
  Doubles.gt (Doubles.max_per_day_usd config) 0 = true /\
  Doubles.ge dayCost (Doubles.max_per_day_usd config * (alert / 100))%float = true /\
  option_map Doubles.scope (fst out) = Some SessionBudget /\
  snd out = [budget_get; events_llmChars "s1"] /\
  ~ In (events_dailyLlmChars "2026-01-15") (snd out).
Proof.
  cbv zeta. repeat split; try (vm_compute; reflexivity).
  vm_compute. intros [H|[H|[]]]; discriminate.
Qed.

(** C7, amended.  [checkBudget] evaluates the per-session check first.
    With both caps disabled (each at most 0) it returns no warning and
    reads the budget only.  The session check fires when the session cap
    is above 0 and the session's cost is at least
    [cap * (alertThresholdPct / 100)], a product and a quotient of
    doubles; it then returns the session warning at once and the daily
    statement is not run.  Only when the session check does not fire and
    the daily cap is above 0 is the daily check evaluated; it fires
    exactly when the day's cost is at least the same fraction of the
    daily cap.  The warning names the spend, the cap and
    [Math.round(spend / cap * 100)].  At most one warning is returned. *)
Theorem checkBudget_session_then_day
        (env : Doubles.Env) (today sessionId : string) (db : Doubles.DatabaseClient) :
  let config := Doubles.budget db in
  let sessionCap := Doubles.max_per_session_usd config in
  let dayCap := Doubles.max_per_day_usd config in
  let alert := Doubles.alert_threshold_pct config in
  let sessionCost :=
    Doubles.totalCostUsd
      (Doubles.computeCost env (Doubles.llmChars (Doubles.events db) sessionId)) in
  let dayChars := Doubles.dailyLlmChars (Doubles.sessions db) (Doubles.events db) today in
  let dayCost :=
    Doubles.totalCostUsd
      (Doubles.computeCost env
         [ {| Doubles.prompt_chars := Some (fst dayChars);
              Doubles.response_chars := None; Doubles.model := None |};
           {| Doubles.prompt_chars := None;
              Doubles.response_chars := Some (snd dayChars); Doubles.model := None |} ]) in
  let disabled := Doubles.le sessionCap 0 && Doubles.le dayCap 0 in
  let sessionFires :=
    Doubles.gt sessionCap 0 && Doubles.ge sessionCost (sessionCap * (alert / 100))%float in
  let dayFires :=
    Doubles.gt dayCap 0 && Doubles.ge dayCost (dayCap * (alert / 100))%float in
  let out := Doubles.checkBudget env today sessionId db in
  (disabled = true -> out = (None, [budget_get])) /\
  (sessionFires = true ->
     out = (Some {| Doubles.scope := SessionBudget;
                    Doubles.spentUsd := sessionCost;
                    Doubles.percentOfCap :=
                      Doubles.Math_round (sessionCost / sessionCap * 100)%float;
                    Doubles.capUsd := sessionCap |},
            [budget_get; events_llmChars sessionId])) /\
  (sessionFires = false -> dayFires = true ->
     out = (Some {| Doubles.scope := DailyBudget;
                    Doubles.spentUsd := dayCost;
                    Doubles.percentOfCap :=
                      Doubles.Math_round (dayCost / dayCap * 100)%float;
                    Doubles.capUsd := dayCap |},
            [budget_get; events_llmChars sessionId; events_dailyLlmChars today])) /\
  (sessionFires = false -> Doubles.gt dayCap 0 = true -> dayFires = false ->
     out = (None, [budget_get; events_llmChars sessionId; events_dailyLlmChars today])) /\
  (disabled = false -> sessionFires = false -> Doubles.gt dayCap 0 = false ->
     out = (None, [budget_get; events_llmChars sessionId])).
Proof.
  cbv zeta. unfold Doubles.checkBudget, bind, run, ret.
  pose proof (@gt_0_not_le (Doubles.max_per_session_usd (Doubles.budget db))) as NS.
  pose proof (@gt_0_not_le (Doubles.max_per_day_usd (Doubles.budget db))) as ND.
  destruct (Doubles.le (Doubles.max_per_session_usd (Doubles.budget db)) 0);
  destruct (Doubles.le (Doubles.max_per_day_usd (Doubles.budget db)) 0);
  destruct (Doubles.gt (Doubles.max_per_session_usd (Doubles.budget db)) 0);
  destruct (Doubles.gt (Doubles.max_per_day_usd (Doubles.budget db)) 0);
  try (specialize (NS eq_refl); discriminate);
  try (specialize (ND eq_refl); discriminate);
  cbn [andb app];
  repeat match goal with
         | |- context [Doubles.ge ?a ?b] => destruct (Doubles.ge a b)
         end;
  cbn [andb app];
  repeat split; intros; try reflexivity; discriminate.
Qed.

(** A cost on the alert fraction of the cap: 0.000008 dollars under a
    cap of 0.00001 dollars at 80 percent.  On doubles the alert level is
    8.0000000000000013e-06, above the cost, so the session check does
    not fire and the daily check is evaluated. *)
Example cost_on_the_alert_fraction :
  let budget := {| Doubles.max_per_session_usd := 0.00001;
                   Doubles.max_per_day_usd := 1;
                   Doubles.alert_threshold_pct := 80 |} in
  let db := Sample64.small_store budget in
  Doubles.totalCostUsd
    (Doubles.computeCost Doubles.no_env (Doubles.llmChars (Doubles.events db) "s1"))
  = 0.000008%float /\
  (0.00001 * (80 / 100))%float = 8.0000000000000013e-06%float /\
  Doubles.checkBudget Doubles.no_env "2026-01-15" "s1" db
  = (None, [budget_get; events_llmChars "s1"; events_dailyLlmChars "2026-01-15"]).
Proof. cbv zeta. repeat split; vm_compute; reflexivity. Qed.

(** 0.000021 dollars of a cap of 0.000024 dollars is 87.499999999999986
    percent on doubles; the warning says 87. *)
Example percent_of_cap_rounds_the_double :
  (0.000021 / 0.000024 * 100)%float = 87.499999999999986%float /\
  Doubles.Math_round (0.000021 / 0.000024 * 100)%float = 87%float.
Proof. split; reflexivity. Qed.

(* ----------------------------------------------------------------- *)
(** ** Boundaries, evaluated *)


(** [Math.round] of a half rounds up, and a zero keeps the sign of what
    was rounded. *)
Example Math_round_halves :
  Doubles.Math_round 2.5 = 3%float /\
  Doubles.Math_round (-2.5) = (-2)%float /\
  Doubles.Math_round 287.49999999999994 = 287%float /\
  Doubles.Math_round (-0.25) = neg_zero /\
  Doubles.Math_round 0.25 = 0%float.
Proof. repeat split; reflexivity. Qed.

(** The specification's scenario: a baseline of 0.0010 dollars and a
    comparison of 0.0015 dollars is 50 percent more on doubles too, and
    is a warning. *)
Example half_more_is_a_warning :
  let cmp := Doubles.compareSessionSummaries
               (Sample64.summary "a" None 0.0010 None)
               (Sample64.summary "b" None 0.0015 None) in
  Spec64.percentage 0.0010 0.0015 = 50%float /\
  map Doubles.severity (Doubles.regressions cmp) = [warning] /\
  map Doubles.metric (Doubles.regressions cmp) = ["cost_usd"%string] /\
  Doubles.costDeltaPct cmp = 50%float.
Proof. cbv zeta. repeat split; reflexivity. Qed.

(** From 0.0010 to 0.0012 dollars is 19.999999999999986 percent on
    doubles: no flag, and the comparison reports 20. *)
Example fifth_more_is_no_flag :
  let cmp := Doubles.compareSessionSummaries
               (Sample64.summary "a" None 0.0010 None)
               (Sample64.summary "b" None 0.0012 None) in
  Spec64.percentage 0.0010 0.0012 = 19.999999999999986%float /\
  Doubles.regressions cmp = [] /\
  Doubles.costDeltaPct cmp = 20%float.
Proof. cbv zeta. repeat split; reflexivity. Qed.

(** From 0.000002 to 0.000003 dollars the percentage is
    50.000000000000014 on doubles, above 50: a critical flag.  From
    0.000035 to 0.000042 dollars it is 20.000000000000004: a warning. *)
Example millionths_of_a_dollar :
  let cmp1 := Doubles.compareSessionSummaries
                (Sample64.summary "a" None 0.000002 None)
                (Sample64.summary "b" None 0.000003 None) in
  let cmp2 := Doubles.compareSessionSummaries
                (Sample64.summary "a" None 0.000035 None)
                (Sample64.summary "b" None 0.000042 None) in
  Spec64.percentage 0.000002 0.000003 = 50.000000000000014%float /\
  map Doubles.severity (Doubles.regressions cmp1) = [critical] /\
  Spec64.percentage 0.000035 0.000042 = 20.000000000000004%float /\
  map Doubles.severity (Doubles.regressions cmp2) = [warning].
Proof. cbv zeta. repeat split; reflexivity. Qed.

(** Durations in whole milliseconds: 1000 to 1200 is exactly 20 percent
    and raises nothing, 1000 to 1500 is exactly 50 percent and a
    warning, 1000 to 1501 is above 50 percent and critical. *)
Example just_over_half_is_critical :
  let flags c :=
    map Doubles.severity
        (Doubles.regressions
           (Doubles.compareSessionSummaries
              (Sample64.summary "a" (Some 1000%float) 0 None)
              (Sample64.summary "b" (Some c) 0 None))) in
  flags 1200%float = [] /\ flags 1500%float = [warning] /\
  flags 1501%float = [critical] /\ flags 900%float = [].
Proof. cbv zeta. repeat split; reflexivity. Qed.

(** The 95th percentile: 200 to 300 milliseconds is a warning, 200 to
    301 is critical, and a baseline of 0 raises nothing. *)
Example p95_thresholds :
  let flags b c :=
    map Doubles.severity
        (Doubles.regressions
           (Doubles.compareSessionSummaries
              (Sample64.summary "a" None 0 (Some b))
              (Sample64.summary "b" None 0 (Some c)))) in
  flags 200%float 300%float = [warning] /\
  flags 200%float 301%float = [critical] /\
  flags 0%float 300%float = [].
Proof. cbv zeta. repeat split; reflexivity. Qed.

(** 1040 prompt characters are 260 tokens; at 0.075 dollars a million
    that is 19.499999999999996 millionths of a dollar on doubles, which
    [roundUsd] takes down to 0.000019 dollars. *)
Example cost_below_a_half_millionth :
  let c := Doubles.computeCost Doubles.no_env
             [ {| Doubles.prompt_chars := Some 1040%float;
                  Doubles.response_chars := None; Doubles.model := None |} ] in
  Doubles.estimatedInputTokens c = 260%float /\
  (260 / 1000000 * 0.075 * 1000000)%float = 19.499999999999996%float /\
  Doubles.inputCostUsd c = 0.000019%float /\
  Doubles.totalCostUsd c = 0.000019%float.
Proof. cbv zeta. repeat split; reflexivity. Qed.

(** The percentage of the comparator on 0.0010 and 0.0015 dollars is 50
    exactly, so the test [deltaPct > 50] fails. *)
Example binary64_half_more :
  Binary64.deltaPct 0.0010 0.0015 = 50%float /\
  PrimFloat.ltb 50 (Binary64.deltaPct 0.0010 0.0015) = false.
Proof. split; reflexivity. Qed.

(** Two models used twice each: the one encountered first is kept. *)
Example tie_goes_to_the_first :
  modelUsed
    (Cost.computeCost Cost.no_env
       (map (fun m => {| Cost.prompt_chars := Some 8; Cost.response_chars := None;
                         Cost.model := m |})
            [Some "gemini-2.5-flash"; None; Some "gemini-2.5-pro";
             Some "gemini-2.5-pro"; Some ""; Some "gemini-2.5-flash"]%string))
  = Some "gemini-2.5-flash"%string.
Proof. reflexivity. Qed.

(** The same events through the all-sessions statement: one of the two
    [read_file] calls failed, and the global breakdown says so. *)
Example global_breakdown_sees_the_failure :
  map (fun t => Qred (errorRate t))
      (Latency.computeToolLatencyStats (Events.allToolDurations Sample.busy_events))
  = [(1 # 2)%Q].
Proof. reflexivity. Qed.

(** On doubles the rank of [percentile] is the exact one for every
    sample count up to 2000. *)
Lemma binary64_rank_exact :
  forallb
    (fun n =>
       forallb
         (fun p =>
            PrimFloat.eqb
              (Binary64.rank (Binary64.of_Z p) (Binary64.of_Z n))
              (Binary64.of_Z (Math_ceil (inject_Z p / 100 * inject_Z n)%Q - 1)))
         [50; 75; 95; 99])
    (map Z.of_nat (seq 1 2000))
  = true.
Proof. vm_compute. reflexivity. Qed.

(* ----------------------------------------------------------------- *)
(** ** The theorems at concrete inputs *)

(** The statistics of the samples 300, 100, 200, 50. *)
Lemma computePercentiles_nearest_rank_witness :
  [300; 100; 200; 50] <> [] /\
  exists st, Latency.computePercentiles [300; 100; 200; 50] = Some st /\
             p50Ms st = 100 /\ p75Ms st = 200 /\ p95Ms st = 300 /\ p99Ms st = 300 /\
             minMs st = 50 /\ maxMs st = 300 /\ meanMs st = 163.
Proof.
  assert (H : [300; 100; 200; 50] <> []) by discriminate.
  split; [exact H|].
  destruct (@computePercentiles_nearest_rank [300; 100; 200; 50] H) as (st & sorted & E & _).
  exists st. split; [exact E|].
  vm_compute in E. injection E as <-. repeat split.
Defined.

(** A longer prompt under flash pricing does not lower the total. *)
Lemma computeCost_monotone_witness :
  Spec.nonnegative_prices (Cost.PRICING Cost.no_env) /\
  modelUsed (Cost.computeCost Cost.no_env Sample.cheap_rows)
  = modelUsed (Cost.computeCost Cost.no_env Sample.dear_rows) /\
  Spec.promptTotal Sample.cheap_rows <= Spec.promptTotal Sample.dear_rows /\
  Spec.responseTotal Sample.cheap_rows <= Spec.responseTotal Sample.dear_rows /\
  (totalCostUsd (Cost.computeCost Cost.no_env Sample.cheap_rows)
   <= totalCostUsd (Cost.computeCost Cost.no_env Sample.dear_rows))%Q.
Proof.
  assert (N : Spec.nonnegative_prices (Cost.PRICING Cost.no_env))
    by (repeat split; vm_compute; discriminate).
  assert (M : modelUsed (Cost.computeCost Cost.no_env Sample.cheap_rows)
              = modelUsed (Cost.computeCost Cost.no_env Sample.dear_rows)) by reflexivity.
  assert (P : Spec.promptTotal Sample.cheap_rows <= Spec.promptTotal Sample.dear_rows)
    by (vm_compute; discriminate).
  assert (R : Spec.responseTotal Sample.cheap_rows <= Spec.responseTotal Sample.dear_rows)
    by (vm_compute; discriminate).
  split; [exact N|]. split; [exact M|]. split; [exact P|]. split; [exact R|].
  exact (@computeCost_monotone Cost.no_env Sample.cheap_rows Sample.dear_rows N M P R).
Defined.

(** Ending the open session of the sample store twice. *)
Lemma end_session_twice_witness :
  let db := Sample.store Sample.no_budget in
  let first :=
    EndSession.handleEndSession Cost.no_env Sample.epoch
      "2026-01-15T10:05:00.000Z" "evt_a" "s1" db in
  "2026-01-15T10:05:00.000Z"%string <> EmptyString /\
  (exists summary, fst first = EndSession.Ended summary) /\
  List.length (events (snd first)) = S (List.length (events db)) /\
  EndSession.handleEndSession Cost.no_env Sample.epoch
    "2026-01-15T10:06:00.000Z" "evt_b" "s1" (snd first)
  = (EndSession.AlreadyEnded "s1" "2026-01-15T10:05:00.000Z", snd first).
Proof.
  cbv zeta.
  assert (N : "2026-01-15T10:05:00.000Z"%string <> EmptyString) by discriminate.
  split; [exact N|].
  split; [eexists; vm_compute; reflexivity|].
  split; [reflexivity|].
  refine (proj1 (@end_session_twice Cost.no_env Sample.epoch
                   "2026-01-15T10:05:00.000Z" "evt_a" "2026-01-15T10:06:00.000Z" "evt_b"
                   "s1" (Sample.store Sample.no_budget) _ _ N _)).
  vm_compute. reflexivity.
Defined.

(** The sample session holds an error event and a failed tool call, and
    its breakdown still reports no error. *)
Lemma session_breakdown_error_rate_zero_witness :
  exists s,
    Aggregator.buildSessionSummary Cost.no_env Sample.epoch
      (Sample.store Sample.no_budget) "s1" = Some s /\
    errorCount s = 1 /\
    map toolName (toolBreakdown s) = ["read_file"%string] /\
    map callCount (toolBreakdown s) = [2] /\
    Forall (fun t => (errorRate t == 0)%Q) (toolBreakdown s).
Proof.
  eexists. split; [vm_compute; reflexivity|].
  split; [reflexivity|]. split; [reflexivity|]. split; [reflexivity|].
  apply (@session_breakdown_error_rate_zero Cost.no_env Sample.epoch
           (Sample.store Sample.no_budget) "s1").
  vm_compute. reflexivity.
Defined.

(* ================================================================= *)
(** * Further properties of the code *)

(* ----------------------------------------------------------------- *)
(** ** [computePercentiles]: the order of the samples *)

Lemma StronglySorted_perm_eq (l1 l2 : list Z) :
  StronglySorted Z.le l1 -> StronglySorted Z.le l2 -> Permutation l1 l2 -> l1 = l2.
Proof.
  intros S1; revert l2; induction S1 as [|x l1 S1 IH H1]; intros l2 S2 P.
  - apply Permutation_nil in P. now subst.
  - destruct S2 as [|y l2 S2 H2].
    + apply Permutation_sym, Permutation_nil in P. discriminate.
    + assert (Exy : x = y).
      { rewrite Forall_forall in H1, H2.
        assert (In y (x :: l1)) as [->|Hy]
            by (eapply Permutation_in; [symmetry; exact P|now left]); [reflexivity|].
        assert (In x (y :: l2)) as [->|Hx]
            by (eapply Permutation_in; [exact P|now left]); [reflexivity|].
        specialize (H1 _ Hy). specialize (H2 _ Hx). lia. }
      subst y. f_equal. apply IH; [exact S2|].
      eapply Permutation_cons_inv; exact P.
Qed.

Lemma Array_sort_perm_eq (l l' : list Z) :
  Permutation l l' ->
  Array_sort (fun a b => a - b) l = Array_sort (fun a b => a - b) l'.
Proof.
  intros P. apply StronglySorted_perm_eq; try apply Array_sort_sorted.
  rewrite <- (Array_sort_perm (fun a b => a - b) l).
  rewrite <- (Array_sort_perm (fun a b => a - b) l'). exact P.
Qed.

(** X1.  [computePercentiles] does not depend on the order in which the
    samples arrive: two collections that are rearrangements of one
    another give the same answer. *)
Theorem computePercentiles_order_irrelevant (l l' : list Z) :
  Permutation l l' ->
  Latency.computePercentiles l = Latency.computePercentiles l'.
Proof.
  intros P. unfold Latency.computePercentiles, Array_length.
  rewrite (Permutation_length P), (Array_sort_perm_eq P). reflexivity.
Qed.

(** Three samples in two orders. *)
Lemma computePercentiles_order_irrelevant_witness :
  Permutation [30; 10; 20] [10; 20; 30] /\
  Latency.computePercentiles [30; 10; 20] = Latency.computePercentiles [10; 20; 30].
Proof.
  assert (P : Permutation [30; 10; 20] [10; 20; 30]).
  { apply perm_trans with (l' := [10; 30; 20]); [apply perm_swap|].
    apply perm_skip, perm_swap. }
  split; [exact P|].
  exact (@computePercentiles_order_irrelevant [30; 10; 20] [10; 20; 30] P).
Defined.

(* ----------------------------------------------------------------- *)
(** ** [computeToolLatencyStats]: the grouping loop *)

Lemma durations_of_app (tool : string) (a b : list Latency.ToolRow) :
  Notions.durations_of tool (a ++ b)
  = Notions.durations_of tool a ++ Notions.durations_of tool b.
Proof. unfold Notions.durations_of. now rewrite filter_app, map_app. Qed.

Lemma failures_of_app (tool : string) (a b : list Latency.ToolRow) :
  Notions.failures_of tool (a ++ b)
  = Notions.failures_of tool a + Notions.failures_of tool b.
Proof.
  unfold Notions.failures_of, Array_length.
  rewrite filter_app, length_app. lia.
Qed.

Lemma failures_of_bounds (tool : string) (rows : list Latency.ToolRow) :
  0 <= Notions.failures_of tool rows
  <= Array_length (Notions.durations_of tool rows).
Proof.
  unfold Notions.failures_of, Notions.durations_of, Array_length.
  rewrite length_map. split; [lia|].
  induction rows as [|r rows IH]; simpl; [lia|].
  destruct (String.eqb (Latency.tool_name r) tool); simpl; [|exact IH].
  destruct (truthy_number (Latency.error r)); simpl; lia.
Qed.

Lemma durations_of_In (tool : string) (rows : list Latency.ToolRow) :
  Notions.durations_of tool rows <> [] <-> In tool (map Latency.tool_name rows).
Proof.
  unfold Notions.durations_of.
  induction rows as [|r rows IH]; simpl; [tauto|].
  destruct (String.eqb_spec (Latency.tool_name r) tool) as [E|N]; simpl.
  - split; [auto|discriminate].
  - rewrite IH. tauto.
Qed.

Lemma grouped_snoc (rows : list Latency.ToolRow) (r : Latency.ToolRow) :
  fold_left Latency.group_step (rows ++ [r]) []
  = Latency.group_step (fold_left Latency.group_step rows []) r.
Proof. now rewrite fold_left_app. Qed.

(** The map holds, for every tool seen so far, the bucket of its rows. *)
Lemma grouped_get (rows : list Latency.ToolRow) (tool : string) :
  Map_get (fold_left Latency.group_step rows []) tool
  = match Notions.durations_of tool rows with
    | [] => None
    | _ :: _ => Some (Notions.bucket_of tool rows)
    end.
Proof.
  induction rows as [|r rows IH] using rev_ind; [reflexivity|].
  rewrite grouped_snoc. unfold Latency.group_step at 1. rewrite Map_get_set.
  unfold Notions.bucket_of. rewrite durations_of_app, failures_of_app.
  pose proof (failures_of_bounds tool rows) as B.
  destruct (String.eqb_spec (Latency.tool_name r) tool) as [E|N].
  - subst tool. rewrite IH.
    assert (D1 : Notions.durations_of (Latency.tool_name r) [r] = [Latency.duration_ms r]).
    { unfold Notions.durations_of; simpl. now rewrite String.eqb_refl. }
    assert (F1 : Notions.failures_of (Latency.tool_name r) [r]
                 = if truthy_number (Latency.error r) then 1 else 0).
    { unfold Notions.failures_of; simpl. rewrite String.eqb_refl; simpl.
      now destruct (truthy_number (Latency.error r)). }
    rewrite D1, F1.
    destruct (Notions.durations_of (Latency.tool_name r) rows) as [|d ds] eqn:D; simpl.
    + assert (Notions.failures_of (Latency.tool_name r) rows = 0)
        by (unfold Array_length in B; simpl in B; lia).
      f_equal. f_equal. destruct (truthy_number (Latency.error r)); lia.
    + unfold Notions.bucket_of; simpl. rewrite D; simpl.
      f_equal. f_equal. destruct (truthy_number (Latency.error r)); lia.
  - rewrite IH.
    assert (D1 : Notions.durations_of tool [r] = []).
    { unfold Notions.durations_of; simpl.
      destruct (String.eqb_spec (Latency.tool_name r) tool); [contradiction|reflexivity]. }
    assert (F1 : Notions.failures_of tool [r] = 0).
    { unfold Notions.failures_of; simpl.
      destruct (String.eqb_spec (Latency.tool_name r) tool); [contradiction|reflexivity]. }
    rewrite D1, F1, app_nil_r, Z.add_0_r. reflexivity.
Qed.

Lemma Map_set_keys_NoDup (V : Type) (m : Map V) (k : string) (v : V) :
  NoDup (map fst m) -> NoDup (map fst (Map_set m k v)).
Proof.
  intros ND. destruct (in_dec string_dec k (map fst m)) as [I|O].
  - now rewrite Map_set_keys_old.
  - rewrite Map_set_keys_new by assumption.
    apply NoDup_app; [exact ND|repeat constructor; auto|].
    intros x Hx [<-|[]]. contradiction.
Qed.

Lemma grouped_keys_NoDup (rows : list Latency.ToolRow) :
  NoDup (map fst (fold_left Latency.group_step rows [])).
Proof.
  induction rows as [|r rows IH] using rev_ind; [constructor|].
  rewrite grouped_snoc. now apply Map_set_keys_NoDup.
Qed.

Lemma grouped_entry (rows : list Latency.ToolRow) (tool : string) (b : Latency.Bucket) :
  In (tool, b) (fold_left Latency.group_step rows []) ->
  b = Notions.bucket_of tool rows /\ Notions.durations_of tool rows <> [].
Proof.
  intros H. pose proof (Map_get_entry _ _ _ (grouped_keys_NoDup rows) H) as G.
  rewrite grouped_get in G.
  destruct (Notions.durations_of tool rows); [discriminate|].
  split; [congruence|discriminate].
Qed.

Lemma grouped_keys_In (rows : list Latency.ToolRow) (tool : string) :
  In tool (map fst (fold_left Latency.group_step rows []))
  <-> In tool (map Latency.tool_name rows).
Proof.
  rewrite Map_get_In, grouped_get, <- durations_of_In.
  destruct (Notions.durations_of tool rows); split; congruence.
Qed.

(* ----------------------------------------------------------------- *)
(** ** [computeToolLatencyStats]: the entries and their order *)

Lemma result_loop (entries : list (string * Latency.Bucket))
      (results : list ToolLatencyStats) :
  fold_left Latency.result_step entries results
  = results ++ flat_map Notions.entries_of entries.
Proof.
  revert results; induction entries as [|[name b] entries IH]; intros results; simpl.
  - now rewrite app_nil_r.
  - rewrite IH. unfold Notions.entries_of at 2; simpl.
    destruct (Latency.computePercentiles (Latency.durations b)); simpl.
    + now rewrite <- app_assoc.
    + reflexivity.
Qed.

Lemma computeToolLatencyStats_perm (rows : list Latency.ToolRow) :
  Permutation (flat_map Notions.entries_of (fold_left Latency.group_step rows []))
              (Latency.computeToolLatencyStats rows).
Proof.
  unfold Latency.computeToolLatencyStats, Map_entries.
  rewrite result_loop. simpl. apply Array_sort_perm.
Qed.

(** Every entry of the map becomes one entry of the result, under the
    name of its key. *)
Lemma entries_names (rows : list Latency.ToolRow) :
  map toolName (flat_map Notions.entries_of (fold_left Latency.group_step rows []))
  = map fst (fold_left Latency.group_step rows []).
Proof.
  assert (H : forall e, In e (fold_left Latency.group_step rows []) ->
                        Latency.durations (snd e) <> []).
  { intros [tool b] Hin. destruct (grouped_entry _ _ _ Hin) as [-> Hne]. exact Hne. }
  induction (fold_left Latency.group_step rows []) as [|[tool b] m IH]; [reflexivity|].
  simpl. unfold Notions.entries_of at 1. simpl.
  assert (Hb : Latency.durations b <> []) by (apply (H (tool, b)); now left).
  rewrite (computePercentiles_unfold Hb). simpl. f_equal.
  apply IH. intros e He. apply H. now right.
Qed.

(** What an entry of the result says about its tool. *)
Lemma computeToolLatencyStats_entry (rows : list Latency.ToolRow) (t : ToolLatencyStats) :
  In t (Latency.computeToolLatencyStats rows) ->
  exists st,
    Latency.computePercentiles (Notions.durations_of (toolName t) rows) = Some st /\
    Notions.durations_of (toolName t) rows <> [] /\
    t = Notions.entry_of (toolName t) (Notions.bucket_of (toolName t) rows) st.
Proof.
  intros H.
  apply (Permutation_in _ (Permutation_sym (computeToolLatencyStats_perm rows))) in H.
  apply in_flat_map in H. destruct H as [[tool b] [Hin Ht]].
  destruct (grouped_entry _ _ _ Hin) as [-> Hne].
  unfold Notions.entries_of in Ht. simpl in Ht.
  destruct (Latency.computePercentiles (Notions.durations_of tool rows)) as [st|] eqn:E;
    [|contradiction].
  destruct Ht as [<-|[]]. simpl. exists st. auto.
Qed.

Lemma breakdown_names_perm (rows : list Latency.ToolRow) :
  Permutation (map fst (fold_left Latency.group_step rows []))
              (map toolName (Latency.computeToolLatencyStats rows)).
Proof.
  rewrite <- entries_names. apply Permutation_map, computeToolLatencyStats_perm.
Qed.

Lemma breakdown_names (rows : list Latency.ToolRow) (tool : string) :
  In tool (map toolName (Latency.computeToolLatencyStats rows))
  <-> In tool (map Latency.tool_name rows).
Proof.
  rewrite <- grouped_keys_In. split; intros H.
  - eapply Permutation_in; [symmetry; apply breakdown_names_perm|exact H].
  - eapply Permutation_in; [apply breakdown_names_perm|exact H].
Qed.

(** X2.  The result of [computeToolLatencyStats] has one entry per tool
    name that occurs in the rows and no other; the entry of a tool counts
    the rows of that tool, holds the percentiles of their durations and
    gives as error rate the share of them that are flagged as errors. *)
Theorem computeToolLatencyStats_per_tool (rows : list Latency.ToolRow) :
  let result := Latency.computeToolLatencyStats rows in
  NoDup (map toolName result) /\
  (forall tool, In tool (map toolName result) <-> In tool (map Latency.tool_name rows)) /\
  Forall (fun t =>
            callCount t = Array_length (Notions.durations_of (toolName t) rows) /\
            Latency.computePercentiles (Notions.durations_of (toolName t) rows)
            = Some (stats t) /\
            errorRate t
            = (inject_Z (Notions.failures_of (toolName t) rows) / inject_Z (callCount t))%Q)
         result.
Proof.
  cbv zeta.
  split; [|split].
  - eapply Permutation_NoDup; [apply breakdown_names_perm|apply grouped_keys_NoDup].
  - apply breakdown_names.
  - apply Forall_forall. intros t Ht.
    destruct (computeToolLatencyStats_entry _ _ Ht) as (st & E & Hne & Et).
    set (tool := toolName t) in *. rewrite Et.
    unfold Notions.entry_of, Notions.bucket_of.
    cbn [callCount stats errorRate Latency.durations Latency.errors].
    split; [reflexivity|]. split; [exact E|].
    destruct (Z.gtb_spec (Array_length (Notions.durations_of tool rows)) 0) as [G|G];
      [reflexivity|].
    exfalso. apply Hne. unfold Array_length in G.
    destruct (Notions.durations_of tool rows); [reflexivity|simpl in G; lia].
Qed.

(** *** Descending call counts *)

Section SortByKey.
Variable A : Type.
Variable key : A -> Z.

Lemma sort_insert_desc (x : A) (l : list A) :
  StronglySorted (fun a b => key b <= key a) l ->
  StronglySorted (fun a b => key b <= key a) (sort_insert (fun a b => key b - key a) x l).
Proof.
  induction 1 as [|y l Hs IH Hy]; simpl.
  - repeat constructor.
  - destruct (key y - key x <=? 0) eqn:E.
    + apply Z.leb_le in E.
      constructor; [constructor; assumption|].
      constructor; [lia|].
      eapply Forall_impl; [|exact Hy]. simpl; intros; lia.
    + apply Z.leb_gt in E.
      constructor; [exact IH|].
      eapply Permutation_Forall; [apply sort_insert_perm|].
      constructor; [lia|exact Hy].
Qed.

Lemma Array_sort_desc (l : list A) :
  StronglySorted (fun a b => key b <= key a) (Array_sort (fun a b => key b - key a) l).
Proof.
  induction l as [|x l IH]; simpl; [constructor|].
  now apply sort_insert_desc.
Qed.
End SortByKey.

Lemma total_map_perm (A : Type) (f : A -> Z) (l l' : list A) :
  Permutation l l' -> Spec.total (map f l) = Spec.total (map f l').
Proof. intros P. apply total_perm. now apply Permutation_map. Qed.

Lemma total_cons (x : Z) (l : list Z) : Spec.total (x :: l) = x + Spec.total l.
Proof. reflexivity. Qed.

(** Over names without repetition, a name that is absent is never
    counted and a name that is present is counted once. *)
Lemma total_indicator_absent (name : string) (keys : list string) :
  ~ In name keys ->
  Spec.total (map (fun k => if String.eqb name k then 1 else 0) keys) = 0.
Proof.
  induction keys as [|k keys IH]; intros H; [reflexivity|].
  cbn [map]. rewrite total_cons, IH by (intros H'; apply H; now right).
  destruct (String.eqb_spec name k) as [->|N]; [exfalso; apply H; now left|lia].
Qed.

Lemma total_indicator (name : string) (keys : list string) :
  NoDup keys -> In name keys ->
  Spec.total (map (fun k => if String.eqb name k then 1 else 0) keys) = 1.
Proof.
  induction 1 as [|k keys Hk ND IH]; [intros []|].
  cbn [map]. rewrite total_cons. intros [->|Hin].
  - rewrite String.eqb_refl, total_indicator_absent by assumption. lia.
  - destruct (String.eqb_spec name k) as [->|N]; [contradiction|].
    rewrite IH by assumption. lia.
Qed.

Lemma total_plus (A : Type) (f g : A -> Z) (l : list A) :
  Spec.total (map (fun k => f k + g k) l) = Spec.total (map f l) + Spec.total (map g l).
Proof.
  induction l as [|x l IH]; [reflexivity|].
  cbn [map]. rewrite !total_cons, IH. lia.
Qed.

(** Every row is counted under exactly one name. *)
Lemma total_durations_of (keys : list string) (rows : list Latency.ToolRow) :
  NoDup keys ->
  (forall r, In r rows -> In (Latency.tool_name r) keys) ->
  Spec.total (map (fun k => Array_length (Notions.durations_of k rows)) keys)
  = Array_length rows.
Proof.
  intros ND. induction rows as [|r rows IH]; intros Hin.
  - unfold Notions.durations_of, Array_length. cbn [filter map List.length Z.of_nat].
    clear. induction keys as [|k keys IH]; [reflexivity|].
    cbn [map]. rewrite total_cons, IH. reflexivity.
  - rewrite (map_ext _ (fun k => (if String.eqb (Latency.tool_name r) k then 1 else 0)
                                 + Array_length (Notions.durations_of k rows))).
    + rewrite total_plus, IH, total_indicator; auto.
      * unfold Array_length; cbn [List.length]. lia.
      * apply Hin. now left.
      * intros r' Hr'. apply Hin. now right.
    + intros k. unfold Notions.durations_of, Array_length. cbn [filter].
      destruct (String.eqb (Latency.tool_name r) k); cbn [map List.length]; lia.
Qed.

Lemma breakdown_total_calls (rows : list Latency.ToolRow) :
  Notions.total_calls (Latency.computeToolLatencyStats rows) = Array_length rows.
Proof.
  unfold Notions.total_calls.
  rewrite <- (total_perm (Permutation_map callCount (computeToolLatencyStats_perm rows))).
  transitivity
    (Spec.total (map (fun k => Array_length (Notions.durations_of k rows))
                     (map fst (fold_left Latency.group_step rows [])))).
  - rewrite <- entries_names, !map_map. f_equal.
    apply map_ext_in. intros t Ht.
    apply (Permutation_in _ (computeToolLatencyStats_perm rows)) in Ht.
    destruct (computeToolLatencyStats_entry _ _ Ht) as (st & _ & _ & Et).
    rewrite Et at 1. reflexivity.
  - apply total_durations_of; [apply grouped_keys_NoDup|].
    intros r Hr. apply grouped_keys_In. now apply in_map.
Qed.

(** X3.  [computeToolLatencyStats] lists the tools by descending call
    count, and the call counts add up to the number of rows: every row
    is counted once. *)
Theorem computeToolLatencyStats_order (rows : list Latency.ToolRow) :
  let result := Latency.computeToolLatencyStats rows in
  StronglySorted (fun a b => callCount b <= callCount a) result /\
  Notions.total_calls result = Array_length rows.
Proof.
  cbv zeta. split.
  - unfold Latency.computeToolLatencyStats. apply Array_sort_desc.
  - apply breakdown_total_calls.
Qed.

(** X4.  Every error rate [computeToolLatencyStats] reports lies between
    0 and 1, and it is 0 exactly when no row of the tool is flagged as
    an error. *)
Theorem computeToolLatencyStats_error_rate (rows : list Latency.ToolRow) :
  Forall (fun t =>
            (0 <= errorRate t)%Q /\ (errorRate t <= 1)%Q /\
            ((errorRate t == 0)%Q <-> Notions.failures_of (toolName t) rows = 0))
         (Latency.computeToolLatencyStats rows).
Proof.
  apply Forall_forall. intros t Ht.
  destruct (computeToolLatencyStats_entry _ _ Ht) as (st & _ & Hne & Et).
  pose proof (failures_of_bounds (toolName t) rows) as [F0 F1].
  set (tool := toolName t) in *. rewrite Et.
  unfold Notions.entry_of, Notions.bucket_of.
  cbn [errorRate Latency.durations Latency.errors].
  set (f := Notions.failures_of tool rows) in *.
  set (c := Array_length (Notions.durations_of tool rows)) in *.
  assert (Hc : 0 < c).
  { unfold c, Array_length. destruct (Notions.durations_of tool rows);
      [congruence|simpl; lia]. }
  destruct (Z.gtb_spec c 0) as [_|G]; [|lia].
  assert (Qc : (inject_Z 0 < inject_Z c)%Q) by (rewrite <- Zlt_Qlt; exact Hc).
  assert (Qf : (inject_Z 0 <= inject_Z f)%Q) by (rewrite <- Zle_Qle; exact F0).
  assert (Qfc : (inject_Z f <= inject_Z c)%Q) by (rewrite <- Zle_Qle; exact F1).
  change (inject_Z 0) with 0%Q in Qc, Qf.
  repeat split.
  - apply Qle_shift_div_l; [exact Qc|]. lra.
  - apply Qle_shift_div_r; [exact Qc|]. lra.
  - intros E. assert (E' : (inject_Z f == 0)%Q).
    { rewrite <- (Qmult_div_r (inject_Z f) (inject_Z c)) by lra.
      rewrite E. ring. }
    unfold Qeq in E'. simpl in E'. lia.
  - intros ->. unfold Qdiv. change (inject_Z 0) with 0%Q. ring.
Qed.

(* ----------------------------------------------------------------- *)
(** ** [p95DeltaPct] *)

Lemma p95DeltaPct_signs (baseline compare : Z) :
  0 < baseline ->
  ((0 < Latency.p95DeltaPct baseline compare)%Q <-> baseline < compare) /\
  ((Latency.p95DeltaPct baseline compare < 0)%Q <-> compare < baseline) /\
  ((Latency.p95DeltaPct baseline compare == 0)%Q <-> compare = baseline).
Proof.
  intros Hb. unfold Latency.p95DeltaPct.
  destruct (Z.eqb_spec baseline 0) as [E|_]; [lia|].
  assert (Qb : (inject_Z 0 < inject_Z baseline)%Q) by (rewrite <- Zlt_Qlt; exact Hb).
  change (inject_Z 0) with 0%Q in Qb.
  set (y := inject_Z baseline) in *.
  set (x := inject_Z (compare - baseline)).
  assert (Ex : (x == (x / y * 100) * (y * (1 # 100)))%Q) by (field; lra).
  assert (Sx : forall z : Z, (inject_Z z < 0 <-> (z < 0)%Z)%Q /\
                             (0 < inject_Z z <-> (0 < z)%Z)%Q /\
                             (inject_Z z == 0 <-> z = 0%Z)%Q).
  { intros z. change 0%Q with (inject_Z 0).
    rewrite <- !Zlt_Qlt, inject_Z_injective. tauto. }
  destruct (Sx (compare - baseline)) as (S1 & S2 & S3). fold x in S1, S2, S3.
  assert (Hy : (0 < y * (1 # 100))%Q) by lra.
  set (p := (x / y * 100)%Q) in *. set (k := (y * (1 # 100))%Q) in *.
  repeat split; intros H.
  + assert (0 < x)%Q by (rewrite Ex; apply Qmult_lt_0_compat; assumption).
    apply S2 in H0. lia.
  + assert (G : (0 < x)%Q) by (apply S2; lia).
    destruct (Qlt_le_dec 0 p) as [|L]; [assumption|exfalso].
    assert (p * k <= 0 * k)%Q by (apply Qmult_le_compat_r; lra).
    rewrite <- Ex in H0. lra.
  + assert (x < 0)%Q.
    { rewrite Ex. setoid_replace 0%Q with (0 * k)%Q by ring.
      apply Qmult_lt_compat_r; assumption. }
    apply S1 in H0. lia.
  + assert (G : (x < 0)%Q) by (apply S1; lia).
    destruct (Qlt_le_dec p 0) as [|L]; [assumption|exfalso].
    assert (0 * k <= p * k)%Q by (apply Qmult_le_compat_r; lra).
    rewrite <- Ex in H0. lra.
  + assert (x == 0)%Q by (rewrite Ex, H; ring).
    apply S3 in H0. lia.
  + assert (G : (x == 0)%Q) by (apply S3; lia).
    unfold p. rewrite G. unfold Qdiv. ring.
Qed.

(** X5.  [p95DeltaPct] is 0 on a baseline of 0; on a positive baseline it
    is positive exactly for a regression (compare above baseline),
    negative exactly for an improvement and zero exactly when the two
    values agree. *)
Theorem p95DeltaPct_sign (baseline compare : Z) :
  (baseline = 0 -> Latency.p95DeltaPct baseline compare = 0%Q) /\
  (0 < baseline ->
   ((0 < Latency.p95DeltaPct baseline compare)%Q <-> baseline < compare) /\
   ((Latency.p95DeltaPct baseline compare < 0)%Q <-> compare < baseline) /\
   ((Latency.p95DeltaPct baseline compare == 0)%Q <-> compare = baseline)).
Proof.
  split.
  - intros ->. reflexivity.
  - apply p95DeltaPct_signs.
Qed.

(** A baseline of 200 ms against 250 ms and against 150 ms. *)
Lemma p95DeltaPct_sign_witness :
  0 < 200 /\ (0 < Latency.p95DeltaPct 200 250)%Q /\ (Latency.p95DeltaPct 200 150 < 0)%Q.
Proof.
  assert (H : 0 < 200) by lia.
  destruct (proj2 (p95DeltaPct_sign 200 250) H) as (P & _ & _).
  destruct (proj2 (p95DeltaPct_sign 200 150) H) as (_ & N & _).
  split; [exact H|]. split; [apply P; lia|apply N; lia].
Defined.

(* ----------------------------------------------------------------- *)
(** ** [estimateTokens] and the rounding of [computeCost] *)

(** [estimateTokens] yields the least whole number of tokens that
    covers the characters at four characters a token:
    [chars <= 4 * tokens < chars + 4]. *)
Lemma estimateTokens_covers (chars : Z) :
  chars <= 4 * Cost.estimateTokens chars /\ 4 * Cost.estimateTokens chars < chars + 4.
Proof.
  unfold Cost.estimateTokens, Math_ceil.
  pose proof (Qle_ceiling (inject_Z chars / 4)) as U.
  pose proof (Qceiling_lt (inject_Z chars / 4)) as L.
  set (t := Qceiling (inject_Z chars / 4)) in *.
  unfold Z.sub in L. rewrite inject_Z_plus in L.
  change (inject_Z (Z.opp 1)) with (-1)%Q in L.
  unfold Qdiv in U, L. change (/ 4)%Q with (1 # 4)%Q in U, L.
  assert (U' : (inject_Z chars <= inject_Z (4 * t))%Q).
  { rewrite inject_Z_mult. change (inject_Z 4) with 4%Q. lra. }
  assert (L' : (inject_Z (4 * t) < inject_Z (chars + 4))%Q).
  { rewrite inject_Z_mult, inject_Z_plus. change (inject_Z 4) with 4%Q. lra. }
  rewrite <- Zle_Qle in U'. rewrite <- Zlt_Qlt in L'. lia.
Qed.



(** The gap is real: twenty prompt characters and four response
    characters cost nothing on either side and a millionth in total. *)
Example computeCost_parts_do_not_add_up :
  let c := Cost.computeCost Cost.no_env
             [ {| Cost.prompt_chars := Some 20; Cost.response_chars := Some 4;
                  Cost.model := None |} ] in
  (inputCostUsd c == 0)%Q /\ (outputCostUsd c == 0)%Q /\
  (totalCostUsd c == 1 # 1000000)%Q.
Proof. vm_compute. repeat split; congruence. Qed.

(** The same on doubles. *)
Example binary64_parts_do_not_add_up :
  let c := Binary64.computeCost Binary64.pro
             [ {| Binary64.prompt_chars := Some 20%float;
                  Binary64.response_chars := Some 4%float |} ] in
  Binary64.inputCostUsd c = 0%float /\ Binary64.outputCostUsd c = 0%float /\
  Binary64.totalCostUsd c = 0.000001%float.
Proof. repeat split; reflexivity. Qed.

(* ----------------------------------------------------------------- *)
(** ** [computeCost]: signs and what the result depends on *)

Lemma estimateTokens_zero : Cost.estimateTokens 0 = 0.
Proof. reflexivity. Qed.

Lemma Cost_roundUsd_nonneg (x : Q) : (0 <= x)%Q -> (0 <= Cost.roundUsd x)%Q.
Proof.
  intros H. apply (@roundUsd_mono 0%Q x) in H.
  assert (Z0 : (Cost.roundUsd 0 == 0)%Q) by reflexivity.
  rewrite Z0 in H. exact H.
Qed.

Lemma tier_cost_nonneg (tokens : Z) (price : Q) :
  0 <= tokens -> (0 <= price)%Q -> (0 <= inject_Z tokens / 1000000 * price)%Q.
Proof.
  intros T P. pose proof (@tier_cost_mono 0 tokens price T P) as H.
  assert (Z0 : (inject_Z 0 / 1000000 * price == 0)%Q) by (unfold Qdiv; ring).
  rewrite Z0 in H. exact H.
Qed.

(** X7.  Under prices that are not negative, rows whose prompt and
    response characters do not sum below zero give token estimates and
    dollar figures that are not negative. *)
Theorem computeCost_nonnegative (env : Cost.Env) (rows : list Cost.LlmRow) :
  Spec.nonnegative_prices (Cost.PRICING env) ->
  0 <= Spec.promptTotal rows ->
  0 <= Spec.responseTotal rows ->
  0 <= estimatedInputTokens (Cost.computeCost env rows) /\
  0 <= estimatedOutputTokens (Cost.computeCost env rows) /\
  (0 <= inputCostUsd (Cost.computeCost env rows))%Q /\
  (0 <= outputCostUsd (Cost.computeCost env rows))%Q /\
  (0 <= totalCostUsd (Cost.computeCost env rows))%Q.
Proof.
  intros NN P R. unfold Cost.computeCost.
  cbn [estimatedInputTokens estimatedOutputTokens inputCostUsd outputCostUsd totalCostUsd].
  rewrite !scanRows_prompt, !scanRows_response.
  destruct (pricingFor_nonneg (Cost.pickDominant (Cost.modelCounts (Cost.scanRows rows))) NN)
    as [NI NO].
  assert (TI : 0 <= Cost.estimateTokens (Spec.promptTotal rows))
    by (rewrite <- estimateTokens_zero; now apply estimateTokens_mono).
  assert (TO : 0 <= Cost.estimateTokens (Spec.responseTotal rows))
    by (rewrite <- estimateTokens_zero; now apply estimateTokens_mono).
  pose proof (tier_cost_nonneg TI NI) as CI.
  pose proof (tier_cost_nonneg TO NO) as CO.
  split; [exact TI|]. split; [exact TO|].
  split; [now apply Cost_roundUsd_nonneg|].
  split; [now apply Cost_roundUsd_nonneg|].
  apply Cost_roundUsd_nonneg.
  apply (Qplus_le_compat 0 _ 0 _ CI CO).
Qed.

(** The built-in prices on the quoted request and response. *)
Lemma computeCost_nonnegative_witness :
  Spec.nonnegative_prices (Cost.PRICING Cost.no_env) /\
  0 <= Spec.promptTotal Sample.two_rows /\
  0 <= Spec.responseTotal Sample.two_rows /\
  (0 <= totalCostUsd (Cost.computeCost Cost.no_env Sample.two_rows))%Q.
Proof.
  assert (N : Spec.nonnegative_prices (Cost.PRICING Cost.no_env))
    by (repeat split; vm_compute; discriminate).
  assert (P : 0 <= Spec.promptTotal Sample.two_rows) by (vm_compute; discriminate).
  assert (R : 0 <= Spec.responseTotal Sample.two_rows) by (vm_compute; discriminate).
  split; [exact N|]. split; [exact P|]. split; [exact R|].
  exact (proj2 (proj2 (proj2 (proj2
           (@computeCost_nonnegative Cost.no_env Sample.two_rows N P R))))).
Defined.

(** X8.  [computeCost] reads three things off its rows: the total of
    the prompt characters, the total of the response characters and the
    sequence of models specified.  Rows that agree on these give the
    same breakdown, however the characters are spread over them. *)
Theorem computeCost_totals_only (env : Cost.Env) (rows1 rows2 : list Cost.LlmRow) :
  Spec.specified_models rows1 = Spec.specified_models rows2 ->
  Spec.promptTotal rows1 = Spec.promptTotal rows2 ->
  Spec.responseTotal rows1 = Spec.responseTotal rows2 ->
  Cost.computeCost env rows1 = Cost.computeCost env rows2.
Proof.
  intros M P R. unfold Cost.computeCost.
  rewrite !scanRows_prompt, !scanRows_response, !modelCounts_tally.
  rewrite M, P, R. reflexivity.
Qed.

(** One exchange in a single row, and the same characters reported as a
    request, a response and an empty row. *)
Lemma computeCost_totals_only_witness :
  let together :=
    [ {| Cost.prompt_chars := Some 4000; Cost.response_chars := Some 800;
         Cost.model := Some "gemini-2.5-flash"%string |} ] in
  let apart :=
    [ {| Cost.prompt_chars := Some 1500; Cost.response_chars := None;
         Cost.model := None |};
      {| Cost.prompt_chars := Some 2500; Cost.response_chars := Some 800;
         Cost.model := Some "gemini-2.5-flash"%string |};
      {| Cost.prompt_chars := None; Cost.response_chars := None;
         Cost.model := Some EmptyString |} ] in
  Spec.specified_models together = Spec.specified_models apart /\
  Spec.promptTotal together = Spec.promptTotal apart /\
  Spec.responseTotal together = Spec.responseTotal apart /\
  Cost.computeCost Cost.no_env together = Cost.computeCost Cost.no_env apart.
Proof.
  cbv zeta.
  split; [reflexivity|]. split; [reflexivity|]. split; [reflexivity|].
  apply (@computeCost_totals_only Cost.no_env); reflexivity.
Defined.

(* ----------------------------------------------------------------- *)
(** ** [compareSessionSummaries]: what a flag says *)

(** What every flag satisfies: it is raised above 20 percent, it is
    critical exactly above 50 percent, its baseline value is not zero and
    its percentage is the relative change of the two values it quotes. *)
Lemma maybeFlag_consistent (m : string) (bv cv d : Q) :
  ~ (bv == 0)%Q -> (d == (cv - bv) / bv * 100)%Q ->
  Forall (Notions.consistent_flag) (Comparator.maybeFlag m bv cv d).
Proof.
  intros NZ E. unfold Comparator.maybeFlag.
  destruct (Qgtb d 50) eqn:G50.
  - apply Qgtb_true in G50. constructor; [|constructor].
    unfold Notions.consistent_flag; cbn.
    split; [lra|]. split; [tauto|]. split; [exact NZ|exact E].
  - apply Qgtb_false in G50. destruct (Qgtb d 20) eqn:G20; [|constructor].
    apply Qgtb_true in G20. constructor; [|constructor].
    unfold Notions.consistent_flag; cbn.
    split; [exact G20|]. split; [|split; [exact NZ|exact E]].
    split; [discriminate|intros H; lra].
Qed.

Lemma costFlags_consistent (b c : SessionSummary) :
  Forall Notions.consistent_flag (Comparator.costFlags b c).
Proof.
  unfold Comparator.costFlags.
  destruct (Qgtb (Comparator.costDeltaPct b c) 0) eqn:G; [|constructor].
  unfold Comparator.costDeltaPct in *.
  destruct (Qgtb (totalCostUsd (cost b)) 0) eqn:B; [|discriminate].
  apply Qgtb_true in B.
  apply maybeFlag_consistent; [lra|]. unfold Comparator.costDelta. reflexivity.
Qed.

Lemma durationFlags_consistent (b c : SessionSummary) :
  Forall Notions.consistent_flag (Comparator.durationFlags b c).
Proof.
  unfold Comparator.durationFlags, Comparator.durationDeltaPct, Comparator.durationDelta.
  destruct (durationMs b) as [db|]; [|constructor].
  destruct (durationMs c) as [dc|]; [|constructor].
  destruct (db >? 0) eqn:B; [|constructor].
  apply Z.gtb_lt in B.
  destruct (Qgtb _ 0 && truthy_number db); [|constructor].
  assert (Qb : (inject_Z 0 < inject_Z db)%Q) by (rewrite <- Zlt_Qlt; exact B).
  change (inject_Z 0) with 0%Q in Qb.
  apply maybeFlag_consistent; [lra|].
  cbn [nullish]. unfold Z.sub. rewrite inject_Z_plus, inject_Z_opp. reflexivity.
Qed.

Lemma p95Flags_consistent (b c : SessionSummary) :
  Forall Notions.consistent_flag (Comparator.p95Flags b c).
Proof.
  unfold Comparator.p95Flags, Comparator.p95DeltaPctVal, Comparator.p95Delta,
    Comparator.baseP95, Comparator.cmpP95.
  destruct (overallLatency b) as [sb|]; [|constructor].
  destruct (overallLatency c) as [sc|]; [|constructor].
  cbn [option_map nullish].
  destruct (Qgtb (Latency.p95DeltaPct (p95Ms sb) (p95Ms sc)) 0) eqn:G; [|constructor].
  unfold Latency.p95DeltaPct in *.
  destruct (Z.eqb_spec (p95Ms sb) 0) as [E|NE]; [discriminate|].
  apply maybeFlag_consistent.
  - intros H. apply NE. unfold Qeq in H. simpl in H. lia.
  - unfold Z.sub. rewrite inject_Z_plus, inject_Z_opp. reflexivity.
Qed.

(** X9.  The regressions of a comparison hold at most three flags, at
    most one for each metric.  Every flag is raised above 20 percent, is
    critical exactly when above 50 percent, and its percentage is the
    relative change from the baseline value to the compare value it
    quotes, the baseline value not being zero. *)
Theorem regressions_well_formed (baseline compare : SessionSummary) :
  let flags := regressions (Aggregator.compareSessionSummaries baseline compare) in
  Array_length flags <= 3 /\
  NoDup (map metric flags) /\
  Forall Notions.consistent_flag flags.
Proof.
  cbv zeta. cbn [regressions Aggregator.compareSessionSummaries].
  unfold Comparator.regressions.
  pose proof (costFlags_metric baseline compare) as MC.
  pose proof (durationFlags_metric baseline compare) as MD.
  pose proof (p95Flags_metric baseline compare) as MP.
  assert (LC : (List.length (Comparator.costFlags baseline compare) <= 1)%nat).
  { unfold Comparator.costFlags, Comparator.maybeFlag.
    repeat match goal with |- context [if ?x then _ else _] => destruct x end;
      simpl; lia. }
  assert (LD : (List.length (Comparator.durationFlags baseline compare) <= 1)%nat).
  { unfold Comparator.durationFlags, Comparator.maybeFlag.
    repeat match goal with
           | |- context [match ?x with Some _ => _ | None => _ end] => destruct x
           | |- context [if ?x then _ else _] => destruct x
           end; simpl; lia. }
  assert (LP : (List.length (Comparator.p95Flags baseline compare) <= 1)%nat).
  { unfold Comparator.p95Flags, Comparator.maybeFlag.
    repeat match goal with
           | |- context [match ?x with Some _ => _ | None => _ end] => destruct x
           | |- context [if ?x then _ else _] => destruct x
           end; simpl; lia. }
  split; [|split].
  - unfold Array_length. rewrite !length_app. lia.
  - destruct (Comparator.costFlags baseline compare) as [|fc [|? ?]];
      [| |simpl in LC; lia];
    destruct (Comparator.durationFlags baseline compare) as [|fd [|? ?]];
      try (simpl in LD; lia);
    destruct (Comparator.p95Flags baseline compare) as [|fp [|? ?]];
      try (simpl in LP; lia);
    repeat match goal with
           | H : Forall _ (_ :: _) |- _ => inversion H; subst; clear H
           | H : Forall _ [] |- _ => clear H
           end;
    cbn [app map];
    repeat match goal with H : metric _ = _ |- _ => rewrite H; clear H end;
    repeat constructor; simpl; intuition discriminate.
  - rewrite !Forall_app. split; [apply costFlags_consistent|].
    split; [apply durationFlags_consistent|apply p95Flags_consistent].
Qed.

(* ----------------------------------------------------------------- *)
(** ** [compareSessionSummaries]: when nothing is flagged *)

(** X10.  A compare session that costs no more, lasts no longer and has
    no higher 95th percentile than the baseline (the baseline percentile
    not being negative) raises no flag. *)
Theorem no_regression_when_not_worse (baseline compare : SessionSummary) :
  (totalCostUsd (cost compare) <= totalCostUsd (cost baseline))%Q ->
  (forall db dc, durationMs baseline = Some db -> durationMs compare = Some dc ->
                 dc <= db) ->
  (forall sb sc, overallLatency baseline = Some sb -> overallLatency compare = Some sc ->
                 0 <= p95Ms sb /\ p95Ms sc <= p95Ms sb) ->
  regressions (Aggregator.compareSessionSummaries baseline compare) = [].
Proof.
  intros HC HD HP. cbn [regressions Aggregator.compareSessionSummaries].
  unfold Comparator.regressions.
  assert (EC : Comparator.costFlags baseline compare = []).
  { unfold Comparator.costFlags.
    destruct (Qgtb (Comparator.costDeltaPct baseline compare) 0) eqn:G; [|reflexivity].
    exfalso. apply Qgtb_true in G. unfold Comparator.costDeltaPct in G.
    destruct (Qgtb (totalCostUsd (cost baseline)) 0) eqn:B; [|lra].
    apply Qgtb_true in B. unfold Comparator.costDelta in G.
    set (x := totalCostUsd (cost baseline)) in *.
    set (y := totalCostUsd (cost compare)) in *.
    assert (N : ((y - x) / x * 100 <= 0)%Q).
    { setoid_replace ((y - x) / x * 100)%Q with (- (((x - y) * 100) / x))%Q
        by (field; lra).
      assert (0 <= (x - y) * 100 / x)%Q; [|lra].
      apply Qle_shift_div_l; [exact B|]. lra. }
    lra. }
  assert (ED : Comparator.durationFlags baseline compare = []).
  { unfold Comparator.durationFlags, Comparator.durationDeltaPct, Comparator.durationDelta.
    destruct (durationMs baseline) as [db|] eqn:Eb; [|reflexivity].
    destruct (durationMs compare) as [dc|] eqn:Ec; [|reflexivity].
    specialize (HD db dc eq_refl eq_refl).
    destruct (db >? 0) eqn:B; [|reflexivity].
    apply Z.gtb_lt in B.
    destruct (Qgtb (inject_Z (dc - db) / inject_Z db * 100) 0) eqn:G; [|reflexivity].
    exfalso. apply Qgtb_true in G.
    assert (S := proj1 (@p95DeltaPct_signs db dc B)).
    unfold Latency.p95DeltaPct in S.
    destruct (Z.eqb_spec db 0); [lia|]. apply S in G. lia. }
  assert (EP : Comparator.p95Flags baseline compare = []).
  { unfold Comparator.p95Flags, Comparator.p95DeltaPctVal, Comparator.p95Delta,
      Comparator.baseP95, Comparator.cmpP95.
    destruct (overallLatency baseline) as [sb|]; [|reflexivity].
    destruct (overallLatency compare) as [sc|]; [|reflexivity].
    destruct (HP sb sc eq_refl eq_refl) as [P0 P1].
    cbn [option_map nullish].
    destruct (Qgtb (Latency.p95DeltaPct (p95Ms sb) (p95Ms sc)) 0) eqn:G; [|reflexivity].
    exfalso. apply Qgtb_true in G.
    destruct (Z.eq_dec (p95Ms sb) 0) as [E|NE].
    - rewrite E in G. unfold Latency.p95DeltaPct in G. simpl in G. lra.
    - assert (B : 0 < p95Ms sb) by lia.
      apply (proj1 (@p95DeltaPct_signs (p95Ms sb) (p95Ms sc) B)) in G. lia. }
  rewrite EC, ED, EP. reflexivity.
Qed.

(** A compare session at half the cost, with the same duration and a
    lower percentile. *)
Lemma no_regression_when_not_worse_witness :
  let latency (p95 : Z) :=
    {| p50Ms := 10; p75Ms := 20; p95Ms := p95; p99Ms := 400;
       minMs := 1; maxMs := 400; meanMs := 50; sampleCount := 20 |} in
  let baseline := Sample.summary "a" (Some 1000) 0.02 (Some (latency 300)) in
  let compare := Sample.summary "b" (Some 1000) 0.01 (Some (latency 200)) in
  (totalCostUsd (cost compare) <= totalCostUsd (cost baseline))%Q /\
  regressions (Aggregator.compareSessionSummaries baseline compare) = [].
Proof.
  cbv zeta.
  assert (C : (0.01 <= 0.02)%Q) by (vm_compute; discriminate).
  split; [exact C|].
  apply no_regression_when_not_worse.
  - exact C.
  - intros db dc Hb Hc. simpl in Hb, Hc.
    injection Hb as <-. injection Hc as <-. lia.
  - intros sb sc Hb Hc. simpl in Hb, Hc.
    injection Hb as <-. injection Hc as <-. simpl. lia.
Defined.

(** X11.  A baseline without cost, without duration or with a 95th
    percentile of zero hides any increase: no flag is raised for that
    metric, whatever the compare session shows. *)
Theorem zero_baseline_never_flagged (baseline compare : SessionSummary) :
  ((totalCostUsd (cost baseline) <= 0)%Q ->
   Spec.flagsFor "cost_usd" (Aggregator.compareSessionSummaries baseline compare) = []) /\
  ((forall d, durationMs baseline = Some d -> d <= 0) ->
   Spec.flagsFor "session_duration_ms"
     (Aggregator.compareSessionSummaries baseline compare) = []) /\
  ((forall st, overallLatency baseline = Some st -> p95Ms st = 0) ->
   Spec.flagsFor "p95_tool_latency_ms"
     (Aggregator.compareSessionSummaries baseline compare) = []).
Proof.
  rewrite flagsFor_cost, flagsFor_duration, flagsFor_p95.
  split; [|split].
  - intros H. unfold Comparator.costFlags, Comparator.costDeltaPct.
    apply Qgtb_false in H. rewrite H. reflexivity.
  - intros H. unfold Comparator.durationFlags, Comparator.durationDeltaPct,
      Comparator.durationDelta.
    destruct (durationMs baseline) as [db|]; [|reflexivity].
    specialize (H db eq_refl).
    destruct (durationMs compare) as [dc|]; [|reflexivity].
    destruct (db >? 0) eqn:B; [|reflexivity].
    apply Z.gtb_lt in B. lia.
  - intros H. unfold Comparator.p95Flags, Comparator.p95DeltaPctVal, Comparator.p95Delta,
      Comparator.baseP95, Comparator.cmpP95.
    destruct (overallLatency baseline) as [sb|]; [|reflexivity].
    specialize (H sb eq_refl).
    destruct (overallLatency compare) as [sc|]; [|reflexivity].
    cbn [option_map nullish]. rewrite H. reflexivity.
Qed.

(** A free, instantaneous baseline without latency against a session
    that costs five dollars and takes an hour: nothing is flagged. *)
Example free_baseline_hides_the_cost :
  regressions (Aggregator.compareSessionSummaries
                 (Sample.summary "a" (Some 0) 0 None)
                 (Sample.summary "b" (Some 3600000) 5 None)) = [].
Proof. reflexivity. Qed.

(* ----------------------------------------------------------------- *)
(** ** [compareSessionSummaries]: the reported cost delta *)



(** On doubles the subtraction of two such costs is off in the last
    place and the rounding of the delta restores the nearest double. *)
Example binary64_cost_delta :
  (0.000075 - 0.000135)%float <> (-0.00006)%float /\
  Binary64.roundUsd (0.000075 - 0.000135)%float = (-0.00006)%float.
Proof.
  split; [|reflexivity].
  intros H. apply (f_equal (fun x => PrimFloat.eqb x (-0.00006)%float)) in H.
  vm_compute in H. discriminate.
Qed.

(* ----------------------------------------------------------------- *)
(** ** Sorting by a comparator that is a total preorder *)

Section WeakOrder.
Variable A : Type.
Variable cmp : A -> A -> Z.
Hypothesis cmp_total : forall a b, 0 < cmp a b -> cmp b a <= 0.
Hypothesis cmp_trans : forall a b c, cmp a b <= 0 -> cmp b c <= 0 -> cmp a c <= 0.

Lemma sort_insert_weak_sorted (x : A) (l : list A) :
  StronglySorted (fun a b => cmp a b <= 0) l ->
  StronglySorted (fun a b => cmp a b <= 0) (sort_insert cmp x l).
Proof.
  induction 1 as [|y l Hs IH Hy]; simpl.
  - repeat constructor.
  - destruct (cmp x y <=? 0) eqn:E.
    + apply Z.leb_le in E.
      constructor; [constructor; assumption|].
      constructor; [exact E|].
      eapply Forall_impl; [|exact Hy]. simpl; intros z Hz. now apply cmp_trans with y.
    + apply Z.leb_gt in E.
      constructor; [exact IH|].
      eapply Permutation_Forall; [apply sort_insert_perm|].
      constructor; [now apply cmp_total|exact Hy].
Qed.

Lemma Array_sort_weak_sorted (l : list A) :
  StronglySorted (fun a b => cmp a b <= 0) (Array_sort cmp l).
Proof.
  induction l as [|x l IH]; simpl; [constructor|].
  now apply sort_insert_weak_sorted.
Qed.

Lemma sort_insert_first (x : A) (l : list A) :
  Forall (fun y => cmp x y <= 0) l -> sort_insert cmp x l = x :: l.
Proof.
  intros H. destruct l as [|y l]; [reflexivity|]. simpl.
  inversion H as [|? ? Hy _]; subst.
  apply Z.leb_le in Hy. now rewrite Hy.
Qed.

Lemma filter_sort_insert (p : A -> bool) (x : A) (l : list A) :
  StronglySorted (fun a b => cmp a b <= 0) l ->
  filter p (sort_insert cmp x l)
  = if p x then sort_insert cmp x (filter p l) else filter p l.
Proof.
  induction 1 as [|y l Hs IH Hy].
  - simpl. destruct (p x); reflexivity.
  - cbn [sort_insert]. destruct (cmp x y <=? 0) eqn:E.
    + apply Z.leb_le in E. cbn [filter]. destruct (p x) eqn:Px; [|reflexivity].
      symmetry. apply sort_insert_first.
      assert (F : Forall (fun z => cmp x z <= 0) (y :: l)).
      { constructor; [exact E|].
        eapply Forall_impl; [|exact Hy]. simpl; intros z Hz. now apply cmp_trans with y. }
      change (Forall (fun z => cmp x z <= 0) (filter p (y :: l))).
      rewrite Forall_forall in *. intros z Hz. apply filter_In in Hz. now apply F.
    + cbn [filter]. rewrite IH. destruct (p y) eqn:Py, (p x) eqn:Px; try reflexivity.
      cbn [sort_insert]. now rewrite E.
Qed.

(** Filtering commutes with the stable sort. *)
Lemma filter_Array_sort (p : A -> bool) (l : list A) :
  filter p (Array_sort cmp l) = Array_sort cmp (filter p l).
Proof.
  induction l as [|x l IH]; [reflexivity|].
  change (Array_sort cmp (x :: l)) with (sort_insert cmp x (Array_sort cmp l)).
  rewrite filter_sort_insert by apply Array_sort_weak_sorted.
  cbn [filter]. destruct (p x); rewrite IH; reflexivity.
Qed.
End WeakOrder.

(** The comparison of the text columns is a total preorder. *)
Lemma String_compare_flip (a b : string) :
  String.compare a b = Gt -> String.compare b a = Lt.
Proof.
  intros H. rewrite String.compare_antisym, H. reflexivity.
Qed.

Lemma String_compare_trans (a b c : string) :
  String.compare a b <> Gt -> String.compare b c <> Gt -> String.compare a c <> Gt.
Proof.
  intros H1 H2.
  destruct (String.compare a b) eqn:E1; [| |congruence].
  - apply String.compare_eq_iff in E1. now subst.
  - destruct (String.compare b c) eqn:E2; [| |congruence].
    + apply String.compare_eq_iff in E2. subst. congruence.
    + apply OrderedTypeEx.String_as_OT.cmp_lt in E1, E2.
      pose proof (@OrderedTypeEx.String_as_OT.lt_trans _ _ _ E1 E2) as L.
      apply OrderedTypeEx.String_as_OT.cmp_lt in L.
      unfold OrderedTypeEx.String_as_OT.cmp in L. congruence.
Qed.

Lemma by_recorded_at_total (a b : Events.EventRow) :
  0 < Events.by_recorded_at a b -> Events.by_recorded_at b a <= 0.
Proof.
  unfold Events.by_recorded_at. intros H.
  destruct (String.compare (Events.recorded_at a) (Events.recorded_at b)) eqn:E; try lia.
  now rewrite (String_compare_flip _ _ E).
Qed.

Lemma by_recorded_at_trans (a b c : Events.EventRow) :
  Events.by_recorded_at a b <= 0 -> Events.by_recorded_at b c <= 0 ->
  Events.by_recorded_at a c <= 0.
Proof.
  unfold Events.by_recorded_at. intros H1 H2.
  assert (N1 : String.compare (Events.recorded_at a) (Events.recorded_at b) <> Gt)
    by (intros E; rewrite E in H1; lia).
  assert (N2 : String.compare (Events.recorded_at b) (Events.recorded_at c) <> Gt)
    by (intros E; rewrite E in H2; lia).
  pose proof (String_compare_trans _ _ _ N1 N2) as N.
  destruct (String.compare (Events.recorded_at a) (Events.recorded_at c)); try lia.
  congruence.
Qed.

Lemma by_started_at_desc_total (a b : Sessions.SessionRow) :
  0 < SessionStmts.by_started_at_desc a b -> SessionStmts.by_started_at_desc b a <= 0.
Proof.
  unfold SessionStmts.by_started_at_desc. intros H.
  destruct (String.compare (Sessions.started_at b) (Sessions.started_at a)) eqn:E; try lia.
  now rewrite (String_compare_flip _ _ E).
Qed.

Lemma by_started_at_desc_trans (a b c : Sessions.SessionRow) :
  SessionStmts.by_started_at_desc a b <= 0 -> SessionStmts.by_started_at_desc b c <= 0 ->
  SessionStmts.by_started_at_desc a c <= 0.
Proof.
  unfold SessionStmts.by_started_at_desc. intros H1 H2.
  assert (N1 : String.compare (Sessions.started_at b) (Sessions.started_at a) <> Gt)
    by (intros E; rewrite E in H1; lia).
  assert (N2 : String.compare (Sessions.started_at c) (Sessions.started_at b) <> Gt)
    by (intros E; rewrite E in H2; lia).
  pose proof (String_compare_trans _ _ _ N2 N1) as N.
  destruct (String.compare (Sessions.started_at c) (Sessions.started_at a)); try lia.
  congruence.
Qed.

(* ----------------------------------------------------------------- *)
(** ** The statements over [events] read one session's rows *)

Lemma filter_and_filter (A : Type) (q r : A -> bool) (l : list A) :
  filter (fun e => q e && r e) (filter q l) = filter (fun e => q e && r e) l.
Proof.
  induction l as [|x l IH]; [reflexivity|]. simpl.
  destruct (q x) eqn:Q; simpl; [rewrite Q; simpl|]; now rewrite IH.
Qed.

Lemma flat_map_filter (A B : Type) (q : A -> bool) (f : A -> list B) (l : list A) :
  (forall e, q e = false -> f e = []) ->
  flat_map f (filter q l) = flat_map f l.
Proof.
  intros H. induction l as [|x l IH]; [reflexivity|]. simpl.
  destruct (q x) eqn:Q; simpl; rewrite IH; [reflexivity|].
  now rewrite (H x Q).
Qed.

Lemma llmChars_events_of (t : Events.Table) (sid : string) :
  Events.llmChars (Notions.events_of sid t) sid = Events.llmChars t sid.
Proof.
  unfold Events.llmChars, Notions.events_of.
  now rewrite (filter_and_filter (fun e => String.eqb (Events.session_id e) sid)
                                 Events.is_llm).
Qed.

Lemma countByType_events_of (t : Events.Table) (sid : string) (ty : Events.EventType) :
  Events.countByType (Notions.events_of sid t) sid ty = Events.countByType t sid ty.
Proof.
  unfold Events.countByType, Notions.events_of.
  now rewrite (filter_and_filter (fun e => String.eqb (Events.session_id e) sid)
                 (fun e => Events.EventType_eqb (Events.event_type e) ty)).
Qed.

Lemma errorCount_events_of (t : Events.Table) (sid : string) :
  Events.errorCount (Notions.events_of sid t) sid = Events.errorCount t sid.
Proof.
  unfold Events.errorCount, Notions.events_of.
  now rewrite (filter_and_filter (fun e => String.eqb (Events.session_id e) sid)
                 (fun e => Events.EventType_eqb (Events.event_type e) Events.ERROR)).
Qed.

Lemma uniqueTools_events_of (t : Events.Table) (sid : string) :
  Events.uniqueTools (Notions.events_of sid t) sid = Events.uniqueTools t sid.
Proof.
  unfold Events.uniqueTools, Notions.events_of. f_equal.
  apply flat_map_filter. intros e Q. rewrite Q. now destruct (Events.tool_name e).
Qed.

Lemma toolDurations_events_of (t : Events.Table) (sid : string) :
  Events.toolDurations (Notions.events_of sid t) sid = Events.toolDurations t sid.
Proof.
  unfold Events.toolDurations, Notions.events_of.
  rewrite <- (@filter_Array_sort _ _ by_recorded_at_total by_recorded_at_trans).
  apply flat_map_filter. intros e Q. rewrite Q.
  destruct (Events.tool_name e), (Events.duration_ms e); reflexivity.
Qed.

(** X13.  A session's summary reads the session's own row and the
    session's own events: two stores that agree on these give the same
    summary, whatever else they hold. *)
Theorem buildSessionSummary_isolation (env : Cost.Env) (Date_getTime : string -> Z)
        (db db' : DatabaseClient) (sid : string) :
  Sessions.getById (sessions db) sid = Sessions.getById (sessions db') sid ->
  Notions.events_of sid (events db) = Notions.events_of sid (events db') ->
  Aggregator.buildSessionSummary env Date_getTime db sid
  = Aggregator.buildSessionSummary env Date_getTime db' sid.
Proof.
  intros S E. unfold Aggregator.buildSessionSummary. rewrite S.
  rewrite <- (llmChars_events_of (events db)), <- (llmChars_events_of (events db')).
  rewrite <- (toolDurations_events_of (events db)),
          <- (toolDurations_events_of (events db')).
  rewrite <- (errorCount_events_of (events db)), <- (errorCount_events_of (events db')).
  rewrite <- (uniqueTools_events_of (events db)), <- (uniqueTools_events_of (events db')).
  rewrite <- !(countByType_events_of (events db)), <- !(countByType_events_of (events db')).
  rewrite E. reflexivity.
Qed.

Lemma buildSessionSummary_own_events (env : Cost.Env) (Date_getTime : string -> Z)
      (db : DatabaseClient) (sid : string) :
  Aggregator.buildSessionSummary env Date_getTime db sid
  = Aggregator.buildSessionSummary env Date_getTime
      {| sessions := sessions db;
         events := Notions.events_of sid (events db);
         budget := budget db |} sid.
Proof.
  unfold Aggregator.buildSessionSummary. cbn [sessions events].
  now rewrite llmChars_events_of, toolDurations_events_of, errorCount_events_of,
    uniqueTools_events_of, !countByType_events_of.
Qed.

(** The sample store beside one that holds another session, events of
    that session before and after, and another budget. *)
Lemma buildSessionSummary_isolation_witness :
  let db := Sample.store Sample.no_budget in
  let db' :=
    {| sessions := Sample.session "s0" None :: sessions db;
       events :=
         Sample.event "e0" "s0" Events.TOOL_END (Some "grep"%string) None None (Some 5)
                      None "2026-01-15T09:00:00.000Z"
         :: events db
         ++ [ Sample.event "e7" "s0" Events.LLM_REQUEST None (Some 90000) None None
                           None "2026-01-15T10:00:02.500Z" ];
       budget := Sample.tight_budget |} in
  Sessions.getById (sessions db) "s1" = Sessions.getById (sessions db') "s1" /\
  Notions.events_of "s1" (events db) = Notions.events_of "s1" (events db') /\
  Aggregator.buildSessionSummary Cost.no_env Sample.epoch db "s1"
  = Aggregator.buildSessionSummary Cost.no_env Sample.epoch db' "s1".
Proof.
  cbv zeta. split; [reflexivity|]. split; [reflexivity|].
  apply buildSessionSummary_isolation; reflexivity.
Defined.

(* ----------------------------------------------------------------- *)
(** ** [buildSessionSummary]: how the fields of a summary fit together *)

Lemma computePercentiles_sampleCount (l : list Z) (st : PercentileStats) :
  Latency.computePercentiles l = Some st ->
  sampleCount st = Array_length l /\ 0 < Array_length l.
Proof.
  unfold Latency.computePercentiles. intros H.
  destruct (Z.eqb_spec (Array_length l) 0) as [E|NE]; [discriminate|].
  injection H as <-. cbn [sampleCount]. unfold Array_length in *.
  rewrite Array_sort_length. lia.
Qed.

Lemma computePercentiles_None (l : list Z) :
  Latency.computePercentiles l = None <-> l = [].
Proof.
  unfold Latency.computePercentiles, Array_length. destruct l as [|x l]; simpl.
  - tauto.
  - split; discriminate.
Qed.

Lemma flat_map_length_le (A B : Type) (f : A -> list B) (q : A -> bool) (l : list A) :
  (forall e, (List.length (f e) <= if q e then 1 else 0)%nat) ->
  (List.length (flat_map f l) <= List.length (filter q l))%nat.
Proof.
  intros H. induction l as [|x l IH]; [simpl; lia|].
  simpl. rewrite length_app. specialize (H x).
  destruct (q x); simpl; lia.
Qed.

Lemma toolDurations_count (t : Events.Table) (sid : string) :
  Array_length (Events.toolDurations t sid) <= Events.countByType t sid Events.TOOL_END.
Proof.
  unfold Events.toolDurations, Events.countByType, Array_length.
  apply Nat2Z.inj_le.
  rewrite <- (Permutation_length
                (Permutation_flat_map _ (Array_sort_perm Events.by_recorded_at t))).
  apply flat_map_length_le. intros e.
  destruct (Events.tool_name e), (Events.duration_ms e); simpl; try lia.
  destruct (String.eqb (Events.session_id e) sid
            && Events.EventType_eqb (Events.event_type e) Events.TOOL_END); simpl; lia.
Qed.

(** X14.  In a summary the latency figures, the breakdown and the tool
    call count agree: the overall sample count is the sum of the call
    counts of the breakdown and never exceeds the number of TOOL_END
    events, and the overall latency is missing exactly when the
    breakdown is empty. *)
Theorem summary_counts_agree (env : Cost.Env) (Date_getTime : string -> Z)
        (db : DatabaseClient) (sid : string) (s : SessionSummary) :
  Aggregator.buildSessionSummary env Date_getTime db sid = Some s ->
  match overallLatency s with
  | Some st =>
      sampleCount st = Notions.total_calls (toolBreakdown s) /\
      0 < sampleCount st <= toolCallCount s
  | None => toolBreakdown s = []
  end.
Proof.
  unfold Aggregator.buildSessionSummary.
  destruct (Sessions.getById (sessions db) sid) as [session|]; [|discriminate].
  intros H. injection H as <-. cbn [overallLatency toolBreakdown toolCallCount].
  rewrite breakdown_total_calls.
  pose proof (toolDurations_count (events db) sid) as C.
  set (rows := Events.toolDurations (events db) sid) in *.
  destruct (Latency.computePercentiles (map Events.d_duration_ms rows)) as [st|] eqn:E.
  - apply computePercentiles_sampleCount in E. destruct E as [E P].
    unfold Array_length in *. rewrite !length_map in *. lia.
  - apply computePercentiles_None in E.
    destruct rows; [reflexivity|discriminate].
Qed.

(** The summary of the sample session. *)
Lemma summary_counts_agree_witness :
  exists s,
    Aggregator.buildSessionSummary Cost.no_env Sample.epoch
      (Sample.store Sample.no_budget) "s1" = Some s /\
    match overallLatency s with
    | Some st =>
        sampleCount st = Notions.total_calls (toolBreakdown s) /\
        0 < sampleCount st <= toolCallCount s
    | None => toolBreakdown s = []
    end.
Proof.
  eexists. split; [reflexivity|].
  apply (@summary_counts_agree Cost.no_env Sample.epoch
           (Sample.store Sample.no_budget) "s1"). reflexivity.
Defined.

(** *** The tools of a summary *)

Lemma distinct_In (x : string) (l : list string) :
  In x (Events.distinct l) <-> In x l.
Proof.
  induction l as [|a l IH]; simpl; [tauto|].
  rewrite filter_In, IH.
  destruct (String.eqb_spec a x) as [->|N]; simpl; [tauto|].
  intuition congruence.
Qed.

Lemma distinct_NoDup (l : list string) : NoDup (Events.distinct l).
Proof.
  induction l as [|a l IH]; simpl; constructor.
  - rewrite filter_In, String.eqb_refl. simpl. intros [_ H]. discriminate.
  - now apply NoDup_filter.
Qed.

Lemma toolDurations_names (t : Events.Table) (sid tool : string) :
  In tool (map Events.d_tool_name (Events.toolDurations t sid)) ->
  exists e, In e t /\ Events.tool_name e = Some tool /\ Events.session_id e = sid /\
            Events.event_type e = Events.TOOL_END.
Proof.
  unfold Events.toolDurations. rewrite in_map_iff.
  intros [r [<- Hr]]. apply in_flat_map in Hr. destruct Hr as [e [He Hr]].
  apply (Permutation_in _ (Permutation_sym (Array_sort_perm Events.by_recorded_at t))) in He.
  exists e. destruct (Events.tool_name e) as [name|]; [|contradiction].
  destruct (Events.duration_ms e) as [d|]; [|contradiction].
  destruct (String.eqb_spec (Events.session_id e) sid) as [S|]; [|contradiction].
  destruct (Events.event_type e) eqn:T; simpl in Hr; try contradiction.
  destruct Hr as [<-|[]]. simpl. auto.
Qed.

Lemma uniqueTools_In (t : Events.Table) (sid tool : string) :
  In tool (Events.uniqueTools t sid)
  <-> exists e, In e t /\ Events.tool_name e = Some tool /\ Events.session_id e = sid.
Proof.
  unfold Events.uniqueTools. rewrite distinct_In, in_flat_map. split.
  - intros [e [He Hin]]. exists e.
    destruct (Events.tool_name e) as [name|]; [|contradiction].
    destruct (String.eqb_spec (Events.session_id e) sid) as [S|]; [|contradiction].
    destruct Hin as [<-|[]]. auto.
  - intros [e (He & Hn & Hs)]. exists e. split; [exact He|].
    rewrite Hn, Hs, String.eqb_refl. now left.
Qed.

(** X15.  The tools a summary lists as used are listed once each, they
    are the tools named by the session's events, and every tool of the
    latency breakdown is among them. *)
Theorem summary_tools (env : Cost.Env) (Date_getTime : string -> Z)
        (db : DatabaseClient) (sid : string) (s : SessionSummary) :
  Aggregator.buildSessionSummary env Date_getTime db sid = Some s ->
  NoDup (uniqueToolsUsed s) /\
  (forall tool,
     In tool (uniqueToolsUsed s) <->
     exists e, In e (events db) /\ Events.tool_name e = Some tool /\
               Events.session_id e = sid) /\
  (forall t, In t (toolBreakdown s) -> In (toolName t) (uniqueToolsUsed s)).
Proof.
  unfold Aggregator.buildSessionSummary.
  destruct (Sessions.getById (sessions db) sid) as [session|]; [|discriminate].
  intros H. injection H as <-. cbn [uniqueToolsUsed toolBreakdown].
  split; [apply distinct_NoDup|]. split; [intros tool; apply uniqueTools_In|].
  intros t Ht. apply uniqueTools_In.
  apply (in_map toolName) in Ht. apply breakdown_names in Ht.
  rewrite map_map in Ht. cbn [Latency.tool_name] in Ht.
  apply toolDurations_names in Ht. destruct Ht as [e (He & Hn & Hs & _)].
  exists e. auto.
Qed.

(** The summary of the sample session. *)
Lemma summary_tools_witness :
  exists s,
    Aggregator.buildSessionSummary Cost.no_env Sample.epoch
      (Sample.store Sample.no_budget) "s1" = Some s /\
    NoDup (uniqueToolsUsed s).
Proof.
  eexists. split; [reflexivity|].
  apply (@summary_tools Cost.no_env Sample.epoch
           (Sample.store Sample.no_budget) "s1"). reflexivity.
Defined.

(* ----------------------------------------------------------------- *)
(** ** The statements after one more event *)

Lemma countByType_snoc (t : Events.Table) (e : Events.EventRow) (sid : string)
      (ty : Events.EventType) :
  Events.countByType (t ++ [e]) sid ty
  = Events.countByType t sid ty
    + (if String.eqb (Events.session_id e) sid
          && Events.EventType_eqb (Events.event_type e) ty then 1 else 0).
Proof.
  unfold Events.countByType, Array_length. rewrite filter_app, length_app. simpl.
  destruct (String.eqb (Events.session_id e) sid
            && Events.EventType_eqb (Events.event_type e) ty); simpl; lia.
Qed.

Lemma errorCount_snoc (t : Events.Table) (e : Events.EventRow) (sid : string) :
  Events.errorCount (t ++ [e]) sid
  = Events.errorCount t sid
    + (if String.eqb (Events.session_id e) sid
          && Events.EventType_eqb (Events.event_type e) Events.ERROR then 1 else 0).
Proof. apply (countByType_snoc t e sid Events.ERROR). Qed.

Lemma llmChars_snoc (t : Events.Table) (e : Events.EventRow) (sid : string) :
  Events.is_llm e = false -> Events.llmChars (t ++ [e]) sid = Events.llmChars t sid.
Proof.
  intros H. unfold Events.llmChars. rewrite filter_app. simpl.
  rewrite H, andb_false_r. now rewrite app_nil_r.
Qed.

Lemma uniqueTools_snoc (t : Events.Table) (e : Events.EventRow) (sid : string) :
  Events.tool_name e = None -> Events.uniqueTools (t ++ [e]) sid = Events.uniqueTools t sid.
Proof.
  intros H. unfold Events.uniqueTools. rewrite flat_map_app. simpl.
  rewrite H. now rewrite !app_nil_r.
Qed.

Lemma flat_map_sort_skip (B : Type) (f : Events.EventRow -> list B)
      (t : Events.Table) (e : Events.EventRow) :
  f e = [] ->
  flat_map f (Array_sort Events.by_recorded_at (t ++ [e]))
  = flat_map f (Array_sort Events.by_recorded_at t).
Proof.
  intros H.
  set (q := fun x => match f x with [] => false | _ :: _ => true end).
  assert (Q : forall x, q x = false -> f x = [])
    by (intros x; unfold q; destruct (f x); [reflexivity|discriminate]).
  rewrite <- (flat_map_filter q f (Array_sort Events.by_recorded_at (t ++ [e])) Q).
  rewrite <- (flat_map_filter q f (Array_sort Events.by_recorded_at t) Q).
  rewrite !(@filter_Array_sort _ _ by_recorded_at_total by_recorded_at_trans).
  rewrite filter_app. simpl. unfold q at 2. rewrite H. now rewrite app_nil_r.
Qed.

Lemma toolDurations_snoc (t : Events.Table) (e : Events.EventRow) (sid : string) :
  Events.tool_name e = None -> Events.toolDurations (t ++ [e]) sid = Events.toolDurations t sid.
Proof.
  intros H. unfold Events.toolDurations. apply flat_map_sort_skip. now rewrite H.
Qed.

(* ----------------------------------------------------------------- *)
(** ** [sessions.end] and [sessions.updateModel] *)

Lemma end_ids (t : Sessions.Table) (sid endedAt : string) :
  map Sessions.id (Sessions.end_ t sid endedAt) = map Sessions.id t.
Proof.
  unfold Sessions.end_. rewrite map_map. apply map_ext. intros r.
  now destruct (String.eqb (Sessions.id r) sid).
Qed.

Lemma updateModel_ids (t : Sessions.Table) (sid m : string) :
  map Sessions.id (Sessions.updateModel t sid m) = map Sessions.id t.
Proof.
  unfold Sessions.updateModel. rewrite map_map. apply map_ext. intros r.
  now destruct (String.eqb (Sessions.id r) sid).
Qed.

Lemma getById_end_same (t : Sessions.Table) (sid endedAt : string) :
  Sessions.getById (Sessions.end_ t sid endedAt) sid
  = option_map (fun r => {| Sessions.id := Sessions.id r;
                            Sessions.label := Sessions.label r;
                            Sessions.model := Sessions.model r;
                            Sessions.started_at := Sessions.started_at r;
                            Sessions.ended_at := Some endedAt;
                            Sessions.metadata_json := Sessions.metadata_json r |})
               (Sessions.getById t sid).
Proof.
  unfold Sessions.getById, Sessions.end_.
  induction t as [|r t IH]; [reflexivity|]. simpl.
  destruct (String.eqb (Sessions.id r) sid) eqn:E; simpl; rewrite E; [reflexivity|exact IH].
Qed.

Lemma getById_end_other (t : Sessions.Table) (sid sid' endedAt : string) :
  sid' <> sid ->
  Sessions.getById (Sessions.end_ t sid endedAt) sid' = Sessions.getById t sid'.
Proof.
  intros N. unfold Sessions.getById, Sessions.end_.
  induction t as [|r t IH]; [reflexivity|]. simpl.
  destruct (String.eqb_spec (Sessions.id r) sid) as [E|E]; simpl.
  - destruct (String.eqb_spec (Sessions.id r) sid') as [E'|E']; [congruence|exact IH].
  - destruct (String.eqb (Sessions.id r) sid'); [reflexivity|exact IH].
Qed.

Lemma getById_updateModel_same (t : Sessions.Table) (sid m : string) :
  Sessions.getById (Sessions.updateModel t sid m) sid
  = option_map (fun r => {| Sessions.id := Sessions.id r;
                            Sessions.label := Sessions.label r;
                            Sessions.model := Some m;
                            Sessions.started_at := Sessions.started_at r;
                            Sessions.ended_at := Sessions.ended_at r;
                            Sessions.metadata_json := Sessions.metadata_json r |})
               (Sessions.getById t sid).
Proof.
  unfold Sessions.getById, Sessions.updateModel.
  induction t as [|r t IH]; [reflexivity|]. simpl.
  destruct (String.eqb (Sessions.id r) sid) eqn:E; simpl; rewrite E; [reflexivity|exact IH].
Qed.

Lemma getById_updateModel_other (t : Sessions.Table) (sid sid' m : string) :
  sid' <> sid ->
  Sessions.getById (Sessions.updateModel t sid m) sid' = Sessions.getById t sid'.
Proof.
  intros N. unfold Sessions.getById, Sessions.updateModel.
  induction t as [|r t IH]; [reflexivity|]. simpl.
  destruct (String.eqb_spec (Sessions.id r) sid) as [E|E]; simpl.
  - destruct (String.eqb_spec (Sessions.id r) sid') as [E'|E']; [congruence|exact IH].
  - destruct (String.eqb (Sessions.id r) sid'); [reflexivity|exact IH].
Qed.

Lemma getById_Some (t : Sessions.Table) (sid : string) (r : Sessions.SessionRow) :
  Sessions.getById t sid = Some r -> In r t /\ Sessions.id r = sid.
Proof.
  unfold Sessions.getById. intros H. apply find_some in H.
  destruct H as [I E]. apply String.eqb_eq in E. auto.
Qed.

Lemma getById_None (t : Sessions.Table) (sid : string) :
  Sessions.getById t sid = None <-> ~ In sid (map Sessions.id t).
Proof.
  unfold Sessions.getById. induction t as [|r t IH]; simpl; [tauto|].
  destruct (String.eqb_spec (Sessions.id r) sid) as [E|E].
  - split; [discriminate|]. intros H. exfalso. apply H. now left.
  - rewrite IH. tauto.
Qed.

Lemma existsb_id (t : Sessions.Table) (sid : string) :
  existsb (fun s => String.eqb (Sessions.id s) sid) t = true
  <-> In sid (map Sessions.id t).
Proof.
  rewrite existsb_exists, in_map_iff. split.
  - intros [r [I E]]. apply String.eqb_eq in E. eauto.
  - intros [r [E I]]. exists r. split; [exact I|]. now apply String.eqb_eq.
Qed.

Lemma existsb_event_id (t : Events.Table) (eid : string) :
  existsb (fun e => String.eqb (Events.id e) eid) t = true
  <-> In eid (map Events.id t).
Proof.
  rewrite existsb_exists, in_map_iff. split.
  - intros [r [I E]]. apply String.eqb_eq in E. eauto.
  - intros [r [E I]]. exists r. split; [exact I|]. now apply String.eqb_eq.
Qed.

(* ----------------------------------------------------------------- *)
(** ** [handleEndSession]: the replies and the reported summary *)

Section EndSessionReplies.
Variable env : Cost.Env.
Variable Date_getTime : string -> Z.
Variables now eventId sid : string.
Variable db : DatabaseClient.

Local Abbreviation call := (EndSession.handleEndSession env Date_getTime now eventId sid db).

Lemma handleEndSession_cases :
  call =
  match Sessions.getById (sessions db) sid with
  | None => (EndSession.NotFound sid, db)
  | Some r =>
      if truthy_string (Sessions.ended_at r)
      then (EndSession.AlreadyEnded sid (nullish (Sessions.ended_at r) EmptyString), db)
      else if existsb (fun e => String.eqb (Events.id e) eventId) (events db)
      then (EndSession.Raised, db)
      else
        let db' :=
          {| sessions := Sessions.end_ (sessions db) sid now;
             events := events db ++
               [ {| Events.id := eventId; Events.session_id := sid;
                    Events.event_type := Events.SESSION_END;
                    Events.tool_name := None; Events.model := None;
                    Events.prompt_chars := None; Events.response_chars := None;
                    Events.duration_ms := None; Events.error_message := None;
                    Events.metadata_json := "{}"%string;
                    Events.recorded_at := now |} ];
             budget := budget db |} in
        (EndSession.Ended (Aggregator.buildSessionSummary env Date_getTime db' sid), db')
  end.
Proof.
  unfold EndSession.handleEndSession.
  destruct (Sessions.getById (sessions db) sid) as [r|] eqn:G; [|reflexivity].
  destruct (truthy_string (Sessions.ended_at r)); [reflexivity|].
  unfold transaction, EndSession.end_and_log, Events.insert.
  cbn [Events.p_id Events.p_sessionId Events.p_eventType Events.p_toolName Events.p_model
       Events.p_promptChars Events.p_responseChars Events.p_durationMs
       Events.p_errorMessage Events.p_metadata Events.p_recordedAt nullish].
  destruct (existsb _ (events db)); [reflexivity|].
  assert (I : existsb (fun s => String.eqb (Sessions.id s) sid)
                      (Sessions.end_ (sessions db) sid now) = true).
  { apply existsb_id. rewrite end_ids.
    destruct (getById_Some _ _ G) as [I E]. rewrite <- E. now apply in_map. }
  rewrite I. reflexivity.
Qed.

(** X16.  [handleEndSession] answers that the session is not found
    exactly when no session has the id, that it was already ended exactly
    when the session has a non-empty end timestamp, and it fails exactly
    when the session is open and the new event id is taken.  Unless it
    answers with a summary, the store is left as it was. *)
Theorem handleEndSession_replies :
  (fst call = EndSession.NotFound sid <-> ~ In sid (map Sessions.id (sessions db))) /\
  (forall t, fst call = EndSession.AlreadyEnded sid t <->
             t <> EmptyString /\
             option_map Sessions.ended_at (Sessions.getById (sessions db) sid)
             = Some (Some t)) /\
  (fst call = EndSession.Raised <->
   (exists r, Sessions.getById (sessions db) sid = Some r /\
              truthy_string (Sessions.ended_at r) = false) /\
   In eventId (map Events.id (events db))) /\
  ((forall summary, fst call <> EndSession.Ended summary) -> snd call = db).
Proof.
  rewrite handleEndSession_cases. rewrite <- getById_None, <- existsb_event_id.
  destruct (Sessions.getById (sessions db) sid) as [r|] eqn:G.
  - destruct (truthy_string (Sessions.ended_at r)) eqn:T.
    + cbn [fst snd option_map].
      assert (E : exists t0, Sessions.ended_at r = Some t0 /\ t0 <> EmptyString).
      { destruct (Sessions.ended_at r) as [t0|]; [|discriminate]. exists t0.
        split; [reflexivity|]. cbn in T. apply String.eqb_neq.
        now destruct (String.eqb t0 EmptyString). }
      destruct E as (t0 & E & NZ). rewrite E. cbn [nullish].
      split; [split; discriminate|].
      split; [intros t; split|].
      * intros H. injection H as <-. auto.
      * intros [_ H]. injection H as <-. reflexivity.
      * split; [|reflexivity]. split; [discriminate|].
        intros [[r' [R T']] _]. injection R as <-. congruence.
    + destruct (existsb _ (events db)) eqn:X; cbv zeta; cbn [fst snd option_map].
      * split; [split; discriminate|].
        split; [intros t; split; [discriminate|]|].
        -- intros [NZ H]. injection H as H. rewrite H in T. cbn in T.
           apply String.eqb_neq in NZ. rewrite NZ in T. discriminate.
        -- split; [|reflexivity]. split; [|reflexivity].
           intros _. split; [|reflexivity]. exists r. auto.
      * split; [split; discriminate|].
        split; [intros t; split; [discriminate|]|].
        -- intros [NZ H]. injection H as H. rewrite H in T. cbn in T.
           apply String.eqb_neq in NZ. rewrite NZ in T. discriminate.
        -- split; [split; [discriminate|intros [_ H]; discriminate]|].
           intros H. exfalso. eapply H. reflexivity.
  - cbn [fst snd option_map].
    split; [tauto|]. split; [intros t; split; [discriminate|intros [_ H]; discriminate]|].
    split; [|reflexivity]. split; [discriminate|]. intros [[r [R _]] _]. discriminate.
Qed.

(** X17.  When [handleEndSession] ends a session, the summary it
    reports is the summary the session had before the call with the end
    timestamp and the duration filled in: the closing event changes no
    count, no cost and no latency figure. *)
Theorem handleEndSession_reports_summary (summary : option SessionSummary) :
  now <> EmptyString ->
  fst call = EndSession.Ended summary ->
  exists before after,
    Aggregator.buildSessionSummary env Date_getTime db sid = Some before /\
    summary = Some after /\
    endedAt after = Some now /\
    durationMs after
    = (if truthy_string (Some (startedAt before))
       then Some (Date_getTime now - Date_getTime (startedAt before)) else None) /\
    sessionId after = sessionId before /\
    label after = label before /\
    startedAt after = startedAt before /\
    toolCallCount after = toolCallCount before /\
    llmRequestCount after = llmRequestCount before /\
    errorCount after = errorCount before /\
    uniqueToolsUsed after = uniqueToolsUsed before /\
    cost after = cost before /\
    overallLatency after = overallLatency before /\
    toolBreakdown after = toolBreakdown before.
Proof.
  intros NZ. rewrite handleEndSession_cases.
  unfold Aggregator.buildSessionSummary at 2.
  destruct (Sessions.getById (sessions db) sid) as [r|] eqn:G; [|discriminate].
  destruct (truthy_string (Sessions.ended_at r)); [discriminate|].
  destruct (existsb _ (events db)); [discriminate|].
  cbv zeta. cbn [fst]. intros H. injection H as <-.
  unfold Aggregator.buildSessionSummary. cbn [sessions events].
  rewrite getById_end_same, G. cbn [option_map].
  rewrite llmChars_snoc, toolDurations_snoc, uniqueTools_snoc, errorCount_snoc,
    !countByType_snoc by reflexivity.
  cbn [Events.session_id Events.event_type Events.EventType_eqb].
  rewrite !andb_false_r, !Z.add_0_r.
  eexists. eexists. split; [reflexivity|]. split; [reflexivity|].
  cbn [endedAt durationMs sessionId label startedAt toolCallCount llmRequestCount
       errorCount uniqueToolsUsed cost overallLatency toolBreakdown
       Sessions.id Sessions.label Sessions.started_at Sessions.ended_at nullish].
  assert (T : truthy_string (Some now) = true).
  { cbn. apply String.eqb_neq in NZ. now rewrite NZ. }
  rewrite T, andb_true_r.
  repeat (split; [reflexivity|]). reflexivity.
Qed.
End EndSessionReplies.

(** The session of the sample store is ended. *)
Lemma handleEndSession_reports_summary_witness :
  let db := Sample.store Sample.no_budget in
  let call := EndSession.handleEndSession Cost.no_env Sample.epoch
                "2026-01-15T10:05:00.000Z" "evt_a" "s1" db in
  exists summary before after,
    "2026-01-15T10:05:00.000Z"%string <> EmptyString /\
    fst call = EndSession.Ended summary /\
    Aggregator.buildSessionSummary Cost.no_env Sample.epoch db "s1" = Some before /\
    summary = Some after /\
    toolCallCount after = toolCallCount before.
Proof.
  cbv zeta.
  assert (N : "2026-01-15T10:05:00.000Z"%string <> EmptyString) by discriminate.
  destruct (@handleEndSession_reports_summary Cost.no_env Sample.epoch
              "2026-01-15T10:05:00.000Z" "evt_a" "s1" (Sample.store Sample.no_budget)
              _ N eq_refl) as (before & after & B & A & _ & _ & _ & _ & _ & T & _).
  eexists. exists before, after.
  split; [exact N|]. split; [reflexivity|]. split; [exact B|]. split; [exact A|exact T].
Defined.

(* ----------------------------------------------------------------- *)
(** ** The inserts and the constraints of the schema *)

Lemma Events_insert_Some (ss : Sessions.Table) (t t' : Events.Table)
      (p : Events.InsertParams) :
  Events.insert ss t p = Some t' ->
  ~ In (Events.p_id p) (map Events.id t) /\
  In (Events.p_sessionId p) (map Sessions.id ss) /\
  exists e, t' = t ++ [e] /\
            Events.id e = Events.p_id p /\
            Events.session_id e = Events.p_sessionId p /\
            Events.event_type e = Events.p_eventType p /\
            Events.tool_name e = Events.p_toolName p /\
            Events.metadata_json e = nullish (Events.p_metadata p) "{}"%string.
Proof.
  unfold Events.insert.
  destruct (existsb _ t) eqn:X; [discriminate|].
  destruct (existsb _ ss) eqn:Y; [|discriminate]. cbn [negb].
  intros H. injection H as <-.
  split; [rewrite <- existsb_event_id; congruence|].
  split; [now apply existsb_id|].
  eexists. split; [reflexivity|]. cbn. auto.
Qed.

Lemma Events_insert_None (ss : Sessions.Table) (t : Events.Table)
      (p : Events.InsertParams) :
  Events.insert ss t p = None <->
  In (Events.p_id p) (map Events.id t) \/ ~ In (Events.p_sessionId p) (map Sessions.id ss).
Proof.
  unfold Events.insert. rewrite <- existsb_event_id, <- existsb_id.
  destruct (existsb _ t); [intuition|].
  destruct (existsb _ ss); cbn [negb]; split; try discriminate; intuition congruence.
Qed.

Lemma Sessions_insert_Some (t t' : Sessions.Table) (p : SessionStmts.InsertParams) :
  SessionStmts.insert t p = Some t' ->
  ~ In (SessionStmts.p_id p) (map Sessions.id t) /\
  t' = t ++ [ {| Sessions.id := SessionStmts.p_id p;
                 Sessions.label := SessionStmts.p_label p;
                 Sessions.model := SessionStmts.p_model p;
                 Sessions.started_at := SessionStmts.p_startedAt p;
                 Sessions.ended_at := None;
                 Sessions.metadata_json :=
                   nullish (SessionStmts.p_metadata p) "{}"%string |} ].
Proof.
  unfold SessionStmts.insert. destruct (existsb _ t) eqn:X; [discriminate|].
  intros H. injection H as <-. split; [|reflexivity].
  rewrite <- existsb_id. congruence.
Qed.

Lemma Sessions_insert_None (t : Sessions.Table) (p : SessionStmts.InsertParams) :
  SessionStmts.insert t p = None <-> In (SessionStmts.p_id p) (map Sessions.id t).
Proof.
  unfold SessionStmts.insert. rewrite <- existsb_id.
  destruct (existsb _ t); split; try discriminate; auto.
Qed.

Lemma NoDup_snoc (A : Type) (l : list A) (x : A) :
  NoDup l -> ~ In x l -> NoDup (l ++ [x]).
Proof.
  intros ND NI. apply NoDup_rev in ND. rewrite <- (rev_involutive (l ++ [x])).
  apply NoDup_rev. rewrite rev_app_distr. simpl. constructor; [|exact ND].
  now rewrite <- in_rev.
Qed.

(** A store that differs in the session fields other than [id]. *)
Lemma well_formed_same_ids (db : DatabaseClient) (ss : Sessions.Table)
      (b : Budget.BudgetRow) :
  map Sessions.id ss = map Sessions.id (sessions db) ->
  Notions.well_formed db ->
  Notions.well_formed {| sessions := ss; events := events db; budget := b |}.
Proof.
  unfold Notions.well_formed. cbn [sessions events]. intros ->. tauto.
Qed.

(** A store with one more event. *)
Lemma well_formed_event (db : DatabaseClient) (evs : Events.Table)
      (p : Events.InsertParams) :
  Events.insert (sessions db) (events db) p = Some evs ->
  Notions.well_formed db ->
  Notions.well_formed {| sessions := sessions db; events := evs; budget := budget db |}.
Proof.
  intros H (NS & NE & FK). apply Events_insert_Some in H.
  destruct H as (Fresh & Known & e & -> & Ei & Es & _).
  unfold Notions.well_formed. cbn [sessions events].
  split; [exact NS|]. split.
  - rewrite map_app. simpl. apply NoDup_snoc; [exact NE|]. now rewrite Ei.
  - apply Forall_app. split; [exact FK|]. constructor; [|constructor]. now rewrite Es.
Qed.

Lemma getById_app (t t' : Sessions.Table) (sid : string) :
  Sessions.getById (t ++ t') sid
  = match Sessions.getById t sid with
    | Some r => Some r
    | None => Sessions.getById t' sid
    end.
Proof.
  unfold Sessions.getById. induction t as [|r t IH]; [reflexivity|]. simpl.
  destruct (String.eqb (Sessions.id r) sid); [reflexivity|exact IH].
Qed.

Lemma store_eta (db : DatabaseClient) :
  {| sessions := sessions db; events := events db; budget := budget db |} = db.
Proof. now destruct db. Qed.

(* ----------------------------------------------------------------- *)
(** ** [handleStartSession] *)

Section StartSessionFacts.
Variable env : Cost.Env.
Variable Date_getTime : string -> Z.
Variables sessionId eventId now : string.
Variable input : StartSession.Input.
Variable db : DatabaseClient.

Local Abbreviation started :=
  (StartSession.handleStartSession sessionId eventId now input db).

Local Abbreviation new_session :=
  {| Sessions.id := sessionId;
     Sessions.label := StartSession.label input;
     Sessions.model := StartSession.model input;
     Sessions.started_at := now;
     Sessions.ended_at := None;
     Sessions.metadata_json := nullish (StartSession.metadata input) "{}"%string |}.

Local Abbreviation start_event :=
  {| Events.id := eventId; Events.session_id := sessionId;
     Events.event_type := Events.SESSION_START;
     Events.tool_name := None; Events.model := StartSession.model input;
     Events.prompt_chars := None; Events.response_chars := None;
     Events.duration_ms := None; Events.error_message := None;
     Events.metadata_json := nullish (StartSession.metadata input) "{}"%string;
     Events.recorded_at := now |}.

Lemma handleStartSession_cases :
  started =
  if existsb (fun s => String.eqb (Sessions.id s) sessionId) (sessions db)
     || existsb (fun e => String.eqb (Events.id e) eventId) (events db)
  then (StartSession.Raised, db)
  else (StartSession.Started sessionId (StartSession.label input) (StartSession.model input),
        {| sessions := sessions db ++ [new_session];
           events := events db ++ [start_event];
           budget := budget db |}).
Proof.
  unfold StartSession.handleStartSession, transaction, StartSession.insert_both,
    SessionStmts.insert, Events.insert.
  cbn [SessionStmts.p_id SessionStmts.p_label SessionStmts.p_model SessionStmts.p_startedAt
       SessionStmts.p_metadata
       Events.p_id Events.p_sessionId Events.p_eventType Events.p_toolName Events.p_model
       Events.p_promptChars Events.p_responseChars Events.p_durationMs
       Events.p_errorMessage Events.p_metadata Events.p_recordedAt].
  destruct (existsb _ (sessions db)); [reflexivity|]. cbn [orb].
  destruct (existsb _ (events db)); [reflexivity|].
  rewrite existsb_app. cbn [existsb Sessions.id]. rewrite String.eqb_refl.
  rewrite orb_true_r. reflexivity.
Qed.

(** X18.  [handleStartSession] fails exactly when the new session id
    or the new event id is taken, and then the store is as before: the
    session row is not kept without its event.  Otherwise it appends one
    open session with the label and model of the input and one
    SESSION_START event of that session, and touches nothing else. *)
Theorem handleStartSession_replies :
  (fst started = StartSession.Raised <->
   In sessionId (map Sessions.id (sessions db)) \/ In eventId (map Events.id (events db))) /\
  (fst started = StartSession.Raised -> snd started = db) /\
  (fst started <> StartSession.Raised ->
   fst started
   = StartSession.Started sessionId (StartSession.label input) (StartSession.model input) /\
   sessions (snd started) = sessions db ++ [new_session] /\
   events (snd started) = events db ++ [start_event] /\
   budget (snd started) = budget db /\
   Sessions.getById (sessions (snd started)) sessionId = Some new_session).
Proof.
  rewrite handleStartSession_cases. rewrite <- existsb_id, <- existsb_event_id.
  destruct (existsb _ (sessions db)) eqn:X; cbn [orb].
  - cbn [fst snd]. split; [tauto|]. split; [reflexivity|]. intros H. now elim H.
  - destruct (existsb _ (events db)) eqn:Y.
    + cbn [fst snd]. split; [tauto|]. split; [reflexivity|]. intros H. now elim H.
    + cbn [fst snd sessions events budget].
      split; [split; [discriminate|intros [H|H]; discriminate]|].
      split; [discriminate|]. intros _.
      repeat (split; [reflexivity|]).
      rewrite getById_app.
      assert (N : Sessions.getById (sessions db) sessionId = None).
      { apply getById_None. rewrite <- existsb_id. congruence. }
      rewrite N. unfold Sessions.getById. cbn. now rewrite String.eqb_refl.
Qed.
End StartSessionFacts.

Section FreshSession.
Variable env : Cost.Env.
Variable Date_getTime : string -> Z.
Variables sid eventId now : string.
Variable input : StartSession.Input.
Variable db : DatabaseClient.

Lemma events_of_unknown :
  Notions.well_formed db -> ~ In sid (map Sessions.id (sessions db)) ->
  Notions.events_of sid (events db) = [].
Proof.
  intros (_ & _ & FK) N. unfold Notions.events_of.
  induction (events db) as [|e t IH]; [reflexivity|].
  inversion FK as [|? ? He Ht]; subst. simpl.
  destruct (String.eqb_spec (Events.session_id e) sid) as [E|_]; [|now apply IH].
  exfalso. apply N. now rewrite <- E.
Qed.

(** X19.  In a store that satisfies the constraints of the schema, the
    session [handleStartSession] has just started has a summary, and the
    summary shows a session under the input's label that started at the
    call's timestamp, is still open and has seen nothing: no tool call,
    no LLM request, no error, no tool, no token, no cost and no latency
    figure. *)
Theorem fresh_session_summary :
  Notions.well_formed db ->
  fst (StartSession.handleStartSession sid eventId now input db) <> StartSession.Raised ->
  exists s,
    Aggregator.buildSessionSummary env Date_getTime
      (snd (StartSession.handleStartSession sid eventId now input db)) sid = Some s /\
    sessionId s = sid /\ label s = StartSession.label input /\
    startedAt s = now /\ endedAt s = None /\ durationMs s = None /\
    toolCallCount s = 0 /\ llmRequestCount s = 0 /\ errorCount s = 0 /\
    uniqueToolsUsed s = [] /\
    estimatedTotalTokens (cost s) = 0 /\ (totalCostUsd (cost s) == 0)%Q /\
    modelUsed (cost s) = None /\
    overallLatency s = None /\ toolBreakdown s = [].
Proof.
  intros WF. rewrite handleStartSession_cases.
  destruct (existsb _ (sessions db)) eqn:X; cbn [orb fst snd]; [intros H; now elim H|].
  destruct (existsb _ (events db)) eqn:Y; cbn [fst snd]; [intros H; now elim H|].
  intros _.
  assert (N : ~ In sid (map Sessions.id (sessions db)))
    by (rewrite <- existsb_id; congruence).
  rewrite buildSessionSummary_own_events. cbn [sessions events budget].
  unfold Notions.events_of at 1. rewrite filter_app.
  fold (Notions.events_of sid (events db)). rewrite (events_of_unknown WF N).
  cbn [filter Events.session_id app]. rewrite String.eqb_refl.
  unfold Aggregator.buildSessionSummary. cbn [sessions events].
  rewrite getById_app, (proj2 (getById_None (sessions db) sid) N).
  unfold Sessions.getById. cbn [find Sessions.id]. rewrite String.eqb_refl.
  eexists. split; [reflexivity|].
  cbn [sessionId label startedAt endedAt durationMs toolCallCount llmRequestCount
       errorCount uniqueToolsUsed cost overallLatency toolBreakdown
       Sessions.id Sessions.label Sessions.started_at Sessions.ended_at
       truthy_string andb].
  rewrite andb_false_r.
  unfold Events.countByType, Events.errorCount, Events.uniqueTools, Events.llmChars,
    Events.toolDurations, Events.is_llm.
  cbn [filter Events.session_id Events.event_type Events.EventType_eqb Events.tool_name
       flat_map Array_sort fold_right sort_insert app map Events.distinct orb].
  rewrite !andb_false_r. cbn [Array_length List.length Z.of_nat map].
  repeat (split; [reflexivity|]).
  split; [|split; [reflexivity|split; reflexivity]].
  unfold Cost.computeCost. cbn [totalCostUsd Cost.scanRows fold_left
    Cost.totalPromptChars Cost.totalResponseChars].
  rewrite estimateTokens_zero. unfold Cost.roundUsd.
  rewrite (@Math_round_zero ((inject_Z 0 / 1000000 * _ + inject_Z 0 / 1000000 * _) * 1000000)).
  - reflexivity.
  - unfold Qdiv. change (inject_Z 0) with 0%Q. ring.
Qed.
End FreshSession.

(** A second session is started in the sample store. *)
Lemma fresh_session_summary_witness :
  let input := {| StartSession.label := Some "nightly"%string;
                  StartSession.model := Some "gemini-2.5-flash"%string;
                  StartSession.metadata := None |} in
  let started := StartSession.handleStartSession "s2" "e7" "2026-01-15T11:00:00.000Z"
                   input (Sample.store Sample.no_budget) in
  Notions.well_formed (Sample.store Sample.no_budget) /\
  fst started <> StartSession.Raised /\
  exists s,
    Aggregator.buildSessionSummary Cost.no_env Sample.epoch (snd started) "s2" = Some s /\
    toolCallCount s = 0.
Proof.
  cbv zeta.
  assert (WF : Notions.well_formed (Sample.store Sample.no_budget)).
  { unfold Notions.well_formed. cbn.
    split; [|split].
    - repeat constructor; simpl; intuition discriminate.
    - repeat constructor; simpl; intuition discriminate.
    - repeat constructor. }
  assert (OK : fst (StartSession.handleStartSession "s2" "e7" "2026-01-15T11:00:00.000Z"
                      {| StartSession.label := Some "nightly"%string;
                         StartSession.model := Some "gemini-2.5-flash"%string;
                         StartSession.metadata := None |}
                      (Sample.store Sample.no_budget)) <> StartSession.Raised)
    by (vm_compute; discriminate).
  split; [exact WF|]. split; [exact OK|].
  destruct (@fresh_session_summary Cost.no_env Sample.epoch "s2" "e7"
              "2026-01-15T11:00:00.000Z" _ _ WF OK) as (s & B & _ & _ & _ & _ & _ & T & _).
  exists s. split; [exact B|exact T].
Defined.

(* ----------------------------------------------------------------- *)
(** ** [handleRecordEvent] *)

Section RecordEventFacts.
Variable env : Cost.Env.
Variable Date_getTime : string -> Z.
Variable today : string.
Variable warning_json : BudgetWarning -> string.
Variables now eventId warnedAt warningId : string.
Variable input : RecordEventTool.Input.
Variable db : DatabaseClient.

Local Abbreviation sid := (RecordEventTool.session_id input).

Local Abbreviation recorded :=
  (RecordEventTool.handleRecordEvent env today warning_json now eventId warnedAt warningId
     input db).

Local Abbreviation new_event :=
  {| Events.id := eventId; Events.session_id := sid;
     Events.event_type := RecordEventTool.event_type input;
     Events.tool_name := RecordEventTool.tool_name input;
     Events.model := RecordEventTool.model input;
     Events.prompt_chars := RecordEventTool.prompt_chars input;
     Events.response_chars := RecordEventTool.response_chars input;
     Events.duration_ms := RecordEventTool.duration_ms input;
     Events.error_message := RecordEventTool.error_message input;
     Events.metadata_json := nullish (RecordEventTool.metadata input) "{}"%string;
     Events.recorded_at := now |}.

Local Abbreviation warning_event w :=
  {| Events.id := warningId; Events.session_id := sid;
     Events.event_type := Events.BUDGET_WARNING;
     Events.tool_name := None; Events.model := None;
     Events.prompt_chars := None; Events.response_chars := None;
     Events.duration_ms := None; Events.error_message := None;
     Events.metadata_json := warning_json w;
     Events.recorded_at := warnedAt |}.

(** The store after the event is inserted and the model is updated. *)
Local Abbreviation after_insert session :=
  {| sessions :=
       if truthy_string (RecordEventTool.model input)
          && negb (truthy_string (Sessions.model session))
       then Sessions.updateModel (sessions db) sid
              (nullish (RecordEventTool.model input) EmptyString)
       else sessions db;
     events := events db ++ [new_event];
     budget := budget db |}.

Lemma handleRecordEvent_cases :
  recorded =
  match Sessions.getById (sessions db) sid with
  | None => (RecordEventTool.NotFound sid, db)
  | Some session =>
      if existsb (fun e => String.eqb (Events.id e) eventId) (events db)
      then (RecordEventTool.Raised, db)
      else
        let db2 := after_insert session in
        let plain :=
          (RecordEventTool.Recorded (RecordEventTool.event_type input)
             (RecordEventTool.tool_name input) (RecordEventTool.duration_ms input), db2) in
        if RecordEventTool.checks_budget (RecordEventTool.event_type input) then
          match fst (checkBudget env today sid db2) with
          | Some w =>
              if existsb (fun e => String.eqb (Events.id e) warningId) (events db)
                 || String.eqb eventId warningId
              then (RecordEventTool.Raised, db2)
              else (RecordEventTool.BudgetWarned w,
                    {| sessions := sessions db2;
                       events := events db ++ [new_event; warning_event w];
                       budget := budget db |})
          | None => plain
          end
        else plain
  end.
Proof.
  unfold RecordEventTool.handleRecordEvent.
  destruct (Sessions.getById (sessions db) sid) as [session|] eqn:G; [|reflexivity].
  assert (I : In sid (map Sessions.id (sessions db))).
  { destruct (getById_Some _ _ G) as [I E]. rewrite <- E. now apply in_map. }
  unfold Events.insert at 1.
  cbn [Events.p_id Events.p_sessionId Events.p_eventType Events.p_toolName Events.p_model
       Events.p_promptChars Events.p_responseChars Events.p_durationMs
       Events.p_errorMessage Events.p_metadata Events.p_recordedAt].
  destruct (existsb _ (events db)) eqn:X; [reflexivity|].
  rewrite (proj2 (existsb_id (sessions db) sid) I). cbn [negb].
  assert (I2 : existsb (fun s => String.eqb (Sessions.id s) sid)
                 (Sessions.updateModel (sessions db) sid
                    (nullish (RecordEventTool.model input) EmptyString)) = true)
    by (apply existsb_id; now rewrite updateModel_ids).
  pose proof (proj2 (existsb_id (sessions db) sid) I) as I1.
  destruct (truthy_string (RecordEventTool.model input)
            && negb (truthy_string (Sessions.model session)));
    cbv zeta; cbn [sessions events budget];
    (destruct (RecordEventTool.checks_budget _); [|reflexivity]);
    (destruct (fst (checkBudget env today sid _)) as [w|]; [|reflexivity]);
    unfold Events.insert;
    cbn [Events.p_id Events.p_sessionId Events.p_eventType Events.p_toolName Events.p_model
         Events.p_promptChars Events.p_responseChars Events.p_durationMs
         Events.p_errorMessage Events.p_metadata Events.p_recordedAt nullish];
    rewrite existsb_app; cbn [existsb Events.id]; rewrite orb_false_r;
    (destruct (existsb _ (events db) || String.eqb eventId warningId); [reflexivity|]);
    rewrite ?I1, ?I2; cbn [negb]; rewrite <- app_assoc; reflexivity.
Qed.

(** X20.  Whatever it answers, [handleRecordEvent] only appends to the
    event log, at most two events and only events of the session named
    in the input; it adds and removes no session, leaves every other
    session's row as it is and never touches the budget.  It answers that
    the session is not found exactly when no session has the id, and
    then appends nothing. *)
Theorem handleRecordEvent_appends :
  (exists added,
     events (snd recorded) = events db ++ added /\
     (List.length added <= 2)%nat /\
     Forall (fun e => Events.session_id e = sid) added /\
     (fst recorded = RecordEventTool.NotFound sid -> added = [])) /\
  (fst recorded = RecordEventTool.NotFound sid
   <-> ~ In sid (map Sessions.id (sessions db))) /\
  map Sessions.id (sessions (snd recorded)) = map Sessions.id (sessions db) /\
  (forall other, other <> sid ->
     Sessions.getById (sessions (snd recorded)) other
     = Sessions.getById (sessions db) other) /\
  budget (snd recorded) = budget db.
Proof.
  rewrite handleRecordEvent_cases. rewrite <- getById_None.
  destruct (Sessions.getById (sessions db) sid) as [session|] eqn:G.
  2:{ cbn [fst snd]. split; [exists []; rewrite app_nil_r; auto|].
      split; [tauto|]. auto. }
  assert (S2 : forall ss,
             ss = (if truthy_string (RecordEventTool.model input)
                      && negb (truthy_string (Sessions.model session))
                   then Sessions.updateModel (sessions db) sid
                          (nullish (RecordEventTool.model input) EmptyString)
                   else sessions db) ->
             map Sessions.id ss = map Sessions.id (sessions db) /\
             forall other, other <> sid ->
               Sessions.getById ss other = Sessions.getById (sessions db) other).
  { intros ss ->. destruct (_ && _).
    - split; [apply updateModel_ids|]. intros other N. now apply getById_updateModel_other.
    - auto. }
  destruct (existsb _ (events db)).
  { cbn [fst snd]. split; [exists []; rewrite app_nil_r; repeat split; auto|].
    split; [split; discriminate|]. auto. }
  cbv zeta.
  destruct (RecordEventTool.checks_budget _);
    [destruct (fst (checkBudget env today sid _)) as [w|];
       [destruct (existsb _ (events db) || String.eqb eventId warningId)|]|];
    cbn [fst snd sessions events budget];
    (split; [eexists; split; [reflexivity|];
             split; [simpl; lia|]; split; [repeat constructor|discriminate]|]);
    (split; [split; [discriminate|intros H; discriminate]|]);
    destruct (S2 _ eq_refl) as [S2a S2b]; auto.
Qed.

(** X21.  A session's model is written at most once: when the session
    already has a model, or the input names none, [handleRecordEvent]
    leaves every session row as it is; when the session has none and the
    input names one, the session has the input's model afterwards,
    provided the event could be inserted. *)
Theorem handleRecordEvent_model (session : Sessions.SessionRow) :
  Sessions.getById (sessions db) sid = Some session ->
  (truthy_string (Sessions.model session) = true \/
   truthy_string (RecordEventTool.model input) = false ->
   sessions (snd recorded) = sessions db) /\
  (truthy_string (Sessions.model session) = false ->
   truthy_string (RecordEventTool.model input) = true ->
   ~ In eventId (map Events.id (events db)) ->
   option_map Sessions.model (Sessions.getById (sessions (snd recorded)) sid)
   = Some (RecordEventTool.model input)).
Proof.
  intros G. rewrite handleRecordEvent_cases, G. split.
  - intros H.
    assert (C : truthy_string (RecordEventTool.model input)
                && negb (truthy_string (Sessions.model session)) = false).
    { destruct H as [H|H]; rewrite H; [apply andb_false_r|reflexivity]. }
    rewrite C. cbv zeta.
    repeat match goal with
           | |- context [if ?x then _ else _] => destruct x
           | |- context [match ?x with Some _ => _ | None => _ end] => destruct x
           end; reflexivity.
  - intros M I N. rewrite <- existsb_event_id in N.
    apply not_true_is_false in N. rewrite N, M, I. cbn [andb negb]. cbv zeta.
    assert (R : option_map Sessions.model
                  (Sessions.getById
                     (Sessions.updateModel (sessions db) sid
                        (nullish (RecordEventTool.model input) EmptyString)) sid)
                = Some (RecordEventTool.model input)).
    { rewrite getById_updateModel_same, G. cbn.
      destruct (RecordEventTool.model input); [reflexivity|discriminate]. }
    repeat match goal with
           | |- context [if ?x then _ else _] => destruct x
           | |- context [match ?x with Some _ => _ | None => _ end] => destruct x
           end; cbn [snd sessions]; exact R.
Qed.

Lemma checkBudget_Some_enabled (sessionId : string) (store : DatabaseClient)
      (w : BudgetWarning) :
  fst (checkBudget env today sessionId store) = Some w ->
  (0 < Budget.max_per_session_usd (budget store))%Q \/
  (0 < Budget.max_per_day_usd (budget store))%Q.
Proof.
  unfold checkBudget, bind, run, ret.
  destruct (Qle_bool (Budget.max_per_session_usd (budget store)) 0) eqn:S.
  - destruct (Qle_bool (Budget.max_per_day_usd (budget store)) 0) eqn:D.
    + cbn. discriminate.
    + intros _. right. apply Qnot_le_lt. rewrite <- Qle_bool_iff. congruence.
  - intros _. left. apply Qnot_le_lt. rewrite <- Qle_bool_iff. congruence.
Qed.

Lemma handleRecordEvent_warned_checked (w : BudgetWarning) :
  fst recorded = RecordEventTool.BudgetWarned w ->
  exists db2, budget db2 = budget db /\ fst (checkBudget env today sid db2) = Some w.
Proof.
  rewrite handleRecordEvent_cases.
  destruct (Sessions.getById (sessions db) sid) as [session|]; [|discriminate].
  destruct (existsb _ (events db)); [discriminate|]. cbv zeta.
  destruct (RecordEventTool.checks_budget _); [|discriminate].
  destruct (fst (checkBudget env today sid _)) as [w'|] eqn:B; [|discriminate].
  destruct (existsb _ (events db) || String.eqb eventId warningId); [discriminate|].
  cbn [fst]. intros H. injection H as ->. eexists. split; [|exact B]. reflexivity.
Qed.

(** X22.  [handleRecordEvent] answers with a budget warning only after
    an LLM_RESPONSE or a TOOL_END event and only while a cap is enabled,
    and then the log has grown by exactly the recorded event followed by
    a BUDGET_WARNING event of the same session that carries the warning.
    In particular an LLM_REQUEST never warns, whatever it costs. *)
Theorem handleRecordEvent_warning (w : BudgetWarning) :
  fst recorded = RecordEventTool.BudgetWarned w ->
  (RecordEventTool.event_type input = Events.LLM_RESPONSE \/
   RecordEventTool.event_type input = Events.TOOL_END) /\
  ((0 < Budget.max_per_session_usd (budget db))%Q \/
   (0 < Budget.max_per_day_usd (budget db))%Q) /\
  events (snd recorded) = events db ++ [new_event; warning_event w].
Proof.
  rewrite handleRecordEvent_cases.
  destruct (Sessions.getById (sessions db) sid) as [session|]; [|discriminate].
  destruct (existsb _ (events db)); [discriminate|]. cbv zeta.
  destruct (RecordEventTool.checks_budget _) eqn:C; [|discriminate].
  destruct (fst (checkBudget env today sid _)) as [w'|] eqn:B; [|discriminate].
  destruct (existsb _ (events db) || String.eqb eventId warningId); [discriminate|].
  cbn [fst snd events]. intros H. injection H as ->.
  split; [|split; [|reflexivity]].
  - unfold RecordEventTool.checks_budget in C.
    destruct (RecordEventTool.event_type input); cbn in C; try discriminate; auto.
  - apply checkBudget_Some_enabled in B. exact B.
Qed.

(** X23.  A recorded event moves the counts of the session's summary by
    its own type and nothing else: a TOOL_END adds one tool call, an
    LLM_REQUEST one LLM request, an ERROR one error, and a budget warning
    logged along with it adds nothing.  The handler does not look at the
    end timestamp, so this holds for an ended session as well, whose end
    and duration stay as they were. *)
Theorem handleRecordEvent_counts :
  fst recorded <> RecordEventTool.NotFound sid ->
  fst recorded <> RecordEventTool.Raised ->
  exists before after,
    Aggregator.buildSessionSummary env Date_getTime db sid = Some before /\
    Aggregator.buildSessionSummary env Date_getTime (snd recorded) sid = Some after /\
    toolCallCount after
    = toolCallCount before
      + (if Events.EventType_eqb (RecordEventTool.event_type input) Events.TOOL_END
         then 1 else 0) /\
    llmRequestCount after
    = llmRequestCount before
      + (if Events.EventType_eqb (RecordEventTool.event_type input) Events.LLM_REQUEST
         then 1 else 0) /\
    errorCount after
    = errorCount before
      + (if Events.EventType_eqb (RecordEventTool.event_type input) Events.ERROR
         then 1 else 0) /\
    startedAt after = startedAt before /\
    endedAt after = endedAt before /\
    durationMs after = durationMs before.
Proof.
  rewrite handleRecordEvent_cases. unfold Aggregator.buildSessionSummary at 1.
  destruct (Sessions.getById (sessions db) sid) as [session|] eqn:G;
    [|intros H; now elim H].
  intros _.
  destruct (existsb _ (events db)); [intros H; now elim H|]. cbv zeta.
  assert (K : forall ss evs ws b,
             ss = sessions db \/
             ss = Sessions.updateModel (sessions db) sid
                    (nullish (RecordEventTool.model input) EmptyString) ->
             evs = (events db ++ [new_event]) ++ ws ->
             Forall (fun e => Events.event_type e = Events.BUDGET_WARNING) ws ->
             exists after,
               Aggregator.buildSessionSummary env Date_getTime
                 {| sessions := ss; events := evs; budget := b |} sid = Some after /\
               toolCallCount after
               = Events.countByType (events db) sid Events.TOOL_END
                 + (if Events.EventType_eqb (RecordEventTool.event_type input)
                         Events.TOOL_END then 1 else 0) /\
               llmRequestCount after
               = Events.countByType (events db) sid Events.LLM_REQUEST
                 + (if Events.EventType_eqb (RecordEventTool.event_type input)
                         Events.LLM_REQUEST then 1 else 0) /\
               errorCount after
               = Events.errorCount (events db) sid
                 + (if Events.EventType_eqb (RecordEventTool.event_type input)
                         Events.ERROR then 1 else 0) /\
               startedAt after = Sessions.started_at session /\
               endedAt after = Sessions.ended_at session /\
               durationMs after
               = (if truthy_string (Some (Sessions.started_at session))
                     && truthy_string (Sessions.ended_at session)
                  then Some (Date_getTime (nullish (Sessions.ended_at session) EmptyString)
                             - Date_getTime (Sessions.started_at session))
                  else None)).
  { intros ss evs ws b Hs -> Hw.
    assert (C : forall ty, ty <> Events.BUDGET_WARNING ->
                  Events.countByType ((events db ++ [new_event]) ++ ws) sid ty
                  = Events.countByType (events db) sid ty
                    + (if Events.EventType_eqb (RecordEventTool.event_type input) ty
                       then 1 else 0)).
    { intros ty Hty. revert Hw. induction ws as [|x ws IH] using rev_ind; intros Hw.
      - rewrite app_nil_r, countByType_snoc. cbn [Events.session_id Events.event_type].
        now rewrite String.eqb_refl.
      - apply Forall_app in Hw. destruct Hw as [Hw Hx].
        inversion Hx as [|? ? Tx _]; subst.
        rewrite app_assoc, countByType_snoc, IH, Tx by exact Hw.
        destruct ty; cbn; try congruence; rewrite ?andb_false_r; lia. }
    unfold Aggregator.buildSessionSummary. cbn [sessions events].
    assert (exists r, Sessions.getById ss sid = Some r /\
                      Sessions.started_at r = Sessions.started_at session /\
                      Sessions.ended_at r = Sessions.ended_at session)
      as (r & -> & R1 & R2).
    { destruct Hs as [->| ->].
      - exists session. auto.
      - rewrite getById_updateModel_same, G. cbn. eexists. split; [reflexivity|]. auto. }
    eexists. split; [reflexivity|].
    cbn [toolCallCount llmRequestCount errorCount startedAt endedAt durationMs].
    unfold Events.errorCount at 1.
    change (Array_length (filter (fun e => String.eqb (Events.session_id e) sid
                                           && Events.EventType_eqb (Events.event_type e)
                                                Events.ERROR)
                                 ((events db ++ [new_event]) ++ ws)))
      with (Events.countByType ((events db ++ [new_event]) ++ ws) sid Events.ERROR).
    rewrite !C by discriminate. rewrite R1, R2.
    repeat (split; [reflexivity|]). reflexivity. }
  destruct (truthy_string (RecordEventTool.model input)
            && negb (truthy_string (Sessions.model session)));
    (destruct (RecordEventTool.checks_budget _);
     [destruct (fst (checkBudget env today sid _)) as [w|];
      [destruct (existsb _ (events db) || String.eqb eventId warningId)|]|]);
    cbn [fst snd]; intros NR; try (now elim NR);
    match goal with
    | |- context [Aggregator.buildSessionSummary _ _
                    {| sessions := ?ss; events := events db ++ [?e; ?w]; budget := ?b |}] =>
        destruct (K ss (events db ++ [e; w]) [w] b) as (after & A & T)
    | |- context [Aggregator.buildSessionSummary _ _
                    {| sessions := ?ss; events := events db ++ [?e]; budget := ?b |}] =>
        destruct (K ss (events db ++ [e]) [] b) as (after & A & T)
    end;
    try (left; reflexivity); try (right; reflexivity);
    try (now rewrite <- app_assoc); try (now rewrite app_nil_r);
    try (repeat constructor);
    eexists; exists after; (split; [reflexivity|]); (split; [exact A|]);
    cbn [toolCallCount llmRequestCount errorCount startedAt endedAt durationMs];
    exact T.
Qed.
End RecordEventFacts.

(** The first event of the sample session that names a model. *)
Lemma handleRecordEvent_model_witness :
  let db := Sample.store Sample.no_budget in
  let input := Scenario.llm_request (Some "gemini-2.5-flash"%string) 100 in
  Sessions.getById (sessions db) (RecordEventTool.session_id input)
  = Some (Sample.session "s1" None) /\
  option_map Sessions.model
    (Sessions.getById (sessions (snd (Scenario.record input db))) "s1")
  = Some (Some "gemini-2.5-flash"%string).
Proof.
  cbv zeta. split; [reflexivity|].
  refine (proj2 (@handleRecordEvent_model Cost.no_env "2026-01-15"
                   (fun _ => "{}"%string) "2026-01-15T10:00:06.000Z" "e7"
                   "2026-01-15T10:00:06.001Z" "e8"
                   (Scenario.llm_request (Some "gemini-2.5-flash"%string) 100)
                   (Sample.store Sample.no_budget)
                   (Sample.session "s1" None) eq_refl) eq_refl eq_refl _).
  vm_compute. intuition discriminate.
Defined.

(** An LLM response in the sample session under the tight budget. *)
Lemma handleRecordEvent_warning_witness :
  let db := Sample.store Sample.tight_budget in
  let recorded := Scenario.record (Scenario.llm_response 400 700) db in
  exists w,
    fst recorded = RecordEventTool.BudgetWarned w /\
    Array_length (events (snd recorded)) = Array_length (events db) + 2.
Proof.
  cbv zeta.
  assert (H : exists w, fst (Scenario.record (Scenario.llm_response 400 700)
                               (Sample.store Sample.tight_budget))
                        = RecordEventTool.BudgetWarned w)
    by (eexists; vm_compute; reflexivity).
  destruct H as [w H]. exists w. split; [exact H|].
  unfold Scenario.record in *.
  rewrite (proj2 (proj2 (@handleRecordEvent_warning _ _ _ _ _ _ _ _ _ w H))).
  unfold Array_length. rewrite length_app. cbn [List.length]. lia.
Defined.

(** A tool call recorded in the sample session. *)
Lemma handleRecordEvent_counts_witness :
  let db := Sample.store Sample.no_budget in
  let recorded := Scenario.record (Scenario.tool_end "grep" 12) db in
  fst recorded <> RecordEventTool.NotFound "s1" /\
  fst recorded <> RecordEventTool.Raised /\
  exists before after,
    Aggregator.buildSessionSummary Cost.no_env Sample.epoch db "s1" = Some before /\
    Aggregator.buildSessionSummary Cost.no_env Sample.epoch (snd recorded) "s1"
    = Some after /\
    toolCallCount after = toolCallCount before + 1.
Proof.
  cbv zeta.
  assert (N : fst (Scenario.record (Scenario.tool_end "grep" 12)
                     (Sample.store Sample.no_budget))
              <> RecordEventTool.NotFound "s1") by (vm_compute; discriminate).
  assert (R : fst (Scenario.record (Scenario.tool_end "grep" 12)
                     (Sample.store Sample.no_budget))
              <> RecordEventTool.Raised) by (vm_compute; discriminate).
  split; [exact N|]. split; [exact R|].
  destruct (@handleRecordEvent_counts Cost.no_env Sample.epoch "2026-01-15"
              (fun _ => "{}"%string) "2026-01-15T10:00:06.000Z" "e7"
              "2026-01-15T10:00:06.001Z" "e8" (Scenario.tool_end "grep" 12)
              (Sample.store Sample.no_budget) N R)
    as (before & after & B & A & T & _).
  exists before, after. split; [exact B|]. split; [exact A|exact T].
Defined.

(** A tool call reported after the sample session was ended is recorded
    all the same. *)
Example ended_session_still_records :
  let db := {| sessions := [Sample.session "s1" (Some "2026-01-15T10:00:05.500Z"%string)];
               events := Sample.busy_events;
               budget := Sample.no_budget |} in
  fst (Scenario.record (Scenario.tool_end "grep" 12) db)
  = RecordEventTool.Recorded Events.TOOL_END (Some "grep"%string) (Some 12) /\
  Array_length (events (snd (Scenario.record (Scenario.tool_end "grep" 12) db)))
  = Array_length (events db) + 1.
Proof. split; reflexivity. Qed.

(* ----------------------------------------------------------------- *)
(** ** The handlers keep the constraints of the schema *)

Lemma well_formed_grow (db : DatabaseClient) (ss : Sessions.Table)
      (added : Events.Table) (b : Budget.BudgetRow) :
  NoDup (map Sessions.id ss) ->
  incl (map Sessions.id (sessions db)) (map Sessions.id ss) ->
  NoDup (map Events.id (events db ++ added)) ->
  Forall (fun e => In (Events.session_id e) (map Sessions.id ss)) added ->
  Notions.well_formed db ->
  Notions.well_formed {| sessions := ss; events := events db ++ added; budget := b |}.
Proof.
  intros NS I NE FA (_ & _ & FK). unfold Notions.well_formed. cbn [sessions events].
  split; [exact NS|]. split; [exact NE|].
  apply Forall_app. split; [|exact FA].
  eapply Forall_impl; [|exact FK]. intros e He. now apply I.
Qed.

Lemma existsb_false_id (t : Events.Table) (eid : string) :
  existsb (fun e => String.eqb (Events.id e) eid) t = false ->
  ~ In eid (map Events.id t).
Proof. intros H. rewrite <- existsb_event_id. congruence. Qed.

(** X24.  The four handlers that write keep the constraints of the
    schema: from a store in which session ids are unique, event ids are
    unique and every event belongs to a session, each of them returns
    such a store, whatever it answers. *)
Theorem handlers_keep_the_schema (db : DatabaseClient) :
  Notions.well_formed db ->
  (forall sessionId eventId now input,
     Notions.well_formed
       (snd (StartSession.handleStartSession sessionId eventId now input db))) /\
  (forall env today warning_json now eventId warnedAt warningId input,
     Notions.well_formed
       (snd (RecordEventTool.handleRecordEvent env today warning_json now eventId
               warnedAt warningId input db))) /\
  (forall env Date_getTime now eventId session_id,
     Notions.well_formed
       (snd (EndSession.handleEndSession env Date_getTime now eventId session_id db))) /\
  (forall input, Notions.well_formed (snd (SetBudget.handleSetBudget input db))).
Proof.
  intros WF. pose proof WF as (NS & NE & FK). split; [|split; [|split]].
  - intros sessionId eventId now input. rewrite handleStartSession_cases.
    destruct (existsb _ (sessions db)) eqn:X; cbn [orb snd]; [exact WF|].
    destruct (existsb _ (events db)) eqn:Y; cbn [snd]; [exact WF|].
    apply well_formed_grow; [| | |repeat constructor|exact WF].
    + rewrite map_app. apply NoDup_snoc; [exact NS|].
      cbn. rewrite <- existsb_id. congruence.
    + rewrite map_app. now apply incl_appl, incl_refl.
    + rewrite map_app. apply NoDup_snoc; [exact NE|]. now apply existsb_false_id.
    + cbn. rewrite map_app. apply in_or_app. right. now left.
  - intros env today warning_json now eventId warnedAt warningId input.
    rewrite handleRecordEvent_cases.
    destruct (Sessions.getById (sessions db) (RecordEventTool.session_id input))
      as [session|] eqn:G; [|exact WF].
    assert (I : In (RecordEventTool.session_id input) (map Sessions.id (sessions db))).
    { destruct (getById_Some _ _ G) as [I E]. rewrite <- E. now apply in_map. }
    destruct (existsb _ (events db)) eqn:X; [exact WF|]. cbv zeta.
    apply existsb_false_id in X.
    match goal with |- context [events db ++ [?e]] => set (ev := e) end.
    destruct (truthy_string (RecordEventTool.model input)
              && negb (truthy_string (Sessions.model session)));
      (match goal with
       | |- context [{| sessions := ?s; events := events db ++ [ev]; budget := budget db |}] =>
           assert (One : Notions.well_formed
                           {| sessions := s; events := events db ++ [ev];
                              budget := budget db |})
       end;
       [apply well_formed_grow;
        [rewrite ?updateModel_ids; exact NS
        |rewrite ?updateModel_ids; apply incl_refl
        |rewrite map_app; apply NoDup_snoc; [exact NE|exact X]
        |constructor; [|constructor]; cbn; rewrite ?updateModel_ids; exact I
        |exact WF]|]);
      (destruct (RecordEventTool.checks_budget _); [|exact One]);
      (destruct (fst (checkBudget env today _ _)) as [w|]; [|exact One]);
      (destruct (existsb _ (events db)) eqn:Y; cbn [orb snd]; [exact One|]);
      (destruct (String.eqb_spec eventId warningId) as [E|NE']; [exact One|]);
      apply existsb_false_id in Y; cbn [sessions];
      (apply well_formed_grow;
       [rewrite ?updateModel_ids; exact NS
       |rewrite ?updateModel_ids; apply incl_refl
       |
       |constructor; [|constructor; [|constructor]]; cbn;
        rewrite ?updateModel_ids; exact I
       |exact WF]);
      (change (events db ++ [ev; ?b]) with (events db ++ [ev] ++ [b]);
       rewrite app_assoc, map_app; apply NoDup_snoc;
       [rewrite map_app; apply NoDup_snoc; [exact NE|exact X]
       |rewrite map_app; cbn; intros H; apply in_app_or in H;
        destruct H as [H|[H|[]]]; [now apply Y|congruence]]).
  - intros env Date_getTime now eventId session_id. rewrite handleEndSession_cases.
    destruct (Sessions.getById (sessions db) session_id) as [session|] eqn:G; [|exact WF].
    assert (I : In session_id (map Sessions.id (sessions db))).
    { destruct (getById_Some _ _ G) as [I E]. rewrite <- E. now apply in_map. }
    destruct (truthy_string _); [exact WF|].
    destruct (existsb _ (events db)) eqn:X; [exact WF|]. cbv zeta. cbn [snd].
    apply existsb_false_id in X.
    apply well_formed_grow; [now rewrite end_ids|rewrite end_ids; apply incl_refl| |
                             |exact WF].
    + rewrite map_app. apply NoDup_snoc; [exact NE|exact X].
    + constructor; [|constructor]. cbn. now rewrite end_ids.
  - intros input. exact WF.
Qed.

(** From the sample store, a recorded tool call. *)
Lemma handlers_keep_the_schema_witness :
  Notions.well_formed (Sample.store Sample.no_budget) /\
  Notions.well_formed
    (snd (Scenario.record (Scenario.tool_end "grep" 12) (Sample.store Sample.no_budget))).
Proof.
  assert (WF : Notions.well_formed (Sample.store Sample.no_budget)).
  { unfold Notions.well_formed. cbn.
    split; [|split].
    - repeat constructor; simpl; intuition discriminate.
    - repeat constructor; simpl; intuition discriminate.
    - repeat constructor. }
  split; [exact WF|].
  apply (proj1 (proj2 (@handlers_keep_the_schema (Sample.store Sample.no_budget) WF))).
Defined.

(* ----------------------------------------------------------------- *)
(** ** [handleSetBudget] and the warnings *)

(** X25.  Setting both caps to zero switches the warnings off: after
    such a call of [handleSetBudget], no call of [handleRecordEvent]
    answers with a budget warning, whatever the sessions have cost. *)
Theorem zero_caps_silence_warnings (env : Cost.Env) (today : string)
        (warning_json : BudgetWarning -> string)
        (now eventId warnedAt warningId : string)
        (session_cap day_cap : Q) (threshold : option Q)
        (input : RecordEventTool.Input) (db : DatabaseClient) (w : BudgetWarning) :
  (session_cap <= 0)%Q -> (day_cap <= 0)%Q ->
  fst (RecordEventTool.handleRecordEvent env today warning_json now eventId warnedAt
         warningId input
         (snd (SetBudget.handleSetBudget
                 {| SetBudget.max_per_session_usd := Some session_cap;
                    SetBudget.max_per_day_usd := Some day_cap;
                    SetBudget.alert_threshold_pct := threshold |} db)))
  <> RecordEventTool.BudgetWarned w.
Proof.
  intros S D H. apply handleRecordEvent_warned_checked in H.
  destruct H as (db2 & B & C). apply checkBudget_Some_enabled in C.
  rewrite B in C. cbn in C. lra.
Qed.

(** The tight budget of the sample store is switched off before the
    response that would have warned. *)
Lemma zero_caps_silence_warnings_witness :
  exists w,
    fst (Scenario.record (Scenario.llm_response 400 700)
           (Sample.store Sample.tight_budget)) = RecordEventTool.BudgetWarned w /\
    fst (Scenario.record (Scenario.llm_response 400 700)
           (snd (SetBudget.handleSetBudget
                   {| SetBudget.max_per_session_usd := Some 0%Q;
                      SetBudget.max_per_day_usd := Some 0%Q;
                      SetBudget.alert_threshold_pct := None |}
                   (Sample.store Sample.tight_budget))))
    <> RecordEventTool.BudgetWarned w.
Proof.
  eexists. split; [vm_compute; reflexivity|].
  apply zero_caps_silence_warnings; vm_compute; discriminate.
Defined.

(* ----------------------------------------------------------------- *)
(** ** [handleGetLatencyStats] *)

Lemma computePercentiles_nonempty (l : list Z) :
  (Array_length l =? 0) = false ->
  exists st, Latency.computePercentiles l = Some st /\ 0 < sampleCount st.
Proof.
  intros H. unfold Latency.computePercentiles. rewrite H.
  eexists. split; [reflexivity|]. cbn [sampleCount].
  apply Z.eqb_neq in H. unfold Array_length in *. rewrite Array_sort_length. lia.
Qed.

Lemma Array_length_map (A B : Type) (f : A -> B) (l : list A) :
  Array_length (map f l) = Array_length l.
Proof. unfold Array_length. now rewrite length_map. Qed.

(** X26.  [handleGetLatencyStats] never answers 'No data': once the
    rows are known not to be empty the percentiles exist.  Statistics it
    reports rest on at least one sample, and the global breakdown always
    comes with at least one tool and with the overall figures. *)
Theorem handleGetLatencyStats_has_data (input : GetLatencyStats.Input)
        (db : DatabaseClient) :
  GetLatencyStats.handleGetLatencyStats input db <> GetLatencyStats.NoData /\
  (forall sid tool st,
     GetLatencyStats.handleGetLatencyStats input db = GetLatencyStats.Stats sid tool st ->
     0 < sampleCount st) /\
  (forall toolStats overall,
     GetLatencyStats.handleGetLatencyStats input db
     = GetLatencyStats.Breakdown toolStats overall ->
     toolStats <> [] /\ exists st, overall = Some st /\
                                   sampleCount st = Notions.total_calls toolStats).
Proof.
  unfold GetLatencyStats.handleGetLatencyStats.
  destruct (truthy_string (GetLatencyStats.session_id input)).
  - cbv zeta.
    destruct (Sessions.getById _ _); [|repeat split; discriminate].
    destruct (Array_length _ =? 0) eqn:E; [repeat split; discriminate|].
    rewrite <- (Array_length_map Events.d_duration_ms) in E.
    destruct (computePercentiles_nonempty _ E) as (st & -> & P).
    split; [discriminate|]. split; [|discriminate].
    intros sid tool st' H. injection H as _ _ <-. exact P.
  - cbv zeta.
    destruct (Array_length _ =? 0) eqn:E; [repeat split; discriminate|].
    pose proof E as E'.
    rewrite <- (Array_length_map Latency.duration_ms) in E.
    destruct (computePercentiles_nonempty _ E) as (st & C & P). rewrite C.
    destruct (truthy_string (GetLatencyStats.tool_name input)).
    + split; [discriminate|]. split; [|discriminate].
      intros sid tool st' H. injection H as _ _ <-. exact P.
    + split; [discriminate|]. split; [discriminate|].
      intros toolStats overall H. injection H as <- <-.
      apply computePercentiles_sampleCount in C. destruct C as [C _].
      rewrite Array_length_map in C.
      pose proof (breakdown_total_calls
                    (GetLatencyStats.for_tool Latency.tool_name
                       (GetLatencyStats.tool_name input)
                       (Events.allToolDurations (events db)))) as T.
      split.
      * intros Z0. rewrite Z0 in T. cbn in T. rewrite <- T in E'. discriminate.
      * exists st. split; [reflexivity|]. now rewrite T.
Qed.

Section LatencyOfSession.
Variable env : Cost.Env.
Variable Date_getTime : string -> Z.
Variable db : DatabaseClient.
Variable sid : string.

Local Abbreviation rows_of_session :=
  (map (fun r => {| Latency.tool_name := Events.d_tool_name r;
                    Latency.duration_ms := Events.d_duration_ms r;
                    Latency.error := 0 |}) (Events.toolDurations (events db) sid)).

Lemma for_tool_durations (tool : string) :
  map Events.d_duration_ms
      (filter (fun r => String.eqb (Events.d_tool_name r) tool)
              (Events.toolDurations (events db) sid))
  = Notions.durations_of tool rows_of_session.
Proof.
  unfold Notions.durations_of.
  induction (Events.toolDurations (events db) sid) as [|r l IH]; [reflexivity|].
  cbn [map filter Latency.tool_name].
  destruct (String.eqb (Events.d_tool_name r) tool); cbn [map Latency.duration_ms];
    now rewrite IH.
Qed.

(** X27.  For a session, [handleGetLatencyStats] and the session
    summary agree.  Without a tool filter it reports the overall latency
    of the summary, or that there are no TOOL_END events when the summary
    has none; with a tool filter it reports the statistics of that tool's
    entry in the summary's breakdown, or that there are no TOOL_END
    events when the breakdown has no such entry. *)
Theorem session_latency_matches_summary (s : SessionSummary) :
  sid <> EmptyString ->
  Aggregator.buildSessionSummary env Date_getTime db sid = Some s ->
  GetLatencyStats.handleGetLatencyStats
    {| GetLatencyStats.tool_name := None; GetLatencyStats.session_id := Some sid |} db
  = match overallLatency s with
    | Some st => GetLatencyStats.Stats (Some sid) None st
    | None => GetLatencyStats.NoToolEnd None (Some sid)
    end /\
  forall tool, tool <> EmptyString ->
    (forall st,
       GetLatencyStats.handleGetLatencyStats
         {| GetLatencyStats.tool_name := Some tool;
            GetLatencyStats.session_id := Some sid |} db
       = GetLatencyStats.Stats (Some sid) (Some tool) st
       <-> exists t, In t (toolBreakdown s) /\ toolName t = tool /\ stats t = st) /\
    (GetLatencyStats.handleGetLatencyStats
       {| GetLatencyStats.tool_name := Some tool;
          GetLatencyStats.session_id := Some sid |} db
     = GetLatencyStats.NoToolEnd (Some tool) (Some sid)
     <-> ~ In tool (map toolName (toolBreakdown s))).
Proof.
  intros NZ. unfold Aggregator.buildSessionSummary, GetLatencyStats.handleGetLatencyStats.
  cbn [GetLatencyStats.session_id GetLatencyStats.tool_name truthy_string nullish].
  apply String.eqb_neq in NZ. rewrite NZ. cbn [negb]. cbv zeta.
  destruct (Sessions.getById (sessions db) sid) as [session|]; [|discriminate].
  intros H. injection H as <-. cbn [overallLatency toolBreakdown]. split.
  - unfold GetLatencyStats.for_tool, GetLatencyStats.shown. cbn [truthy_string].
    destruct (Array_length (Events.toolDurations (events db) sid) =? 0) eqn:E.
    + apply Z.eqb_eq in E. unfold Array_length in E.
      destruct (Events.toolDurations (events db) sid); [reflexivity|simpl in E; lia].
    + rewrite <- (Array_length_map Events.d_duration_ms) in E.
      destruct (computePercentiles_nonempty _ E) as (st & -> & _). reflexivity.
  - intros tool NT. apply String.eqb_neq in NT.
    unfold GetLatencyStats.for_tool, GetLatencyStats.shown.
    cbn [truthy_string nullish]. rewrite NT. cbn [negb].
    rewrite for_tool_durations.
    set (filtered := filter _ (Events.toolDurations (events db) sid)).
    assert (L : Array_length filtered
                = Array_length (Notions.durations_of tool rows_of_session)).
    { rewrite <- for_tool_durations. symmetry. apply Array_length_map. }
    rewrite L. clear L filtered.
    assert (B : forall t, In t (Latency.computeToolLatencyStats rows_of_session) ->
                  toolName t = tool ->
                  Latency.computePercentiles (Notions.durations_of tool rows_of_session)
                  = Some (stats t)).
    { intros t Ht <-. destruct (computeToolLatencyStats_entry _ _ Ht) as (st & C & _ & Et).
      rewrite C. f_equal. rewrite Et at 1. reflexivity. }
    rewrite breakdown_names, <- durations_of_In.
    destruct (Array_length (Notions.durations_of tool rows_of_session) =? 0) eqn:E.
    + assert (Z0 : Notions.durations_of tool rows_of_session = []).
      { apply Z.eqb_eq in E. unfold Array_length in E.
        destruct (Notions.durations_of tool rows_of_session);
          [reflexivity|simpl in E; lia]. }
      split; [split; [discriminate|]|split; [intros _ H; now apply H|reflexivity]].
      intros (t & Ht & Hn & _). apply B in Ht; [|exact Hn].
      rewrite Z0 in Ht. discriminate.
    + assert (NE : Notions.durations_of tool rows_of_session <> []).
      { intros Z0. rewrite Z0 in E. discriminate. }
      destruct (computePercentiles_nonempty _ E) as (st & C & _). rewrite C.
      split; [split|split; [discriminate|intros H; now elim H]].
      * intros H. injection H as <-.
        apply durations_of_In, breakdown_names, in_map_iff in NE.
        destruct NE as (t & Hn & Ht). exists t. split; [exact Ht|]. split; [exact Hn|].
        apply B in Ht; [|exact Hn]. congruence.
      * intros (t & Ht & Hn & <-). apply B in Ht; [|exact Hn]. congruence.
Qed.
End LatencyOfSession.

(** The sample session and its tool. *)
Lemma session_latency_matches_summary_witness :
  exists s,
    "s1"%string <> EmptyString /\
    Aggregator.buildSessionSummary Cost.no_env Sample.epoch
      (Sample.store Sample.no_budget) "s1" = Some s /\
    GetLatencyStats.handleGetLatencyStats
      {| GetLatencyStats.tool_name := None; GetLatencyStats.session_id := Some "s1"%string |}
      (Sample.store Sample.no_budget)
    = match overallLatency s with
      | Some st => GetLatencyStats.Stats (Some "s1"%string) None st
      | None => GetLatencyStats.NoToolEnd None (Some "s1"%string)
      end.
Proof.
  eexists.
  assert (N : "s1"%string <> EmptyString) by discriminate.
  split; [exact N|]. split; [reflexivity|].
  exact (proj1 (@session_latency_matches_summary Cost.no_env Sample.epoch
                  (Sample.store Sample.no_budget) "s1" _ N eq_refl)).
Defined.

(* ----------------------------------------------------------------- *)
(** ** [listRecent] and [listByStatus] *)

Lemma sql_limit_prefix (A : Type) (limit : Z) (rows : list A) :
  exists rest, rows = SessionStmts.sql_limit limit rows ++ rest.
Proof.
  unfold SessionStmts.sql_limit. destruct (limit <? 0).
  - exists []. now rewrite app_nil_r.
  - exists (skipn (Z.to_nat limit) rows). symmetry. apply firstn_skipn.
Qed.

Lemma sql_limit_length (A : Type) (limit : Z) (rows : list A) :
  0 <= limit ->
  Array_length (SessionStmts.sql_limit limit rows) = Z.min limit (Array_length rows).
Proof.
  intros H. unfold SessionStmts.sql_limit, Array_length.
  destruct (Z.ltb_spec limit 0) as [|_]; [lia|]. rewrite length_firstn. lia.
Qed.

Lemma StronglySorted_prefix (A : Type) (R : A -> A -> Prop) (l l' : list A) :
  StronglySorted R (l ++ l') -> StronglySorted R l.
Proof.
  induction l as [|x l IH]; intros H; [constructor|].
  simpl in H. inversion H as [|? ? Hs Hx]; subst.
  constructor; [now apply IH|].
  apply Forall_app in Hx. tauto.
Qed.

(** X28.  [listByStatus] returns rows of the table that have the
    requested status, the most recently started first, and as many of
    them as the limit allows.  Every row it returns has a session
    summary, so the listing never lacks the figures of a row. *)
Theorem listByStatus_rows (env : Cost.Env) (Date_getTime : string -> Z)
        (db : DatabaseClient) (status : SessionStmts.Status) (limit : Z) :
  let rows := SessionStmts.listByStatus (sessions db) status limit in
  Forall (fun r => In r (sessions db) /\ SessionStmts.has_status status r = true) rows /\
  StronglySorted (fun a b => String.compare (Sessions.started_at b) (Sessions.started_at a)
                             <> Gt) rows /\
  (0 <= limit ->
   Array_length rows
   = Z.min limit (Array_length (filter (SessionStmts.has_status status) (sessions db)))) /\
  Forall (fun r => Aggregator.buildSessionSummary env Date_getTime db (Sessions.id r)
                   <> None) rows.
Proof.
  cbv zeta. unfold SessionStmts.listByStatus.
  set (matching := filter (SessionStmts.has_status status) (sessions db)).
  set (sorted := Array_sort SessionStmts.by_started_at_desc matching).
  destruct (sql_limit_prefix limit sorted) as [rest E].
  assert (In_rows : forall r, In r (SessionStmts.sql_limit limit sorted) ->
                              In r (sessions db) /\ SessionStmts.has_status status r = true).
  { intros r Hr. apply filter_In.
    apply (Permutation_in _ (Permutation_sym
             (Array_sort_perm SessionStmts.by_started_at_desc matching))).
    fold sorted. rewrite E. apply in_or_app. now left. }
  split; [now apply Forall_forall|]. split; [|split].
  - apply StronglySorted_prefix with rest. rewrite <- E.
    pose proof (@Array_sort_weak_sorted _ _ by_started_at_desc_total
                  by_started_at_desc_trans matching) as S.
    fold sorted in S. clear -S. induction S as [|a l Hs IH Ha]; constructor; auto.
    eapply Forall_impl; [|exact Ha]. intros b Hb.
    unfold SessionStmts.by_started_at_desc in Hb. cbv beta in Hb.
    destruct (String.compare (Sessions.started_at b) (Sessions.started_at a));
      [discriminate|discriminate|lia].
  - intros H. rewrite sql_limit_length by exact H. unfold sorted, Array_length.
    now rewrite Array_sort_length.
  - apply Forall_forall. intros r Hr. apply In_rows in Hr. destruct Hr as [Hr _].
    unfold Aggregator.buildSessionSummary.
    destruct (Sessions.getById (sessions db) (Sessions.id r)) eqn:G; [discriminate|].
    exfalso. apply getById_None in G. apply G. now apply in_map.
Qed.

(* ----------------------------------------------------------------- *)
(** ** [handleExportMetrics] *)

Section ExportFacts.
Variable env : Cost.Env.
Variable Date_getTime : string -> Z.
Variable db : DatabaseClient.

Local Abbreviation known :=
  (fun id => existsb (fun s => String.eqb (Sessions.id s) id) (sessions db)).

Lemma buildSessionSummary_sessionId (id : string) (s : SessionSummary) :
  Aggregator.buildSessionSummary env Date_getTime db id = Some s -> sessionId s = id.
Proof.
  unfold Aggregator.buildSessionSummary.
  destruct (Sessions.getById (sessions db) id) as [session|] eqn:G; [|discriminate].
  intros H. injection H as <-. cbn. now destruct (getById_Some _ _ G).
Qed.

Lemma buildSessionSummary_None (id : string) :
  Aggregator.buildSessionSummary env Date_getTime db id = None
  <-> ~ In id (map Sessions.id (sessions db)).
Proof.
  rewrite <- getById_None. unfold Aggregator.buildSessionSummary.
  destruct (Sessions.getById (sessions db) id); split; congruence.
Qed.

Lemma summaries_of_ids (ids : list string) :
  map sessionId (ExportMetrics.summaries_of env Date_getTime db ids) = filter known ids /\
  Forall (fun s => Aggregator.buildSessionSummary env Date_getTime db (sessionId s) = Some s)
         (ExportMetrics.summaries_of env Date_getTime db ids).
Proof.
  unfold ExportMetrics.summaries_of.
  induction ids as [|id ids [IH1 IH2]]; [split; [reflexivity|constructor]|].
  cbn [flat_map filter].
  destruct (Aggregator.buildSessionSummary env Date_getTime db id) as [s|] eqn:B.
  - assert (K : known id = true).
    { apply existsb_id. destruct (in_dec string_dec id (map Sessions.id (sessions db)))
        as [I|N]; [exact I|]. apply buildSessionSummary_None in N. congruence. }
    rewrite K. pose proof (buildSessionSummary_sessionId _ B) as E.
    cbn [app map]. split; [now rewrite IH1, E|].
    constructor; [now rewrite E|exact IH2].
  - assert (K : known id = false).
    { apply not_true_is_false. rewrite existsb_id. now apply buildSessionSummary_None. }
    rewrite K. cbn [app]. auto.
Qed.

(** X29.  Given session ids, [handleExportMetrics] exports the
    summaries of those that exist, in the order given and as often as
    given, and skips the others; it answers that there are no sessions
    exactly when none of them exists.  Given no id (or an empty list) it
    exports the sessions of [listRecent] under the input's limit. *)
Theorem handleExportMetrics_selection (input : ExportMetrics.Input) :
  let requested :=
    match ExportMetrics.session_ids input with
    | Some (id :: ids) => id :: ids
    | _ => map Sessions.id (SessionStmts.listRecent (sessions db) (ExportMetrics.limit input))
    end in
  match ExportMetrics.handleExportMetrics env Date_getTime input db with
  | ExportMetrics.NoSessions => filter known requested = []
  | ExportMetrics.Exported format summaries =>
      format = ExportMetrics.format input /\
      summaries <> [] /\
      map sessionId summaries = filter known requested /\
      Forall (fun s => Aggregator.buildSessionSummary env Date_getTime db (sessionId s)
                       = Some s) summaries
  end.
Proof.
  cbv zeta. unfold ExportMetrics.handleExportMetrics.
  set (requested := match ExportMetrics.session_ids input with
                    | Some (id :: ids) => id :: ids
                    | _ => map Sessions.id
                             (SessionStmts.listRecent (sessions db)
                                (ExportMetrics.limit input))
                    end).
  assert (R : (if match ExportMetrics.session_ids input with
                  | Some ids => Array_length ids >? 0
                  | None => false
                  end
               then nullish (ExportMetrics.session_ids input) []
               else map Sessions.id (SessionStmts.listRecent (sessions db)
                                       (ExportMetrics.limit input)))
              = requested).
  { unfold requested. destruct (ExportMetrics.session_ids input) as [[|id ids]|];
      reflexivity. }
  cbv zeta. rewrite R.
  destruct (summaries_of_ids requested) as [M F].
  destruct (ExportMetrics.summaries_of env Date_getTime db requested) as [|s l] eqn:Sm.
  - cbn. now rewrite <- M.
  - cbn [Array_length List.length].
    destruct (Z.eqb_spec (Z.of_nat (Datatypes.S (List.length l))) 0) as [Z0|_]; [lia|].
    split; [reflexivity|]. split; [discriminate|]. split; [exact M|exact F].
Qed.
End ExportFacts.

(** An unknown id between two mentions of the sample session. *)
Example export_skips_unknown_ids :
  match ExportMetrics.handleExportMetrics Cost.no_env Sample.epoch
          {| ExportMetrics.session_ids := Some ["s1"; "nope"; "s1"]%string;
             ExportMetrics.format := ExportMetrics.csv;
             ExportMetrics.limit := 50 |}
          (Sample.store Sample.no_budget) with
  | ExportMetrics.Exported _ summaries => map sessionId summaries = ["s1"; "s1"]%string
  | ExportMetrics.NoSessions => False
  end.
Proof. reflexivity. Qed.

(* ----------------------------------------------------------------- *)
(** ** [csvEscape] *)

Lemma double_quotes_injective (a b : string) :
  ExportMetrics.double_quotes a = ExportMetrics.double_quotes b -> a = b.
Proof.
  revert b. induction a as [|x a IH]; intros [|y b]; cbn [ExportMetrics.double_quotes].
  - reflexivity.
  - destruct (Ascii.eqb y ExportMetrics.dquote); discriminate.
  - destruct (Ascii.eqb x ExportMetrics.dquote); discriminate.
  - destruct (Ascii.eqb_spec x ExportMetrics.dquote) as [Ex|Nx],
             (Ascii.eqb_spec y ExportMetrics.dquote) as [Ey|Ny]; intros H.
    + injection H as H. subst. f_equal. now apply IH.
    + injection H as H1 H2. congruence.
    + injection H as H1 H2. congruence.
    + injection H as H1 H2. subst. f_equal. now apply IH.
Qed.

Lemma String_append_cancel_r (a b : string) (c : ascii) :
  (a ++ String c EmptyString)%string = (b ++ String c EmptyString)%string -> a = b.
Proof.
  revert b. induction a as [|x a IH]; intros [|y b]; cbn [String.append]; intros H.
  - reflexivity.
  - injection H as _ H. destruct b; discriminate.
  - injection H as _ H. destruct a; discriminate.
  - injection H as -> H. f_equal. now apply IH.
Qed.

Lemma has_char_head (c : ascii) (s : string) :
  ExportMetrics.has_char c (String c s) = true.
Proof. cbn. now rewrite Ascii.eqb_refl. Qed.

(** Whether [csvEscape] quotes the value. *)
Lemma csvEscape_cases (val : string) :
  (ExportMetrics.has_char ExportMetrics.comma val
   || ExportMetrics.has_char ExportMetrics.dquote val
   || ExportMetrics.has_char ExportMetrics.newline val = false /\
   ExportMetrics.csvEscape val = val) \/
  (ExportMetrics.has_char ExportMetrics.comma val
   || ExportMetrics.has_char ExportMetrics.dquote val
   || ExportMetrics.has_char ExportMetrics.newline val = true /\
   ExportMetrics.csvEscape val
   = String ExportMetrics.dquote
       (ExportMetrics.double_quotes val ++ String ExportMetrics.dquote EmptyString)).
Proof.
  unfold ExportMetrics.csvEscape.
  destruct (ExportMetrics.has_char ExportMetrics.comma val
            || ExportMetrics.has_char ExportMetrics.dquote val
            || ExportMetrics.has_char ExportMetrics.newline val); auto.
Qed.

(** X30.  [csvEscape] loses nothing: two values with the same escaped
    form are the same value.  A value is returned as it is exactly when
    it holds no comma, no double quote and no line feed; otherwise it
    comes back between double quotes. *)
Theorem csvEscape_injective (a b : string) :
  (ExportMetrics.csvEscape a = ExportMetrics.csvEscape b -> a = b) /\
  (ExportMetrics.csvEscape a = a <->
   ExportMetrics.has_char ExportMetrics.comma a = false /\
   ExportMetrics.has_char ExportMetrics.dquote a = false /\
   ExportMetrics.has_char ExportMetrics.newline a = false).
Proof.
  split.
  - destruct (csvEscape_cases a) as [[Ha ->]|[Ha ->]],
             (csvEscape_cases b) as [[Hb ->]|[Hb ->]]; intros H.
    + exact H.
    + exfalso. subst a. rewrite has_char_head in Ha.
      rewrite orb_true_r in Ha. discriminate.
    + exfalso. subst b. rewrite has_char_head in Hb.
      rewrite orb_true_r in Hb. discriminate.
    + injection H as H. apply String_append_cancel_r in H.
      now apply double_quotes_injective.
  - rewrite <- !orb_false_iff, orb_assoc.
    destruct (csvEscape_cases a) as [[Ha ->]|[Ha ->]].
    + tauto.
    + split; [|congruence]. intros H. exfalso.
      assert (L : String.length (String ExportMetrics.dquote
                    (ExportMetrics.double_quotes a
                     ++ String ExportMetrics.dquote EmptyString)) = String.length a)
        by now rewrite H.
      cbn [String.length] in L.
      assert (G : forall s t, String.length (s ++ t) = (String.length s + String.length t)%nat).
      { induction s as [|x s IH]; intros t; cbn; [reflexivity|now rewrite IH]. }
      assert (D : forall s, (String.length s <= String.length (ExportMetrics.double_quotes s))%nat).
      { induction s as [|x s IH]; cbn; [lia|].
        destruct (Ascii.eqb x ExportMetrics.dquote); cbn; lia. }
      rewrite G in L. cbn in L. specialize (D a). lia.
Qed.

(** A value that holds a double quote comes back between double quotes
    with the inner one written twice. *)
Example csvEscape_doubles_a_quote :
  ExportMetrics.csvEscape
    (String "a" (String ExportMetrics.dquote (String "b" EmptyString)))
  = String ExportMetrics.dquote
      (String "a" (String ExportMetrics.dquote (String ExportMetrics.dquote
         (String "b" (String ExportMetrics.dquote EmptyString))))).
Proof. reflexivity. Qed.
